(** * Flash-loan arbitrage bot: settlement contract and orchestrator script

    A shallow embedding of

    - the Solidity contract [FlashLoanArbitrage]
      (contracts/interfaces/IFlashLoanReceiverV3.sol) together with the
      collaborators it calls (router, lending pool, ERC-20 ledger), and
    - the JavaScript orchestrator (scripts/weth-dai-arbitrage.js) and the
      order-book price monitor (PriceMonitor.findArbitrageOpportunities),

    followed by the properties of the specification, each proved or
    refuted on these definitions.

    Solidity values of type [uint256] are integers of [Z]; checked
    arithmetic (Solidity ^0.8) reverts with [Panic 0x11] outside
    [0, 2^256), and [unchecked] blocks wrap modulo [2^256].  JavaScript
    [Number]s are IEEE-754 binary64 values ([PrimFloat]); [BigInt]s are
    integers of [Z]. *)

From Stdlib Require Import ZArith List String Ascii Bool Lia.
From Stdlib Require Import Floats.
Import ListNotations.

Set Implicit Arguments.
Set Warnings "-inexact-float".

Local Open Scope Z_scope.

(* ===================================================================== *)
(** * Part I.  The EVM side                                               *)
(* ===================================================================== *)

Module Evm.

Definition address := Z.

Definition MAX_UINT256 : Z := 2 ^ 256 - 1.

(** The custom errors of the contract file, the two built-in revert
    forms ([Error(string)] and [Panic(uint256)]), and the error that
    [revert(string(reason))] builds from caught return data. *)
Inductive error : Type :=
| InvalidAmount (amount : Z) (reason : string)
| InvalidAddress (addr : address) (reason : string)
| InvalidConfiguration (reason : string)
| UnauthorizedCaller (caller expected : address)
| InsufficientProfit (actual expected : Z)
| ExcessiveSlippage (expected actual : Z)
| TransactionTimeout
| PriceDeviation (expected actual : Z)
| Error (message : string)
| ErrorOfBytes (reason : error)
| Panic (code : Z).

Definition ARITHMETIC : Z := 17.        (* Panic(0x11) *)
Definition DIVISION_BY_ZERO : Z := 18.  (* Panic(0x12) *)

Inductive result (A : Type) : Type :=
| Ok (a : A)
| Revert (e : error).
Arguments Ok {A} a.
Arguments Revert {A} e.

(** Checked arithmetic on [uint256]. *)
Definition checked_add (a b : Z) : result Z :=
  if a + b <=? MAX_UINT256 then Ok (a + b) else Revert (Panic ARITHMETIC).

Definition checked_sub (a b : Z) : result Z :=
  if b <=? a then Ok (a - b) else Revert (Panic ARITHMETIC).

Definition checked_mul (a b : Z) : result Z :=
  if a * b <=? MAX_UINT256 then Ok (a * b) else Revert (Panic ARITHMETIC).

Definition checked_div (a b : Z) : result Z :=
  if b =? 0 then Revert (Panic DIVISION_BY_ZERO) else Ok (a / b).

(** Arithmetic inside [unchecked { ... }]. *)
Definition unchecked_add (a b : Z) : Z := (a + b) mod 2 ^ 256.
Definition unchecked_mul (a b : Z) : Z := (a * b) mod 2 ^ 256.

(** A call runs on a world and either returns a value and a new world
    or reverts; a revert carries no world: every change is undone. *)
Definition M (W A : Type) : Type := W -> result (A * W).

Definition ret {W A} (a : A) : M W A := fun w => Ok (a, w).

Definition bind {W A B} (m : M W A) (k : A -> M W B) : M W B :=
  fun w => match m w with
           | Ok (a, w') => k a w'
           | Revert e => Revert e
           end.

Definition revert {W A} (e : error) : M W A := fun _ => Revert e.

Definition lift {W A} (r : result A) : M W A :=
  fun w => match r with Ok a => Ok (a, w) | Revert e => Revert e end.

Definition gets {W A} (f : W -> A) : M W A := fun w => Ok (f w, w).

Definition modify {W} (f : W -> W) : M W unit := fun w => Ok (tt, f w).

(** [try c returns ... catch (bytes memory reason)]: when the external
    call [c] reverts, its changes are undone and the handler receives
    the reason; the caller's own execution continues. *)
Definition try_catch {W A B} (c : M W A) (on_ok : A -> M W B)
           (on_revert : error -> M W B) : M W B :=
  fun w => match c w with
           | Ok (a, w') => on_ok a w'
           | Revert reason => on_revert reason w
           end.

(** The outcome of a whole transaction. *)
Definition run_tx {W A} (c : M W A) (w : W) : W * result A :=
  match c w with
  | Ok (a, w') => (w', Ok a)
  | Revert e => (w, Revert e)
  end.

End Evm.

Export Evm.

Declare Scope evm_scope.
Delimit Scope evm_scope with evm.
Notation "x <- c ;; k" := (bind c (fun x => k))
  (at level 61, c at next level, right associativity) : evm_scope.
Notation "' pat <- c ;; k" := (bind c (fun x => match x with pat => k end))
  (at level 61, pat pattern, c at next level, right associativity) : evm_scope.
Notation "c ;; k" := (bind c (fun _ => k))
  (at level 61, right associativity) : evm_scope.

(* ===================================================================== *)
(** * The contract [FlashLoanArbitrage]                                   *)
(* ===================================================================== *)

Module FlashLoan.

Local Open Scope string_scope.
Local Open Scope Z_scope.
Local Open Scope evm_scope.

Definition MAX_BPS : Z := 10000.
Definition MIN_EXECUTION_DELAY : Z := 2.
Definition ONE_ETHER : Z := 10 ^ 18.

(** Contract storage: the immutables, the state of the OpenZeppelin
    mixins (Ownable, Pausable, ReentrancyGuard) and the declared state
    variables.  A Solidity [mapping(address => uint256)] is a total
    function with default [0]. *)
Record Storage : Type := mkStorage {
  this : address;
  WETH : address;
  provider : address;
  lendingPool : address;
  uniswapRouter : address;
  owner : address;
  paused : bool;
  entered : bool;
  intermediateToken : address;
  maxPriceDeviation : Z;
  maxSlippage : Z;
  minProfitBps : Z;
  maxFlashLoanAmount : Z;
  lastExecutionTime : Z;
  totalProfitGenerated : Z;
  totalGasUsed : Z;
  successfulTrades : Z;
  failedTrades : Z;
  lastKnownPrice : address -> Z
}.

Definition set_owner (v : address) (s : Storage) : Storage :=
  mkStorage (this s) (WETH s) (provider s) (lendingPool s) (uniswapRouter s)
    v (paused s) (entered s) (intermediateToken s)
    (maxPriceDeviation s) (maxSlippage s) (minProfitBps s) (maxFlashLoanAmount s)
    (lastExecutionTime s) (totalProfitGenerated s) (totalGasUsed s)
    (successfulTrades s) (failedTrades s) (lastKnownPrice s).

Definition set_entered (v : bool) (s : Storage) : Storage :=
  mkStorage (this s) (WETH s) (provider s) (lendingPool s) (uniswapRouter s)
    (owner s) (paused s) v (intermediateToken s)
    (maxPriceDeviation s) (maxSlippage s) (minProfitBps s) (maxFlashLoanAmount s)
    (lastExecutionTime s) (totalProfitGenerated s) (totalGasUsed s)
    (successfulTrades s) (failedTrades s) (lastKnownPrice s).

Definition set_intermediateToken (v : address) (s : Storage) : Storage :=
  mkStorage (this s) (WETH s) (provider s) (lendingPool s) (uniswapRouter s)
    (owner s) (paused s) (entered s) v
    (maxPriceDeviation s) (maxSlippage s) (minProfitBps s) (maxFlashLoanAmount s)
    (lastExecutionTime s) (totalProfitGenerated s) (totalGasUsed s)
    (successfulTrades s) (failedTrades s) (lastKnownPrice s).

Definition set_maxPriceDeviation (v : Z) (s : Storage) : Storage :=
  mkStorage (this s) (WETH s) (provider s) (lendingPool s) (uniswapRouter s)
    (owner s) (paused s) (entered s) (intermediateToken s)
    v (maxSlippage s) (minProfitBps s) (maxFlashLoanAmount s)
    (lastExecutionTime s) (totalProfitGenerated s) (totalGasUsed s)
    (successfulTrades s) (failedTrades s) (lastKnownPrice s).

Definition set_maxSlippage (v : Z) (s : Storage) : Storage :=
  mkStorage (this s) (WETH s) (provider s) (lendingPool s) (uniswapRouter s)
    (owner s) (paused s) (entered s) (intermediateToken s)
    (maxPriceDeviation s) v (minProfitBps s) (maxFlashLoanAmount s)
    (lastExecutionTime s) (totalProfitGenerated s) (totalGasUsed s)
    (successfulTrades s) (failedTrades s) (lastKnownPrice s).

Definition set_minProfitBps (v : Z) (s : Storage) : Storage :=
  mkStorage (this s) (WETH s) (provider s) (lendingPool s) (uniswapRouter s)
    (owner s) (paused s) (entered s) (intermediateToken s)
    (maxPriceDeviation s) (maxSlippage s) v (maxFlashLoanAmount s)
    (lastExecutionTime s) (totalProfitGenerated s) (totalGasUsed s)
    (successfulTrades s) (failedTrades s) (lastKnownPrice s).

Definition set_maxFlashLoanAmount (v : Z) (s : Storage) : Storage :=
  mkStorage (this s) (WETH s) (provider s) (lendingPool s) (uniswapRouter s)
    (owner s) (paused s) (entered s) (intermediateToken s)
    (maxPriceDeviation s) (maxSlippage s) (minProfitBps s) v
    (lastExecutionTime s) (totalProfitGenerated s) (totalGasUsed s)
    (successfulTrades s) (failedTrades s) (lastKnownPrice s).

Definition set_lastExecutionTime (v : Z) (s : Storage) : Storage :=
  mkStorage (this s) (WETH s) (provider s) (lendingPool s) (uniswapRouter s)
    (owner s) (paused s) (entered s) (intermediateToken s)
    (maxPriceDeviation s) (maxSlippage s) (minProfitBps s) (maxFlashLoanAmount s)
    v (totalProfitGenerated s) (totalGasUsed s)
    (successfulTrades s) (failedTrades s) (lastKnownPrice s).

Definition set_totalProfitGenerated (v : Z) (s : Storage) : Storage :=
  mkStorage (this s) (WETH s) (provider s) (lendingPool s) (uniswapRouter s)
    (owner s) (paused s) (entered s) (intermediateToken s)
    (maxPriceDeviation s) (maxSlippage s) (minProfitBps s) (maxFlashLoanAmount s)
    (lastExecutionTime s) v (totalGasUsed s)
    (successfulTrades s) (failedTrades s) (lastKnownPrice s).

Definition set_totalGasUsed (v : Z) (s : Storage) : Storage :=
  mkStorage (this s) (WETH s) (provider s) (lendingPool s) (uniswapRouter s)
    (owner s) (paused s) (entered s) (intermediateToken s)
    (maxPriceDeviation s) (maxSlippage s) (minProfitBps s) (maxFlashLoanAmount s)
    (lastExecutionTime s) (totalProfitGenerated s) v
    (successfulTrades s) (failedTrades s) (lastKnownPrice s).

Definition set_successfulTrades (v : Z) (s : Storage) : Storage :=
  mkStorage (this s) (WETH s) (provider s) (lendingPool s) (uniswapRouter s)
    (owner s) (paused s) (entered s) (intermediateToken s)
    (maxPriceDeviation s) (maxSlippage s) (minProfitBps s) (maxFlashLoanAmount s)
    (lastExecutionTime s) (totalProfitGenerated s) (totalGasUsed s)
    v (failedTrades s) (lastKnownPrice s).

Definition set_failedTrades (v : Z) (s : Storage) : Storage :=
  mkStorage (this s) (WETH s) (provider s) (lendingPool s) (uniswapRouter s)
    (owner s) (paused s) (entered s) (intermediateToken s)
    (maxPriceDeviation s) (maxSlippage s) (minProfitBps s) (maxFlashLoanAmount s)
    (lastExecutionTime s) (totalProfitGenerated s) (totalGasUsed s)
    (successfulTrades s) v (lastKnownPrice s).

(** [lastKnownPrice[asset] = price]. *)
Definition set_lastKnownPrice (asset : address) (price : Z) (s : Storage) : Storage :=
  mkStorage (this s) (WETH s) (provider s) (lendingPool s) (uniswapRouter s)
    (owner s) (paused s) (entered s) (intermediateToken s)
    (maxPriceDeviation s) (maxSlippage s) (minProfitBps s) (maxFlashLoanAmount s)
    (lastExecutionTime s) (totalProfitGenerated s) (totalGasUsed s)
    (successfulTrades s) (failedTrades s)
    (fun a => if a =? asset then price else lastKnownPrice s a).

(** What a call sees of its transaction: the caller, the block, and
    the two readings of [gasleft()] that [executeOperation] subtracts. *)
Record Call : Type := mkCall {
  msg_sender : address;
  block_number : Z;
  block_timestamp : Z;
  gas_start : Z;
  gas_left : Z
}.

Definition from (a : address) (c : Call) : Call :=
  mkCall a (block_number c) (block_timestamp c) (gas_start c) (gas_left c).

(** The collaborators, over an arbitrary state [Ext] of the other
    contracts (token ledgers, router, pool).

    - [getAmountsOut e amountIn tokenIn tokenOut] is [amounts[1]] of
      [uniswapRouter.getAmountsOut(amountIn, [tokenIn, tokenOut])];
    - [swapExactTokensForTokens e caller amountIn amountOutMin tokenIn
      tokenOut to deadline] is [received[1]] and the new state;
    - [balanceOf], [approve], [transfer] are the IERC20 calls, the
      second argument being the token's caller where there is one;
    - [lend] and [collect] are the two halves of the pool's
      [flashLoanSimple] around its callback: [lend] hands the asset to
      the receiver and fixes the premium, [collect] pulls
      [amount + premium] back. *)
Record Env (Ext : Type) : Type := mkEnv {
  getAmountsOut : Ext -> Z -> address -> address -> result Z;
  swapExactTokensForTokens :
    Ext -> address -> Z -> Z -> address -> address -> address -> Z -> result (Z * Ext);
  balanceOf : Ext -> address -> address -> Z;
  approve : Ext -> address -> address -> address -> Z -> result Ext;
  transfer : Ext -> address -> address -> address -> Z -> result Ext;
  lend : Ext -> address -> address -> Z -> result (Z * Ext);
  collect : Ext -> address -> address -> Z -> Z -> result Ext
}.

Record World (Ext : Type) : Type := mkWorld {
  store : Storage;
  ext : Ext
}.

Arguments mkWorld {Ext} store ext.

Section Contract.

Context {Ext : Type} (env : Env Ext).

Definition C (A : Type) : Type := M (World Ext) A.

Definition sload {A} (f : Storage -> A) : C A :=
  gets (fun w => f (store w)).

Definition sstore (f : Storage -> Storage) : C unit :=
  modify (fun w => mkWorld (f (store w)) (ext w)).

(** A [view] call to a collaborator, and a state-changing one. *)
Definition staticcall {A} (f : Ext -> result A) : C A :=
  fun w => match f (ext w) with
           | Ok a => Ok (a, w)
           | Revert e => Revert e
           end.

Definition call {A} (f : Ext -> result (A * Ext)) : C A :=
  fun w => match f (ext w) with
           | Ok (a, e') => Ok (a, mkWorld (store w) e')
           | Revert e => Revert e
           end.

Definition call_ (f : Ext -> result Ext) : C unit :=
  fun w => match f (ext w) with
           | Ok e' => Ok (tt, mkWorld (store w) e')
           | Revert e => Revert e
           end.

(** ** Utility functions *)

(** [amount - ((amount * maxSlippage) / MAX_BPS)] *)
Definition _calculateMinAmountOut (amount : Z) : C Z :=
  s <- sload maxSlippage ;;
  p <- lift (checked_mul amount s) ;;
  q <- lift (checked_div p MAX_BPS) ;;
  lift (checked_sub amount q).

(** [if (actual >= expected) return 0;
     return ((expected - actual) * MAX_BPS) / expected;] *)
Definition _calculateSlippage (expected actual : Z) : C Z :=
  if expected <=? actual then ret 0
  else
    d <- lift (checked_sub expected actual) ;;
    p <- lift (checked_mul d MAX_BPS) ;;
    lift (checked_div p expected).

Definition _getCurrentPrice (token : address) : C Z :=
  weth <- sload WETH ;;
  staticcall (fun e => getAmountsOut env e ONE_ETHER token weth).

Definition _calculatePriceImpact (token : address) (amount : Z) : C Z :=
  last <- sload (fun s => lastKnownPrice s token) ;;
  if last =? 0 then ret 0
  else
    currentPrice <- _getCurrentPrice token ;;
    _calculateSlippage last currentPrice.

(** Returns [amountsOut[1]], the price of [1e18] units of the asset
    in WETH, after recording it as the last known price. *)
Definition _checkPriceDeviation (asset : address) (amount : Z) : C Z :=
  weth <- sload WETH ;;
  currentPrice <- staticcall (fun e => getAmountsOut env e ONE_ETHER asset weth) ;;
  last <- sload (fun s => lastKnownPrice s asset) ;;
  (if negb (last =? 0) then
     deviation <- _calculateSlippage last currentPrice ;;
     bound <- sload maxPriceDeviation ;;
     if bound <? deviation
     then revert (PriceDeviation last currentPrice)
     else ret tt
   else ret tt) ;;
  sstore (set_lastKnownPrice asset currentPrice) ;;
  ret currentPrice.

Definition _calculateEstimatedProfit (asset : address) (amount : Z) : C Z :=
  inter <- sload intermediateToken ;;
  firstTrade <- staticcall (fun e => getAmountsOut env e amount asset inter) ;;
  secondTrade <- staticcall (fun e => getAmountsOut env e firstTrade inter asset) ;;
  if amount <? secondTrade
  then lift (checked_sub secondTrade amount)
  else ret 0.

(** Both approvals sit in an [unchecked] block: [amount * 2] wraps. *)
Definition _setupFlashLoan (asset : address) (amount : Z) : C unit :=
  me <- sload this ;;
  pool <- sload lendingPool ;;
  call_ (fun e => approve env e asset me pool 0) ;;
  call_ (fun e => approve env e asset me pool (unchecked_mul amount 2)).

(** ** The two trade legs *)

Definition _executeFirstTrade (c : Call) (asset : address) (amount : Z) : C Z :=
  inter <- sload intermediateToken ;;
  me <- sload this ;;
  quoted <- staticcall (fun e => getAmountsOut env e amount asset inter) ;;
  minAmountOut <- _calculateMinAmountOut quoted ;;
  deadline <- lift (checked_add (block_timestamp c) 300) ;;
  received <- call (fun e =>
    swapExactTokensForTokens env e me amount minAmountOut asset inter me deadline) ;;
  if received <? minAmountOut
  then revert (ExcessiveSlippage minAmountOut received)
  else ret received.

Definition _executeSecondTrade (c : Call) (asset : address) (amount minimumReturn : Z)
  : C Z :=
  inter <- sload intermediateToken ;;
  me <- sload this ;;
  quoted <- staticcall (fun e => getAmountsOut env e amount inter asset) ;;
  minAmountOut <- _calculateMinAmountOut quoted ;;
  if minAmountOut <? minimumReturn
  then revert (InsufficientProfit minAmountOut minimumReturn)
  else
    deadline <- lift (checked_add (block_timestamp c) 300) ;;
    call (fun e =>
      swapExactTokensForTokens env e me amount minAmountOut inter asset me deadline).

(** ** The settlement core *)

Definition _executeArbitrage (c : Call) (asset : address) (amount amountOwed : Z)
  : C bool :=
  me <- sload this ;;
  if negb (msg_sender c =? me)
  then revert (UnauthorizedCaller (msg_sender c) me)
  else
    intermediateAmount <- _executeFirstTrade c asset amount ;;
    finalAmount <- _executeSecondTrade c asset intermediateAmount amountOwed ;;
    profit <- lift (checked_sub finalAmount amountOwed) ;;
    scaledProfit <- lift (checked_mul profit MAX_BPS) ;;
    bps <- sload minProfitBps ;;
    required <- lift (checked_mul amountOwed bps) ;;
    if scaledProfit <? required
    then
      expected <- lift (checked_div required MAX_BPS) ;;
      revert (InsufficientProfit profit expected)
    else
      sstore (fun s =>
        set_totalProfitGenerated (unchecked_add (totalProfitGenerated s) profit) s) ;;
      ret true.

Definition executeOperation (c : Call) (asset : address) (amount premium : Z)
           (initiator : address) : C bool :=
  pool <- sload lendingPool ;;
  me <- sload this ;;
  if negb (msg_sender c =? pool)
  then revert (UnauthorizedCaller (msg_sender c) pool)
  else if negb (initiator =? me)
  then revert (UnauthorizedCaller initiator me)
  else
    amountOwed <- lift (checked_add amount premium) ;;
    try_catch (_executeArbitrage (from me c) asset amount amountOwed)
      (fun success =>
         if success : bool then
           n <- sload successfulTrades ;;
           n' <- lift (checked_add n 1) ;;
           sstore (set_successfulTrades n') ;;
           gasUsed <- lift (checked_sub (gas_start c) (gas_left c)) ;;
           g <- sload totalGasUsed ;;
           g' <- lift (checked_add g gasUsed) ;;
           sstore (set_totalGasUsed g') ;;
           (* the arguments of [emit TradeMetrics(...)] *)
           balance <- gets (fun w => balanceOf env (ext w) asset me) ;;
           _ <- _calculateSlippage amount balance ;;
           _ <- _calculatePriceImpact asset amount ;;
           ret true
         else ret false)
      (fun reason =>
         f <- sload failedTrades ;;
         f' <- lift (checked_add f 1) ;;
         sstore (set_failedTrades f') ;;
         _ <- lift (checked_sub (gas_start c) (gas_left c)) ;;
         revert (ErrorOfBytes reason)).

(** The lending pool's [flashLoanSimple], as the receiver sees it:
    the loan is handed over, [executeOperation] is called back with
    the pool as caller and the borrower as initiator, and the
    repayment is pulled. *)
Definition flashLoanSimple (c : Call) (receiverAddress asset : address) (amount : Z)
  : C unit :=
  pool <- sload lendingPool ;;
  premium <- call (fun e => lend env e receiverAddress asset amount) ;;
  ok <- executeOperation (from pool c) asset amount premium (msg_sender c) ;;
  if ok : bool
  then call_ (fun e => collect env e receiverAddress asset amount premium)
  else revert (Error "Flash loan execution failed").

(** ** Entry point: [initiateFlashLoan], [nonReentrant whenNotPaused] *)
Definition initiateFlashLoan (c : Call) (asset : address) (amount : Z) : C unit :=
  reentered <- sload entered ;;
  if reentered : bool then revert (Error "ReentrancyGuard: reentrant call")
  else
    sstore (set_entered true) ;;
    isPaused <- sload paused ;;
    if isPaused : bool then revert (Error "Pausable: paused")
    else
      inter <- sload intermediateToken ;;
      if inter =? 0
      then revert (InvalidAddress inter "Intermediate token not set")
      else if amount =? 0
      then revert (InvalidAmount amount "Amount must be greater than 0")
      else
        maxAmount <- sload maxFlashLoanAmount ;;
        if maxAmount <? amount
        then revert (InvalidAmount amount "Amount exceeds maximum")
        else
          last <- sload lastExecutionTime ;;
          elapsed <- lift (checked_sub (block_number c) last) ;;
          if elapsed <? MIN_EXECUTION_DELAY then revert (Error "Too soon")
          else
            sstore (set_lastExecutionTime (block_number c)) ;;
            (* [this.POOL()] and [this.ADDRESSES_PROVIDER()] read the
               immutables they are compared with *)
            pool <- sload lendingPool ;;
            pool' <- sload lendingPool ;;
            if negb (pool =? pool') then revert (InvalidConfiguration "Invalid pool")
            else
              prov <- sload provider ;;
              prov' <- sload provider ;;
              if negb (prov =? prov')
              then revert (InvalidConfiguration "Invalid provider")
              else
                _ <- _checkPriceDeviation asset amount ;;
                _ <- _calculateEstimatedProfit asset amount ;;
                _setupFlashLoan asset amount ;;
                me <- sload this ;;
                flashLoanSimple (from me c) me asset amount ;;
                sstore (set_entered false).

(** ** Owner-only configuration (Ownable's [onlyOwner]) *)

Definition onlyOwner (c : Call) : C unit :=
  o <- sload owner ;;
  if msg_sender c =? o then ret tt
  else revert (Error "Ownable: caller is not the owner").

Definition setMaxFlashLoanAmount (c : Call) (newAmount : Z) : C unit :=
  onlyOwner c ;;
  if newAmount =? 0 then revert (InvalidAmount newAmount "Amount cannot be 0")
  else sstore (set_maxFlashLoanAmount newAmount).

Definition setMinProfitBps (c : Call) (newBps : Z) : C unit :=
  onlyOwner c ;;
  if (newBps =? 0) || (MAX_BPS <=? newBps)
  then revert (InvalidAmount newBps "Invalid bps")
  else sstore (set_minProfitBps newBps).

Definition setMaxPriceDeviation (c : Call) (newDeviation : Z) : C unit :=
  onlyOwner c ;;
  if (newDeviation =? 0) || (MAX_BPS <=? newDeviation)
  then revert (InvalidAmount newDeviation "Invalid deviation")
  else sstore (set_maxPriceDeviation newDeviation).

Definition setMaxSlippage (c : Call) (newSlippage : Z) : C unit :=
  onlyOwner c ;;
  if (newSlippage =? 0) || (MAX_BPS <=? newSlippage)
  then revert (InvalidAmount newSlippage "Invalid slippage")
  else sstore (set_maxSlippage newSlippage).

Definition setIntermediateToken (c : Call) (token : address) : C unit :=
  onlyOwner c ;;
  if token =? 0 then revert (InvalidAddress token "Invalid token address")
  else sstore (set_intermediateToken token).

Definition transferOwnership (c : Call) (newOwner : address) : C unit :=
  onlyOwner c ;;
  if newOwner =? 0 then revert (Error "Ownable: new owner is the zero address")
  else sstore (set_owner newOwner).

Definition renounceOwnership (c : Call) : C unit :=
  onlyOwner c ;;
  sstore (set_owner 0).

Definition emergencyWithdraw (c : Call) (token to : address) : C unit :=
  onlyOwner c ;;
  reentered <- sload entered ;;
  if reentered : bool then revert (Error "ReentrancyGuard: reentrant call")
  else
    sstore (set_entered true) ;;
    if token =? 0 then revert (InvalidAddress token "Invalid token")
    else if to =? 0 then revert (InvalidAddress to "Invalid recipient")
    else
      me <- sload this ;;
      balance <- gets (fun w => balanceOf env (ext w) token me) ;;
      if balance =? 0 then revert (InvalidAmount balance "No tokens to withdraw")
      else
        call_ (fun e => transfer env e token me to balance) ;;
        sstore (set_entered false).

(** ** Monitoring view *)

Record TradeStatistics : Type := mkStats {
  totalProfit : Z;
  avgGasUsed : Z;
  successRate : Z;
  totalTrades : Z
}.

Definition getTradeStatistics : C TradeStatistics :=
  profit <- sload totalProfitGenerated ;;
  ok <- sload successfulTrades ;;
  ko <- sload failedTrades ;;
  trades <- lift (checked_add ok ko) ;;
  gas <- sload totalGasUsed ;;
  avg <- (if 0 <? trades then lift (checked_div gas trades) else ret 0) ;;
  rate <- (if 0 <? trades
           then scaled <- lift (checked_mul ok MAX_BPS) ;;
                lift (checked_div scaled trades)
           else ret 0) ;;
  ret (mkStats profit avg rate trades).

(** ** Transactions *)

(** Calldata is ABI-decoded before a function body runs: a word that
    does not fit the parameter's type reverts. *)
Definition abi_uint (bits : Z) (v : Z) : C unit :=
  if (0 <=? v) && (v <? 2 ^ bits) then ret tt else revert (Error "").

Inductive Tx : Type :=
| InitiateFlashLoan (asset : address) (amount : Z)
| ExecuteOperation (asset : address) (amount premium : Z) (initiator : address)
| ExecuteArbitrage (asset : address) (amount amountOwed : Z)
| SetMaxFlashLoanAmount (newAmount : Z)
| SetMinProfitBps (newBps : Z)
| SetMaxPriceDeviation (newDeviation : Z)
| SetMaxSlippage (newSlippage : Z)
| SetIntermediateToken (token : address)
| TransferOwnership (newOwner : address)
| RenounceOwnership
| EmergencyWithdraw (token to : address)
| Receive.

Definition dispatch (c : Call) (t : Tx) : C unit :=
  match t with
  | InitiateFlashLoan asset amount =>
      abi_uint 256 amount ;; initiateFlashLoan c asset amount
  | ExecuteOperation asset amount premium initiator =>
      abi_uint 256 amount ;; abi_uint 256 premium ;;
      _ <- executeOperation c asset amount premium initiator ;; ret tt
  | ExecuteArbitrage asset amount amountOwed =>
      abi_uint 256 amount ;; abi_uint 256 amountOwed ;;
      _ <- _executeArbitrage c asset amount amountOwed ;; ret tt
  | SetMaxFlashLoanAmount newAmount =>
      abi_uint 256 newAmount ;; setMaxFlashLoanAmount c newAmount
  | SetMinProfitBps newBps => abi_uint 32 newBps ;; setMinProfitBps c newBps
  | SetMaxPriceDeviation d => abi_uint 32 d ;; setMaxPriceDeviation c d
  | SetMaxSlippage s => abi_uint 32 s ;; setMaxSlippage c s
  | SetIntermediateToken token => setIntermediateToken c token
  | TransferOwnership newOwner => transferOwnership c newOwner
  | RenounceOwnership => renounceOwnership c
  | EmergencyWithdraw token to => emergencyWithdraw c token to
  | Receive => ret tt
  end.

(** The world after a transaction: a reverted one changes nothing. *)
Definition step (c : Call) (t : Tx) (w : World Ext) : World Ext :=
  fst (run_tx (dispatch c t) w).

End Contract.

(** The constructor; [pool] is what [provider.getPool()] answered and
    [self] the address of the new contract. *)
Definition constructor (deployer self pool : address)
           (_poolAddressesProvider _uniswapRouter _weth : address)
           (_maxFlashLoanAmount _minProfitBps : Z) : result Storage :=
  if _maxFlashLoanAmount =? 0
  then Revert (InvalidAmount _maxFlashLoanAmount "Max flash loan amount cannot be 0")
  else if (_minProfitBps =? 0) || (MAX_BPS <=? _minProfitBps)
  then Revert (InvalidAmount _minProfitBps "Invalid min profit bps")
  else if _poolAddressesProvider =? 0
  then Revert (InvalidAddress _poolAddressesProvider "Invalid pool provider")
  else if _uniswapRouter =? 0
  then Revert (InvalidAddress _uniswapRouter "Invalid router")
  else if _weth =? 0
  then Revert (InvalidAddress _weth "Invalid WETH")
  else Ok (mkStorage self _weth _poolAddressesProvider pool _uniswapRouter
             deployer false false 0
             500 100 _minProfitBps _maxFlashLoanAmount
             0 0 0 0 0 (fun _ => 0)).

(** A deployed contract: the constructor succeeded on well-typed
    arguments ([uint256], [uint32]). *)
Definition deployed (s : Storage) : Prop :=
  exists deployer self pool prov router weth maxAmount bps,
    0 <= maxAmount <= MAX_UINT256 /\ 0 <= bps < 2 ^ 32 /\
    constructor deployer self pool prov router weth maxAmount bps = Ok s.

(** The states a deployed contract can be in: after any number of
    transactions, by anyone, interleaved with arbitrary activity of the
    other contracts and with any block and gas readings. *)
Inductive reachable {Ext : Type} (env : Env Ext) : World Ext -> Prop :=
| reach_deployed : forall s e, deployed s -> reachable env (mkWorld s e)
| reach_step : forall w c t,
    reachable env w -> reachable env (step env c t w)
| reach_ext : forall w e',
    reachable env w -> reachable env (mkWorld (store w) e').

(** A sequence of transactions, one after the other. *)
Fixpoint replay {Ext : Type} (env : Env Ext) (txs : list (Call * Tx)) (w : World Ext)
  : World Ext :=
  match txs with
  | [] => w
  | (c, t) :: rest => replay env rest (step env c t w)
  end.

(** The completed settlement in the words of the specification
    (Requested, Borrowed, Leg1Executed, Leg2Executed, ProfitVerified,
    Repaid): every balance change has occurred, in order, each on the
    result of the one before, and the counters record it. *)
Definition settled {Ext : Type} (env : Env Ext) (c : Call) (asset : address)
           (amount : Z) (w w' : World Ext) : Prop :=
let s := store w in
let me := this s in
let pool := lendingPool s in
let inter := intermediateToken s in
let deadline := block_timestamp c + 300 in
exists e1 e2 premium e3 min1 intermediateAmount e4 min2 finalAmount e5 e6,
  approve env (ext w) asset me pool 0 = Ok e1 /\
  approve env e1 asset me pool (unchecked_mul amount 2) = Ok e2 /\
  lend env e2 me asset amount = Ok (premium, e3) /\
  swapExactTokensForTokens env e3 me amount min1 asset inter me deadline
    = Ok (intermediateAmount, e4) /\
  min1 <= intermediateAmount /\
  swapExactTokensForTokens env e4 me intermediateAmount min2 inter asset me deadline
    = Ok (finalAmount, e5) /\
  amount + premium <= finalAmount /\
  (amount + premium) * minProfitBps s <= (finalAmount - (amount + premium)) * MAX_BPS /\
  collect env e5 me asset amount premium = Ok e6 /\
  ext w' = e6 /\
  totalProfitGenerated (store w')
    = unchecked_add (totalProfitGenerated s) (finalAmount - (amount + premium)) /\
  successfulTrades (store w') = successfulTrades s + 1 /\
  failedTrades (store w') = failedTrades s /\
  totalGasUsed (store w') = totalGasUsed s + (gas_start c - gas_left c) /\
  lastExecutionTime (store w') = block_number c.

(** [profit] is what one settlement of the transaction of [c] reported as
    earned: the venue returned [finalAmount] for a second leg (from the
    intermediate token back to the asset, to the contract itself),
    [finalAmount] covered what was owed with the margin of
    [minProfitBps], and [profit] is the rest. *)
Definition settlement_profit {Ext : Type} (env : Env Ext) (c : Call) (s : Storage)
           (profit : Z) : Prop :=
exists asset amountOwed intermediateAmount minAmountOut finalAmount e e',
  swapExactTokensForTokens env e (this s) intermediateAmount minAmountOut
    (intermediateToken s) asset (this s) (block_timestamp c + 300)
    = Ok (finalAmount, e') /\
  amountOwed <= finalAmount /\
  amountOwed * minProfitBps s <= (finalAmount - amountOwed) * MAX_BPS /\
  profit = finalAmount - amountOwed.

End FlashLoan.

(* ===================================================================== *)
(** * The test doubles of the repository                                  *)
(* ===================================================================== *)

(** [MockUniswapV2Router02] and [MockAavePool] (contracts/mocks) over a
    token ledger.  The token contracts of the test-suite (MockERC20,
    MockWETH) are not among the sources; the ledger is the ERC-20 of
    OpenZeppelin 4, the library whose [IERC20], [Ownable], [Pausable] and
    [ReentrancyGuard] the contracts import: balances and allowances,
    [transfer] needs the balance, [transferFrom] the allowance of its
    caller as well, which it lowers unless it is [2^256 - 1]. *)
Module Mocks.

Import FlashLoan.
Local Open Scope string_scope.
Local Open Scope Z_scope.

Record Chain : Type := mkChain {
  balances : address -> address -> Z;             (* token, holder *)
  allowances : address -> address -> address -> Z;  (* token, owner, spender *)
  exchangeRates : address -> address -> Z;  (* _exchangeRates[tokenIn][tokenOut] *)
  timestamp : Z;                            (* block.timestamp *)
  approvals : address -> address -> bool;   (* the pool's _approvals[token][spender] *)
  routerAddress : address;
  poolAddress : address
}.

Definition with_balances (b : address -> address -> Z) (e : Chain) : Chain :=
  mkChain b (allowances e) (exchangeRates e) (timestamp e) (approvals e)
          (routerAddress e) (poolAddress e).

Definition with_allowances (a : address -> address -> address -> Z) (e : Chain) : Chain :=
  mkChain (balances e) a (exchangeRates e) (timestamp e) (approvals e)
          (routerAddress e) (poolAddress e).

(** ** The tokens *)

(** [_transfer(sender, recipient, amount)] *)
Definition move (token sender recipient : address) (amount : Z) (e : Chain)
  : result Chain :=
  if sender =? 0 then Revert (Error "ERC20: transfer from the zero address")
  else if recipient =? 0 then Revert (Error "ERC20: transfer to the zero address")
  else if balances e token sender <? amount
  then Revert (Error "ERC20: transfer amount exceeds balance")
  else
    let debit := fun t h =>
      if (t =? token) && (h =? sender)
      then balances e t h - amount else balances e t h in
    let credit := fun t h =>
      if (t =? token) && (h =? recipient)
      then debit t h + amount else debit t h in
    Ok (with_balances credit e).

(** [_approve(holder, spender, amount)] *)
Definition set_allowance (token holder spender : address) (amount : Z) (e : Chain)
  : result Chain :=
  if holder =? 0 then Revert (Error "ERC20: approve from the zero address")
  else if spender =? 0 then Revert (Error "ERC20: approve to the zero address")
  else
    Ok (with_allowances
          (fun t h s =>
             if (t =? token) && (h =? holder) && (s =? spender)
             then amount else allowances e t h s) e).

(** [IERC20(token).transfer(recipient, amount)] sent by [caller]. *)
Definition token_transfer (e : Chain) (token caller recipient : address) (amount : Z)
  : result Chain :=
  move token caller recipient amount e.

(** [IERC20(token).approve(spender, amount)] sent by [caller]. *)
Definition token_approve (e : Chain) (token caller spender : address) (amount : Z)
  : result Chain :=
  set_allowance token caller spender amount e.

(** [IERC20(token).transferFrom(sender, recipient, amount)] sent by
    [caller]: the allowance is spent first, then the tokens move. *)
Definition token_transferFrom (e : Chain) (token caller sender recipient : address)
           (amount : Z) : result Chain :=
  let allowed := allowances e token sender caller in
  if allowed =? MAX_UINT256 then move token sender recipient amount e
  else if allowed <? amount then Revert (Error "ERC20: insufficient allowance")
  else
    match set_allowance token sender caller (allowed - amount) e with
    | Ok e1 => move token sender recipient amount e1
    | Revert r => Revert r
    end.

(** ** The router *)

(** [amounts[i + 1] = (amounts[i] * rate) / 1e18], for a two-token path. *)
Definition quote (e : Chain) (amountIn : Z) (tokenIn tokenOut : address) : result Z :=
  let rate := exchangeRates e tokenIn tokenOut in
  if rate <=? 0 then Revert (Error "Rate not set")
  else match checked_mul amountIn rate with
       | Ok p => Ok (p / ONE_ETHER)
       | Revert r => Revert r
       end.

(** [getAmountsOut(amountIn, path)] of the mock router for a path of
    any length: the loop over the hops, each at its own rate. *)
Fixpoint amounts_along (e : Chain) (amountIn : Z) (tokenIn : address)
         (rest : list address) : result (list Z) :=
  match rest with
  | [] => Ok [amountIn]
  | tokenOut :: rest' =>
      let rate := exchangeRates e tokenIn tokenOut in
      if rate <=? 0 then Revert (Error "Rate not set")
      else match checked_mul amountIn rate with
           | Revert r => Revert r
           | Ok p =>
               match amounts_along e (p / ONE_ETHER) tokenOut rest' with
               | Ok amounts => Ok (amountIn :: amounts)
               | Revert r => Revert r
               end
           end
  end.

Definition getAmountsOut (e : Chain) (amountIn : Z) (path : list address)
  : result (list Z) :=
  match path with
  | tokenIn :: (_ :: _) as rest => amounts_along e amountIn tokenIn rest
  | _ => Revert (Error "Invalid path")
  end.

(** [swapExactTokensForTokens] for a two-token path, sent by [caller].
    The tokens answer [true] or revert, and a revert of theirs is the
    router's: the messages of the two [require]s around the transfers
    are never seen. *)
Definition swap (e : Chain) (caller : address) (amountIn amountOutMin : Z)
           (tokenIn tokenOut to : address) (deadline : Z) : result (Z * Chain) :=
  if deadline <? timestamp e then Revert (Error "Expired")
  else match quote e amountIn tokenIn tokenOut with
       | Revert r => Revert r
       | Ok out =>
           if out <? amountOutMin then Revert (Error "Insufficient output amount")
           else match token_transferFrom e tokenIn (routerAddress e) caller
                        (routerAddress e) amountIn with
                | Revert r => Revert r
                | Ok e1 =>
                    match token_transfer e1 tokenOut (routerAddress e) to out with
                    | Revert r => Revert r
                    | Ok e2 => Ok (out, e2)
                    end
                end
       end.

(** [setPrice(tokenIn, tokenOut, rate)] of the mock router. *)
Definition setPrice (tokenIn tokenOut : address) (rate : Z) (e : Chain) : Chain :=
mkChain (balances e) (allowances e)
        (fun i o => if (i =? tokenIn) && (o =? tokenOut) then rate
                    else exchangeRates e i o)
        (timestamp e) (approvals e) (routerAddress e) (poolAddress e).

(** ** The lending pool *)

(** [setApproval(token, spender, approved)], open to any caller: the
    flag, and the pool's own allowance for the spender. *)
Definition setApproval (token spender : address) (approved : bool) (e : Chain)
  : result Chain :=
  let flagged :=
    mkChain (balances e) (allowances e) (exchangeRates e) (timestamp e)
            (fun t s => if (t =? token) && (s =? spender) then approved
                        else approvals e t s)
            (routerAddress e) (poolAddress e) in
  token_approve flagged token (poolAddress e) spender
                (if approved then MAX_UINT256 else 0).

(** [isApproved(token, spender)] *)
Definition isApproved (e : Chain) (token spender : address) : bool :=
  approvals e token spender && (0 <? allowances e token (poolAddress e) spender).

(** [MockAavePool.flashLoanSimple] up to the callback: no premium. *)
Definition mock_lend (e : Chain) (receiver asset : address) (amount : Z)
  : result (Z * Chain) :=
  if negb (isApproved e asset receiver)
  then Revert (Error "MockAavePool: receiver not approved")
  else if balances e asset (poolAddress e) <? amount
  then Revert (Error "Insufficient balance")
  else match token_transfer e asset (poolAddress e) receiver amount with
       | Ok e' => Ok (0, e')
       | Revert r => Revert r
       end.

(** ... and after it: [transferFrom(receiver, pool, amount)], sent by
    the pool. *)
Definition mock_collect (e : Chain) (receiver asset : address) (amount premium : Z)
  : result Chain :=
  token_transferFrom e asset (poolAddress e) receiver (poolAddress e) amount.

Definition env : Env Chain :=
  mkEnv quote swap
        (fun e token holder => balances e token holder)
        token_approve token_transfer
        mock_lend mock_collect.

(** The fixture of the test-suite (docker-entrypoint.sh): token A, WETH
    as intermediate token, rates 1.1 (A to WETH) and 1.2 (WETH to A),
    10000 tokens minted to the pool and to the router, a contract
    deployed with a 1000-token ceiling and a 1% profit floor.  Nobody has
    approved anything, and the pool's [setApproval] was not called. *)
Definition OWNER : address := 1.
Definition USER1 : address := 2.
Definition TOKEN_A : address := 11.
Definition WETH_TOKEN : address := 12.
Definition ROUTER : address := 21.
Definition POOL : address := 22.
Definition PROVIDER : address := 23.
Definition ARBITRAGE : address := 31.

Definition ether (n : Z) : Z := n * ONE_ETHER.

Definition fixture_chain : Chain :=
  mkChain
    (fun token holder =>
       if (holder =? POOL) && (token =? TOKEN_A) then ether 10000
       else if (holder =? ROUTER) && ((token =? TOKEN_A) || (token =? WETH_TOKEN))
       then ether 10000
       else 0)
    (fun _ _ _ => 0)
    (fun tokenIn tokenOut =>
       if (tokenIn =? TOKEN_A) && (tokenOut =? WETH_TOKEN) then 11 * 10 ^ 17
       else if (tokenIn =? WETH_TOKEN) && (tokenOut =? TOKEN_A) then 12 * 10 ^ 17
       else 0)
    1700000000
    (fun _ _ => false)
    ROUTER POOL.

Definition deployed_storage : Storage :=
  match constructor OWNER ARBITRAGE POOL PROVIDER ROUTER WETH_TOKEN (ether 1000) 100 with
  | Ok s => s
  | Revert _ => mkStorage 0 0 0 0 0 0 false false 0 0 0 0 0 0 0 0 0 0 (fun _ => 0)
  end.

Definition fixture_storage : Storage :=
  set_intermediateToken WETH_TOKEN deployed_storage.

Definition fixture : World Chain := mkWorld fixture_storage fixture_chain.

(** The fixture after somebody has called
    [aavePool.setApproval(tokenA, flashLoanArbitrage, true)]. *)
Definition approved_chain : Chain :=
  match setApproval TOKEN_A ARBITRAGE true fixture_chain with
  | Ok e => e
  | Revert _ => fixture_chain
  end.

Definition at_block (sender : address) (n : Z) : Call :=
  mkCall sender n 1700000000 500000 300000.

End Mocks.

(** A scripted venue for single scenarios: it quotes [quoted] for every
    trade, and each swap pays out the next amount of the script, whatever
    [amountOutMin] asked for; once the script is used up it pays what it
    quotes.  The lender charges no premium. *)
Module Scripted.

Import FlashLoan.
Local Open Scope string_scope.
Local Open Scope Z_scope.

Definition payouts := list Z.

Definition env (quoted : Z) : Env payouts :=
  mkEnv (fun _ _ _ _ => Ok quoted)
        (fun e _ _ _ _ _ _ _ =>
           match e with
           | paid :: rest => Ok (paid, rest)
           | [] => Ok (quoted, [])
           end)
        (fun _ _ _ => quoted)
        (fun e _ _ _ _ => Ok e)
        (fun e _ _ _ _ => Ok e)
        (fun e _ _ _ => Ok (0, e))
        (fun e _ _ _ _ => Ok e).




(** The owner names the intermediate token, then anyone borrows one
    unit of token A every second block. *)
Definition trade (k : nat) : Call * Tx :=
  (Mocks.at_block Mocks.USER1 (2 * Z.of_nat k), InitiateFlashLoan Mocks.TOKEN_A 1).


Definition start : World payouts := mkWorld Mocks.deployed_storage [].

End Scripted.

(** A venue for a token that keeps a part of every transfer (a fee on
    transfer): the router reports the amount it sent, the recipient
    receives less.  The state is what the settlement contract holds of
    each token; the rates are those of the fixture. *)
Module Taxed.

Import FlashLoan.
Local Open Scope string_scope.
Local Open Scope Z_scope.

Definition holdings := address -> Z.

Definition rate (tokenIn : address) : Z :=
  if tokenIn =? Mocks.TOKEN_A then 11 * 10 ^ 17 else 12 * 10 ^ 17.

(** Token A keeps half of what is sent. *)
Definition kept_bps (token : address) : Z :=
  if token =? Mocks.TOKEN_A then 5000 else 0.

Definition arrives (token : address) (amount : Z) : Z :=
  amount - amount * kept_bps token / MAX_BPS.

Definition credit (token : address) (amount : Z) (e : holdings) : holdings :=
  fun t => if t =? token then e t + amount else e t.

Definition debit (token : address) (amount : Z) (e : holdings) : result holdings :=
  if e token <? amount then Revert (Error "ERC20: transfer amount exceeds balance")
  else Ok (fun t => if t =? token then e t - amount else e t).

Definition env : Env holdings :=
  mkEnv (fun _ amountIn tokenIn _ => Ok (amountIn * rate tokenIn / ONE_ETHER))
        (fun e _ amountIn amountOutMin tokenIn tokenOut _ _ =>
           let out := amountIn * rate tokenIn / ONE_ETHER in
           if out <? amountOutMin then Revert (Error "Insufficient output amount")
           else match debit tokenIn amountIn e with
                | Revert r => Revert r
                | Ok e1 => Ok (out, credit tokenOut (arrives tokenOut out) e1)
                end)
        (fun e token holder => if holder =? Mocks.ARBITRAGE then e token else 0)
        (fun e _ _ _ _ => Ok e)
        (fun e token _ _ amount => debit token amount e)
        (fun e _ asset amount => Ok (0, credit asset (arrives asset amount) e))
        (fun e _ asset amount premium => debit asset (amount + premium) e).


End Taxed.

(* ===================================================================== *)
(** * Part II.  The JavaScript side                                       *)
(* ===================================================================== *)

(** JavaScript values as far as the scripts use them.  [Number]s are
    binary64 floats; [BigInt]s are integers; arithmetic between a
    [Number] and a [BigInt] throws a [TypeError]. *)
Module Js.

Local Open Scope string_scope.

Inductive value : Type :=
| Undefined
| Number (x : float)
| BigInt (n : Z).

Inductive exception : Type :=
| TypeError (message : string)
| Rejected (message : string).   (* a rejected promise or a library error *)

Inductive completion (A : Type) : Type :=
| Normal (a : A)
| Throw (e : exception).
Arguments Normal {A} a.
Arguments Throw {A} e.

Definition cannot_mix : exception :=
  TypeError "Cannot mix BigInt and other types, use explicit conversions".

(** [Number(n)] for a BigInt [n]: the nearest double, ties to even. *)
Definition of_BigInt (n : Z) : float :=
  SF2Prim (binary_normalize prec emax n 0 false).

(** ToNumeric leaves numbers and BigInts alone; [undefined] is [NaN]. *)
Definition to_numeric (v : value) : value :=
  match v with
  | Undefined => Number nan
  | _ => v
  end.

Definition arith (on_numbers : float -> float -> float) (on_bigints : Z -> Z -> completion Z)
           (a b : value) : completion value :=
  match to_numeric a, to_numeric b with
  | Number x, Number y => Normal (Number (on_numbers x y))
  | BigInt n, BigInt m =>
      match on_bigints n m with
      | Normal r => Normal (BigInt r)
      | Throw e => Throw e
      end
  | _, _ => Throw cannot_mix
  end.

Definition add : value -> value -> completion value :=
  arith PrimFloat.add (fun n m => Normal (n + m)%Z).
Definition sub : value -> value -> completion value :=
  arith PrimFloat.sub (fun n m => Normal (n - m)%Z).
Definition mul : value -> value -> completion value :=
  arith PrimFloat.mul (fun n m => Normal (n * m)%Z).
Definition div : value -> value -> completion value :=
  arith PrimFloat.div
        (fun n m => if (m =? 0)%Z
                    then Throw (Rejected "RangeError: Division by zero")
                    else Normal (Z.quot n m)).

(** [Math.min], [Math.max]: [NaN] if either argument is, and [-0 < +0]. *)
Definition Math_min (a b : float) : float :=
  if is_nan a || is_nan b then nan
  else if (a <? b)%float then a
  else if (b <? a)%float then b
  else match classify a with NZero => a | _ => b end.

Definition Math_max (a b : float) : float :=
  if is_nan a || is_nan b then nan
  else if (a <? b)%float then b
  else if (b <? a)%float then a
  else match classify a with NZero => b | _ => a end.

Definition Math_abs (a : float) : float := PrimFloat.abs a.
Definition Math_sqrt (a : float) : float := PrimFloat.sqrt a.

(** [a > b] on numbers. *)
Definition gt (a b : float) : bool := (b <? a)%float.
Definition lt (a b : float) : bool := (a <? b)%float.

(** [a === b] on numbers. *)
Definition strict_eq (a b : float) : bool := (a =? b)%float.

Definition isFinite (a : float) : bool := is_finite a.

End Js.

Declare Scope js_scope.
Delimit Scope js_scope with js.
Notation "x <- c ;; k" :=
  (match c with Js.Normal x => k | Js.Throw e => Js.Throw e end)
  (at level 61, c at next level, right associativity) : js_scope.

(** * The orchestrator script (scripts/weth-dai-arbitrage.js) *)
Module Orchestrator.

Import Js.
Local Open Scope string_scope.
Local Open Scope list_scope.
Local Open Scope float_scope.

(** ** Configuration constants *)

(** [RISK_MANAGEMENT.maxPositionSize[pair.name] || ....default] *)
Definition maxPositionSize (pairName : string) : float :=
  if (pairName =? "WETH/DAI")%string then 50
  else if (pairName =? "WETH/USDC")%string then 50
  else 20.

(** [RISK_MANAGEMENT.minLiquidity[pair.name] || ....default] *)
Definition minLiquidity (pairName : string) : float :=
  if (pairName =? "WETH/DAI")%string then 1000000
  else if (pairName =? "WETH/USDC")%string then 1000000
  else 500000.

(** [RISK_MANAGEMENT.emergencyStop]; nothing reads [cooldownPeriod]. *)
Definition maxLoss : float := 100.
Definition maxGasSpent : float := 1.
Definition cooldownPeriod : float := 300.

(** [estimatedGasUsed[pair.name] || estimatedGasUsed.default], BigInts. *)
Definition estimatedGasUsed (pairName : string) : Z :=
  if (pairName =? "WETH/DAI")%string then 180000
  else if (pairName =? "WETH/USDC")%string then 180000
  else if (pairName =? "USDC/USDT")%string then 190000
  else if (pairName =? "DAI/USDC")%string then 190000
  else if (pairName =? "DAI/USDT")%string then 190000
  else if (pairName =? "WBTC/WETH")%string then 200000
  else 250000.

(** ** Execution statistics *)

Record ErrorEntry : Type := mkErrorEntry {
  error_time : float;
  error_pair : string
}.

Record ExecutionStats : Type := mkExecutionStats {
  totalTrades : float;
  successfulTrades : float;
  failedTrades : float;
  totalProfit : value;
  totalGasSpent : value;
  lastTradeTime : float;
  recentErrors : list ErrorEntry;
  profitByPair : list (string * value)
}.

Definition initialStats (startTime : float) : ExecutionStats :=
  mkExecutionStats 0 0 0 (Number 0) (Number 0) 0 [] [].

Record Trade : Type := mkTrade {
  success : bool;
  profit : value;
  gasSpent : value;
  pair : string
}.

Fixpoint lookup (key : string) (table : list (string * value)) : value :=
  match table with
  | [] => Undefined
  | (k, v) :: rest => if (k =? key)%string then v else lookup key rest
  end.

Fixpoint assign (key : string) (v : value) (table : list (string * value))
  : list (string * value) :=
  match table with
  | [] => [(key, v)]
  | (k, old) :: rest =>
      if (k =? key)%string then (k, v) :: rest else (k, old) :: assign key v rest
  end.

(** [!v] *)
Definition falsy (v : value) : bool :=
  match v with
  | Undefined => true
  | Number x => is_nan x || is_zero x
  | BigInt n => (n =? 0)%Z
  end.

(** [updateExecutionStats(trade)].  An exception leaves the fields
    written before it as they are: the object is mutated in place. *)
Definition updateExecutionStats (trade : Trade) (now : float) (st : ExecutionStats)
  : ExecutionStats * completion unit :=
  let st1 := mkExecutionStats (totalTrades st + 1) (successfulTrades st) (failedTrades st)
               (totalProfit st) (totalGasSpent st) (lastTradeTime st)
               (recentErrors st) (profitByPair st) in
  if success trade then
    let st2 := mkExecutionStats (totalTrades st1) (successfulTrades st1 + 1) (failedTrades st1)
                 (totalProfit st1) (totalGasSpent st1) (lastTradeTime st1)
                 (recentErrors st1) (profitByPair st1) in
    match add (totalProfit st2) (profit trade) with
    | Throw e => (st2, Throw e)
    | Normal p =>
        let st3 := mkExecutionStats (totalTrades st2) (successfulTrades st2) (failedTrades st2)
                     p (totalGasSpent st2) (lastTradeTime st2)
                     (recentErrors st2) (profitByPair st2) in
        match add (totalGasSpent st3) (gasSpent trade) with
        | Throw e => (st3, Throw e)
        | Normal g =>
            let st4 := mkExecutionStats (totalTrades st3) (successfulTrades st3)
                         (failedTrades st3) (totalProfit st3) g (lastTradeTime st3)
                         (recentErrors st3) (profitByPair st3) in
            let table :=
              if falsy (lookup (pair trade) (profitByPair st4))
              then assign (pair trade) (Number 0) (profitByPair st4)
              else profitByPair st4 in
            match add (lookup (pair trade) table) (profit trade) with
            | Throw e =>
                (mkExecutionStats (totalTrades st4) (successfulTrades st4)
                   (failedTrades st4) (totalProfit st4) (totalGasSpent st4)
                   (lastTradeTime st4) (recentErrors st4) table, Throw e)
            | Normal q =>
                (mkExecutionStats (totalTrades st4) (successfulTrades st4)
                   (failedTrades st4) (totalProfit st4) (totalGasSpent st4)
                   now (recentErrors st4) (assign (pair trade) q table), Normal tt)
            end
        end
    end
  else
    let errors := recentErrors st1 ++ [mkErrorEntry now (pair trade)] in
    let errors := if (10 <? List.length errors)%nat then tl errors else errors in
    (mkExecutionStats (totalTrades st1) (successfulTrades st1) (failedTrades st1 + 1)
       (totalProfit st1) (totalGasSpent st1) now errors (profitByPair st1), Normal tt).

(** ** The emergency stop *)

(** The module-level variables of the script. *)
Record Bot : Type := mkBot {
  emergencyStopActive : bool;
  totalLoss : float;
  totalGasUsed : float;
  executionStats : ExecutionStats
}.

Definition initialBot (startTime : float) : Bot :=
  mkBot false 0 0 (initialStats startTime).

(** What a call does to the outside: console lines (pictographs left
    out, interpolated numbers kept apart) and Flashbots requests. *)
Inductive event : Type :=
| Console (message : string)
| ConsoleNumber (label : string) (x : float)
| SimulateBundle
| SendBundle.

Definition checkEmergencyStop (bot : Bot) : bool * Bot * list event :=
  if emergencyStopActive bot then (true, bot, [])
  else if gt (totalLoss bot) maxLoss || gt (totalGasUsed bot) maxGasSpent then
    (true,
     mkBot true (totalLoss bot) (totalGasUsed bot) (executionStats bot),
     [Console "Emergency stop triggered!";
      ConsoleNumber "Total Loss: $" (totalLoss bot);
      ConsoleNumber "Total Gas Used (ETH): " (totalGasUsed bot)])
  else (false, bot, []).

(** The fields of [opportunity] that [executeArbitrage] reads. *)
Record Opportunity : Type := mkOpportunity {
  optimalSize : float;
  liquidityUSD : float;
  gasPrice : value;
  expectedProfit : value      (* opportunity.profit *)
}.

(** How the awaited Flashbots calls of one [executeArbitrage] end. *)
Inductive Flashbots : Type :=
| SetupFails            (* setupFlashbots, populateTransaction or getBlockNumber rejects *)
| SimulationFails       (* simulate rejects *)
| SimulationReverts     (* simulation.firstRevert is set *)
| SubmissionFails       (* sendBundle or wait rejects *)
| Resolved (bundleInclusion : Z).

(** The value [executeArbitrage] resolves to. *)
Inductive returned : Type :=
| ReturnUndefined
| ReturnBool (b : bool).

Section Ethers.

(** [Number(ethers.formatUnits(v, decimals))] and
    [ethers.parseUnits(x.toString(), decimals)], from the ethers library. *)
Context (unitsToNumber : Z -> Z -> float)
        (parseUnits : float -> Z -> completion Z).

(** [Number(ethers.formatEther(v))]; [v] is a BigInt wherever the script
    gets this far. *)
Definition etherToNumber (v : value) : completion float :=
  match v with
  | BigInt n => Normal (unitsToNumber n 18)
  | _ => Throw (TypeError "invalid BigNumberish value")
  end.

Definition executeArbitrage (pairName : string) (opportunity : Opportunity)
           (io : Flashbots) (now : float) (bot : Bot) : Bot * returned * list event :=
  let '(stopped, bot, log) := checkEmergencyStop bot in
  if stopped : bool then
    (bot, ReturnUndefined, log ++ [Console "Emergency stop active, skipping trade"])
  else
    let maxSize := maxPositionSize pairName in
    let minimum := minLiquidity pairName in
    if gt (optimalSize opportunity) maxSize then
      (bot, ReturnUndefined, log ++ [Console "Trade size exceeds max position size"])
    else if lt (liquidityUSD opportunity) minimum then
      (bot, ReturnUndefined, log ++ [Console "Liquidity below minimum"])
    else
      let failed := Console "Error executing arbitrage:" in
      match io with
      | SetupFails => (bot, ReturnBool false, log ++ [failed])
      | SimulationFails => (bot, ReturnBool false, log ++ [SimulateBundle; failed])
      | SimulationReverts =>
          (bot, ReturnUndefined, log ++ [SimulateBundle; Console "Bundle simulation failed:"])
      | SubmissionFails =>
          (bot, ReturnBool false, log ++ [SimulateBundle; SendBundle; failed])
      | Resolved bundleInclusion =>
          let sent := log ++ [SimulateBundle; SendBundle] in
          match mul (gasPrice opportunity) (BigInt (estimatedGasUsed pairName)) with
          | Throw _ => (bot, ReturnBool false, sent ++ [failed])
          | Normal spent =>
              let trade := mkTrade (bundleInclusion =? 0)%Z (expectedProfit opportunity)
                                   spent pairName in
              let '(stats, updated) := updateExecutionStats trade now (executionStats bot) in
              let bot := mkBot (emergencyStopActive bot) (totalLoss bot) (totalGasUsed bot)
                               stats in
              match updated with
              | Throw _ => (bot, ReturnBool false, sent ++ [failed])
              | Normal _ =>
                  if negb (success trade) then
                    (* totalLoss += trade.gasSpent * 2200 *)
                    match (usd <- mul (gasSpent trade) (Number 2200) ;;
                           add (Number (totalLoss bot)) usd)%js with
                    | Throw _ => (bot, ReturnBool false, sent ++ [failed])
                    | Normal (Number loss) =>
                        let bot := mkBot (emergencyStopActive bot) loss (totalGasUsed bot)
                                         (executionStats bot) in
                        (* totalGasUsed += Number(ethers.formatEther(trade.gasSpent)) *)
                        match etherToNumber (gasSpent trade) with
                        | Throw _ => (bot, ReturnBool false, sent ++ [failed])
                        | Normal gas =>
                            (mkBot (emergencyStopActive bot) (totalLoss bot)
                                   (totalGasUsed bot + gas) (executionStats bot),
                             ReturnBool (success trade), sent)
                        end
                    | Normal _ => (bot, ReturnBool false, sent ++ [failed])
                    end
                  else (bot, ReturnBool (success trade), sent)
              end
          end
      end.

(** One call of the loop: the pair, the opportunity, what Flashbots
    answers and the clock. *)
Record Attempt : Type := mkAttempt {
  attempt_pair : string;
  attempt_opportunity : Opportunity;
  attempt_io : Flashbots;
  attempt_time : float
}.

(** Successive calls of [executeArbitrage] on the module's variables. *)
Fixpoint executeAll (attempts : list Attempt) (bot : Bot)
  : Bot * list (returned * list event) :=
  match attempts with
  | [] => (bot, [])
  | a :: rest =>
      let '(bot1, r, log) :=
        executeArbitrage (attempt_pair a) (attempt_opportunity a) (attempt_io a)
                         (attempt_time a) bot in
      let '(bot2, results) := executeAll rest bot1 in
      (bot2, (r, log) :: results)
  end.

End Ethers.

(** A call that was turned away by the emergency stop: it resolved to
    [undefined], its last console line is the skip message, and nothing
    was simulated or sent. *)
Definition skipped (outcome : returned * list event) : Prop :=
  fst outcome = ReturnUndefined /\
  last (snd outcome) SendBundle = Console "Emergency stop active, skipping trade" /\
  ~ In SimulateBundle (snd outcome) /\ ~ In SendBundle (snd outcome).

(** A call that went out to Flashbots. *)
Definition submitted (outcome : returned * list event) : bool :=
  existsb (fun e => match e with SendBundle => true | _ => false end) (snd outcome).

(** An opportunity within the position and liquidity limits of WETH/DAI,
    at 30 gwei. *)
Definition sample_opportunity : Opportunity :=
  mkOpportunity 1 2000000 (BigInt 30000000000) (Number 12).

(** ** The health report *)

(** [x ? a : b] on a number. *)
Definition truthy (x : float) : bool := negb (falsy (Number x)).

(** [v.toFixed(2)]: a method of numbers only. *)
Definition toFixed (v : value) : completion float :=
  match v with
  | Number x => Normal x
  | _ => Throw (TypeError "toFixed is not a function")
  end.

Definition suboptimal : event := Console "Warning: Bot performance is suboptimal".

(** [checkBotHealth()], with [executionStats.startTime] and [Date.now()]
    as arguments; the figures of the report are kept apart from their
    text.  The [stats] object is built before the first line is printed;
    an exception leaves what was printed before it. *)
Definition checkBotHealth (startTime now : float) (st : ExecutionStats)
  : completion bool * list event :=
  let uptime := (now - startTime) / 1000 / 60 in
  let successRate :=
    if truthy (totalTrades st) then successfulTrades st / totalTrades st * 100 else 0 in
  match (averageProfit <- (if truthy (successfulTrades st)
                           then div (totalProfit st) (Number (successfulTrades st))
                           else Normal (Number 0)) ;;
         spent <- mul (totalGasSpent st) (Number 2200) ;;
         gasEfficiency <- div (totalProfit st) spent ;;
         Normal (averageProfit, gasEfficiency))%js with
  | Throw e => (Throw e, [])
  | Normal (averageProfit, gasEfficiency) =>
      let errors := of_BigInt (Z.of_nat (List.length (recentErrors st))) in
      let opening :=
        [Console "Bot Health Report:";
         ConsoleNumber "Uptime (minutes): " uptime;
         ConsoleNumber "Success Rate (%): " successRate] in
      match toFixed averageProfit with
      | Throw e => (Throw e, opening)
      | Normal average =>
          match toFixed gasEfficiency with
          | Throw e => (Throw e, opening ++ [ConsoleNumber "Average Profit: $" average])
          | Normal efficiency =>
              let report :=
                opening ++ [ConsoleNumber "Average Profit: $" average;
                            ConsoleNumber "Gas Efficiency: $" efficiency;
                            ConsoleNumber "Recent Errors: " errors] in
              if lt successRate 50 || gt errors 5
              then (Normal false, report ++ [suboptimal])
              else (Normal true, report)
          end
      end
  end.

End Orchestrator.

(** * Detection and sizing in the same script *)
Module Detector.

Import Js.
Local Open Scope string_scope.
Local Open Scope list_scope.
Local Open Scope float_scope.

(** [MEV_PROTECTION.maxPriceImpact] *)
Definition maxPriceImpact : float := 0.005.

(** [BigInt(1e18)] *)
Definition SCALE : Z := (10 ^ 18)%Z.

Record ProfitDetails : Type := mkProfitDetails {
  profit : float;
  roi : float;
  optimalSize : float;
  direction : string
}.

Record LiquidityDetails : Type := mkLiquidityDetails {
  uniswapLiquidity : float;
  sushiswapLiquidity : float;
  tradeSize : float;
  priceImpact : float
}.

(** [Math.abs(u - s) / Math.min(u, s) * 100] *)
Definition priceDiff (uniPriceDecimal sushiPriceDecimal : float) : float :=
  Math_abs (uniPriceDecimal - sushiPriceDecimal)
  / Math_min uniPriceDecimal sushiPriceDecimal * 100.

(** [(reserve1 * SCALE) / reserve0] on BigInts, then
    [Number(price) / 1e18]. *)
Definition priceDecimal (reserve0 reserve1 : Z) : float :=
  of_BigInt (Z.quot (reserve1 * SCALE) reserve0) / 1e18.

(** How one pass of [checkArbitrageOpportunity] over fresh reserves ends. *)
Inductive outcome : Type :=
| Skipped                               (* an empty reserve or an unusable price *)
| BelowThreshold (diff : float)         (* [priceDiff > 0.1] is false *)
| NoTrade (diff : float)                (* no profit details, or [profit > 5] is false *)
| Caught (e : exception)                (* an exception reached the [catch] block *)
| HighPriceImpact (impact : float)
| Logged (details : ProfitDetails) (diff : float) (liquidity : LiquidityDetails).

Section Ethers.

(** [Number(ethers.formatUnits(v, decimals))] and
    [ethers.parseUnits(x.toString(), decimals)], from the ethers library. *)
Context (unitsToNumber : Z -> Z -> float)
        (parseUnits : float -> Z -> completion Z).

(** [maxTradeSize] of [calculateProfit]: 3% of the smaller reserve. *)
Definition maxTradeSize (token0Decimals uniReserve0 sushiReserve0 : Z) : float :=
  Math_min (unitsToNumber uniReserve0 token0Decimals)
           (unitsToNumber sushiReserve0 token0Decimals) * 0.03.

(** [gasCostUSD] of [checkArbitrageOpportunity]: the gas limit of the
    pair times the gas price in wei, over [BigInt(1e9)], read as ether
    and priced at 2200. *)
Definition gasCostUSD (pairName : string) (gasPrice : Z) : float :=
  let gasLimit := Orchestrator.estimatedGasUsed pairName in
  let gasCostETH := Z.quot (gasLimit * gasPrice) (10 ^ 9) in
  unitsToNumber gasCostETH 18 * 2200.

(** [optimalSize] of [calculateProfit], as computed before the profit
    is looked at. *)
Definition chosenSize (uniPrice sushiPrice gasCostUSD : float)
           (token0Decimals uniReserve0 sushiReserve0 : Z) : float :=
  let profitPerUnit := Math_max uniPrice sushiPrice - Math_min uniPrice sushiPrice in
  Math_min (Math_sqrt (gasCostUSD / (profitPerUnit * (1 - 0.003))))
           (maxTradeSize token0Decimals uniReserve0 sushiReserve0).

(** The profit estimate of [calculateProfit] for a size. *)
Definition estimate (uniPrice sushiPrice gasCostUSD size : float) : float :=
  let profitPerUnit := Math_max uniPrice sushiPrice - Math_min uniPrice sushiPrice in
  size * profitPerUnit * (1 - 0.003) - gasCostUSD.

Definition calculateProfit (uniPrice sushiPrice gasCostUSD : float)
           (token0Decimals uniReserve0 sushiReserve0 : Z) : option ProfitDetails :=
  let higherPrice := Math_max uniPrice sushiPrice in
  let lowerPrice := Math_min uniPrice sushiPrice in
  let profitPerUnit := higherPrice - lowerPrice in
  let maxSlippage := 0.003 in
  let size :=
    Math_min (Math_sqrt (gasCostUSD / (profitPerUnit * (1 - maxSlippage))))
             (maxTradeSize token0Decimals uniReserve0 sushiReserve0) in
  let profit := size * profitPerUnit * (1 - maxSlippage) - gasCostUSD in
  let roi := profit / gasCostUSD * 100 in
  if gt profit 5 && gt roi 10 && lt roi 1000 then
    Some (mkProfitDetails profit roi size
            (if gt uniPrice sushiPrice then "Sushi->Uni" else "Uni->Sushi"))
  else None.

(** [Math.abs(v)] *)
Definition abs_value (v : value) : completion float :=
  match to_numeric v with
  | Number x => Normal (Math_abs x)
  | _ => Throw (TypeError "Cannot convert a BigInt value to a number")
  end.

(** [calculatePriceImpact(amount, reserve0, reserve1, decimals)]: the
    reserves arrive as Numbers, the amount is turned into a BigInt. *)
Definition calculatePriceImpact (amount reserve0 reserve1 : float) (decimals : Z)
  : completion float :=
  (amountBN <- parseUnits amount decimals ;;
   constantProduct <- mul (Number reserve0) (Number reserve1) ;;
   newReserve0 <- add (Number reserve0) (BigInt amountBN) ;;
   newReserve1 <- div constantProduct newReserve0 ;;
   num <- mul newReserve1 (Number reserve0) ;;
   den <- mul (Number reserve1) newReserve0 ;;
   ratio <- div num den ;;
   rest <- sub (Number 1) ratio ;;
   abs_value rest)%js.

(** [checkArbitrageOpportunity(pair)] from the point where the reserves
    of both venues and the gas cost are known. *)
Definition checkArbitrageOpportunity (gasCostUSD : float) (token0Decimals : Z)
           (uniReserve0 uniReserve1 sushiReserve0 sushiReserve1 : Z) : outcome :=
  if ((uniReserve0 =? 0) || (uniReserve1 =? 0)
      || (sushiReserve0 =? 0) || (sushiReserve1 =? 0))%Z
  then Skipped
  else
    let uniPriceDecimal := priceDecimal uniReserve0 uniReserve1 in
    let sushiPriceDecimal := priceDecimal sushiReserve0 sushiReserve1 in
    if strict_eq uniPriceDecimal 0 || strict_eq sushiPriceDecimal 0
       || negb (isFinite uniPriceDecimal) || negb (isFinite sushiPriceDecimal)
    then Skipped
    else
      let diff := priceDiff uniPriceDecimal sushiPriceDecimal in
      if gt diff 0.1 then
        match calculateProfit uniPriceDecimal sushiPriceDecimal gasCostUSD
                token0Decimals uniReserve0 sushiReserve0 with
        | None => NoTrade diff
        | Some details =>
            if gt (profit details) 5 then
              match calculatePriceImpact (optimalSize details) (of_BigInt uniReserve0)
                      (of_BigInt uniReserve1) token0Decimals with
              | Throw e => Caught e
              | Normal impact =>
                  if gt impact maxPriceImpact then HighPriceImpact impact
                  else
                    Logged details diff
                      (mkLiquidityDetails
                         (unitsToNumber uniReserve0 token0Decimals * uniPriceDecimal)
                         (unitsToNumber sushiReserve0 token0Decimals * sushiPriceDecimal)
                         (optimalSize details
                          * Math_min uniPriceDecimal sushiPriceDecimal)
                         (impact * 100))
              end
            else NoTrade diff
        end
      else BelowThreshold diff.

End Ethers.

(** ** [getPrice] *)

(** The object handed to [getPrice], with the two fields it reads. *)
Record Reserves : Type := mkReserves {
  reserve0 : value;
  reserve1 : value
}.

Section Feed.

(** [parseFloat(ethers.formatUnits(v, decimals))], and
    [BigInt(x.toString())] for a reserve that arrives as a number. *)
Context (unitsToNumber : Z -> Z -> float)
        (toBigInt : float -> completion Z).

(** [typeof v === 'bigint' ? v : BigInt(v.toString())] *)
Definition as_bigint (v : value) : completion Z :=
  match v with
  | BigInt n => Normal n
  | Number x => toBigInt x
  | Undefined => Throw (TypeError "Cannot read properties of undefined")
  end.

(** [getPrice(reserves, isToken0Base)], the price it returns; [None] is
    a missing [reserves].  The warnings it prints on the way to a 0 are
    left out. *)
Definition getPrice (reserves : option Reserves) (isToken0Base : bool) : float :=
  match reserves with
  | None => 0
  | Some r =>
      if Orchestrator.falsy (reserve0 r) || Orchestrator.falsy (reserve1 r) then 0
      else
        match (n0 <- as_bigint (reserve0 r) ;;
               n1 <- as_bigint (reserve1 r) ;;
               Normal (n0, n1))%js with
        | Throw _ => 0
        | Normal (n0, n1) =>
            let reserve0Num := unitsToNumber n0 (if isToken0Base then 18 else 6)%Z in
            let reserve1Num := unitsToNumber n1 (if isToken0Base then 6 else 18)%Z in
            if strict_eq reserve0Num 0 then 0
            else
              let price := if isToken0Base then reserve1Num / reserve0Num
                           else reserve0Num / reserve1Num in
              if negb (isFinite price) || (price <=? 0) then 0 else price
        end
  end.

End Feed.

(** [Number(ethers.formatUnits(v, decimals))] for the examples: the
    quotient of the two doubles, which is the library's answer whenever
    [v] and [10^decimals] are doubles themselves. *)
Definition unitsAsDouble (v decimals : Z) : float :=
  of_BigInt v / of_BigInt (10 ^ decimals).

(** [ethers.parseUnits(x.toString(), 18)] for the examples, on amounts
    that are whole numbers of tokens. *)
Definition parseWhole (x : float) (decimals : Z) : completion Z :=
  match Prim2SF x with
  | S754_finite false m e =>
      if (0 <=? e)%Z then Normal (Z.pos m * 2 ^ e * 10 ^ decimals)%Z
      else Throw (Rejected "fractional component exceeds decimals")
  | S754_zero _ => Normal 0%Z
  | _ => Throw (Rejected "invalid FixedNumber string value")
  end.

(** [MEV_PROTECTION.maxGasPrice], in gwei: above it a pair is not
    looked at. *)
Definition maxGasPrice : Z := 150.

(** The pairs that have a gas estimate of their own, and one that has
    none. *)
Definition gas_estimated_pairs : list string :=
  ["WETH/DAI"; "WETH/USDC"; "USDC/USDT"; "DAI/USDC"; "DAI/USDT"; "WBTC/WETH"; "LINK/WETH"].

(** The gas prices of whole gwei up to the ceiling, in wei. *)
Definition whole_gwei_prices : list Z :=
  map (fun n => (Z.of_nat (S n) * 10 ^ 9)%Z) (seq 0 (Z.to_nat maxGasPrice)).

(** The scenario of the specification: 100 tokens of 18 decimals against
    200000 on one venue (rate 2000) and against 250000 on the other
    (rate 2500). *)
Definition hundred_tokens : Z := (100 * 10 ^ 18)%Z.
Definition cheap_side : Z := (200000 * 10 ^ 18)%Z.
Definition dear_side : Z := (250000 * 10 ^ 18)%Z.

End Detector.

(** The yardstick the specification gives for the Sizer (section 4.3);
    it is not code of the repository.  A trade through a
    constant-product venue returns
    [amountIn * reserveOut * feeFactor / (reserveIn + amountIn * feeFactor)];
    here in base units, the fee factor in thousandths, rounded down. *)
Module SizerReference.

Local Open Scope Z_scope.

Definition amountOut (feePerMille amountIn reserveIn reserveOut : Z) : Z :=
  amountIn * reserveOut * feePerMille / (reserveIn * 1000 + amountIn * feePerMille).

(** [size] of token0 sold where it is dear, and token0 bought back with
    the proceeds where it is cheap. *)
Definition roundTrip (feePerMille size dear0 dear1 cheap0 cheap1 : Z) : Z :=
  amountOut feePerMille (amountOut feePerMille size dear0 dear1) cheap1 cheap0.

End SizerReference.

(** * The order-book price monitor ([PriceMonitor]) *)
Module PriceMonitor.

Import Js.
Local Open Scope string_scope.
Local Open Scope list_scope.
Local Open Scope float_scope.

Record Ticker : Type := mkTicker {
  bid : float;
  ask : float;
  timestamp : float
}.

Record Opportunity : Type := mkOpportunity {
  pair : string;
  buyExchange : string;
  sellExchange : string;
  buyPrice : float;
  sellPrice : float;
  profitPercent : float
}.

(** An entry of [exchangePrices]: [{ exchange, ...value }]. *)
Record ExchangePrice : Type := mkExchangePrice {
  exchange : string;
  quote : Ticker
}.

(** [key.endsWith(pair)] *)
Definition endsWith (key suffix : string) : bool :=
  let n := String.length key in
  let m := String.length suffix in
  (m <=? n)%nat && (substring (n - m) m key =? suffix)%string.

(** [key.split('-')[0]] *)
Fixpoint before_dash (key : string) : string :=
  match key with
  | EmptyString => EmptyString
  | String ch rest =>
      if Ascii.eqb ch "-"%char then EmptyString else String ch (before_dash rest)
  end.

(** The inner loop: [buy] against every later entry. *)
Fixpoint against (pairName : string) (minProfitPercent : float) (buy : ExchangePrice)
         (later : list ExchangePrice) : list Opportunity :=
  match later with
  | [] => []
  | sell :: rest =>
      let profit := (bid (quote sell) - ask (quote buy)) / ask (quote buy) * 100 in
      (if gt profit minProfitPercent
       then [mkOpportunity pairName (exchange buy) (exchange sell)
                           (ask (quote buy)) (bid (quote sell)) profit]
       else [])
      ++ against pairName minProfitPercent buy rest
  end.

(** The two nested loops over [i < j]. *)
Fixpoint scan (pairName : string) (minProfitPercent : float)
         (exchangePrices : list ExchangePrice) : list Opportunity :=
  match exchangePrices with
  | [] => []
  | buy :: later =>
      against pairName minProfitPercent buy later
      ++ scan pairName minProfitPercent later
  end.

(** [findArbitrageOpportunities(minProfitPercent = 0.5)] over the pairs
    and the price map of the monitor, the map in insertion order. *)
Definition findArbitrageOpportunities (pairs : list string)
           (prices : list (string * Ticker)) (minProfitPercent : option float)
  : list Opportunity :=
  let threshold := match minProfitPercent with Some x => x | None => 0.5 end in
  flat_map
    (fun pairName =>
       let exchangePrices :=
         map (fun entry => mkExchangePrice (before_dash (fst entry)) (snd entry))
             (filter (fun entry => endsWith (fst entry) pairName) prices) in
       scan pairName threshold exchangePrices)
    pairs.

(** [this.prices.set(key, value)] and [this.prices.get(key)] on the
    insertion-ordered [Map]: a key that is already there keeps its place. *)
Fixpoint set (key : string) (value : Ticker) (prices : list (string * Ticker))
  : list (string * Ticker) :=
  match prices with
  | [] => [(key, value)]
  | (k, old) :: rest =>
      if (k =? key)%string then (k, value) :: rest else (k, old) :: set key value rest
  end.

Fixpoint get (key : string) (prices : list (string * Ticker)) : option Ticker :=
  match prices with
  | [] => None
  | (k, v) :: rest => if (k =? key)%string then Some v else get key rest
  end.

(** The key [exchangeName-pair] of the template string. *)
Definition key_of (exchangeName pairName : string) : string :=
  exchangeName ++ "-" ++ pairName.

(** One round of the inner [try]: [fetchTicker exchangeName pairName] is
    the ticker the exchange answered, stamped with [Date.now()], or
    [None] when the request threw and was logged.  A request is named by
    its exchange and its pair. *)
Definition record_ticker (fetchTicker : string -> string -> option Ticker)
           (pairName : string) (prices : list (string * Ticker)) (exchangeName : string)
  : list (string * Ticker) :=
  match fetchTicker exchangeName pairName with
  | Some ticker => set (key_of exchangeName pairName) ticker prices
  | None => prices
  end.

(** [updatePrices()]: every pair, and for each pair every exchange in
    the order of [Object.entries]. *)
Definition updatePrices (pairs exchanges : list string)
           (fetchTicker : string -> string -> option Ticker)
           (prices : list (string * Ticker)) : list (string * Ticker) :=
  fold_left (fun acc pairName => fold_left (record_ticker fetchTicker pairName) exchanges acc)
            pairs prices.

End PriceMonitor.

(* ===================================================================== *)
(** * Part III.  Properties of the settlement contract                    *)
(* ===================================================================== *)

Section MonadFacts.

Import FlashLoan.
Context {Ext : Type}.
Implicit Types w : World Ext.

Lemma bind_Ok {W A B} (m : M W A) (k : A -> M W B) (x : W) r :
  bind m k x = Ok r -> exists a x1, m x = Ok (a, x1) /\ k a x1 = Ok r.
Proof.
  unfold bind. destruct (m x) as [[a x1]|e]; [eauto | discriminate].
Qed.

Lemma bind_eq_Ok {W A B} (m : M W A) (k : A -> M W B) (x x1 : W) a :
  m x = Ok (a, x1) -> bind m k x = k a x1.
Proof. unfold bind. now intros ->. Qed.

Lemma bind_eq_Revert {W A B} (m : M W A) (k : A -> M W B) (x : W) e :
  m x = Revert e -> bind m k x = Revert e.
Proof. unfold bind. now intros ->. Qed.

Lemma lift_Ok {W A} (r : result A) (x x' : W) a :
  lift r x = Ok (a, x') -> r = Ok a /\ x' = x.
Proof. unfold lift. destruct r; intros H; inversion H; auto. Qed.

Lemma sload_Ok {A} (f : Storage -> A) w w' a :
  sload f w = Ok (a, w') -> a = f (store w) /\ w' = w.
Proof. unfold sload, gets. intros H; inversion H; auto. Qed.

Lemma sstore_Ok (f : Storage -> Storage) w w' u :
  sstore f w = Ok (u, w') -> w' = mkWorld (f (store w)) (ext w).
Proof. unfold sstore, modify. intros H; inversion H; auto. Qed.

Lemma staticcall_Ok {A} (f : Ext -> result A) w w' a :
  staticcall f w = Ok (a, w') -> f (ext w) = Ok a /\ w' = w.
Proof.
  unfold staticcall. destruct (f (ext w)); intros H; inversion H; auto.
Qed.

Lemma call_Ok {A} (f : Ext -> result (A * Ext)) w w' a :
  call f w = Ok (a, w') ->
  exists e', f (ext w) = Ok (a, e') /\ w' = mkWorld (store w) e'.
Proof.
  unfold call. destruct (f (ext w)) as [[a' e']|]; intros H; inversion H; eauto.
Qed.

Lemma call__Ok (f : Ext -> result Ext) w w' u :
  call_ f w = Ok (u, w') ->
  exists e', f (ext w) = Ok e' /\ w' = mkWorld (store w) e'.
Proof.
  unfold call_. destruct (f (ext w)) as [e'|]; intros H; inversion H; eauto.
Qed.

Lemma checked_add_Ok a b r :
  checked_add a b = Ok r -> r = a + b /\ a + b <= MAX_UINT256.
Proof.
  unfold checked_add. destruct (Z.leb_spec (a + b) MAX_UINT256);
    intros E; inversion E; auto.
Qed.

Lemma checked_sub_Ok a b r :
  checked_sub a b = Ok r -> r = a - b /\ b <= a.
Proof.
  unfold checked_sub. destruct (Z.leb_spec b a); intros E; inversion E; auto.
Qed.

Lemma checked_mul_Ok a b r :
  checked_mul a b = Ok r -> r = a * b /\ a * b <= MAX_UINT256.
Proof.
  unfold checked_mul. destruct (Z.leb_spec (a * b) MAX_UINT256);
    intros E; inversion E; auto.
Qed.

Lemma checked_div_Ok a b r :
  checked_div a b = Ok r -> r = a / b /\ b <> 0.
Proof.
  unfold checked_div. destruct (Z.eqb_spec b 0); intros E; inversion E; auto.
Qed.

End MonadFacts.

(** Decomposes a hypothesis saying that a monadic computation returned. *)
Ltac inv_ok H :=
  let a := fresh "v" in
  let x := fresh "w" in
  let H1 := fresh "Hrun" in
  let H2 := fresh "Hrun" in
  lazymatch type of H with
  | bind _ _ _ = Ok _ =>
      apply bind_Ok in H; destruct H as (a & x & H1 & H2);
      inv_ok H1; inv_ok H2
  | FlashLoan.sload _ _ = Ok _ => apply sload_Ok in H; destruct H as [-> ->]
  | FlashLoan.sstore _ _ = Ok _ => apply sstore_Ok in H; subst
  | FlashLoan.staticcall _ _ = Ok _ =>
      apply staticcall_Ok in H; destruct H as [H ->]
  | FlashLoan.call _ _ = Ok _ =>
      apply call_Ok in H; destruct H as (? & H & ->)
  | FlashLoan.call_ _ _ = Ok _ =>
      apply call__Ok in H; destruct H as (? & H & ->)
  | lift _ _ = Ok _ => apply lift_Ok in H; destruct H as [H ->]; inv_ok H
  | ret _ _ = Ok _ => unfold ret in H; inversion H; subst; clear H
  | revert _ _ = Ok _ => discriminate H
  | Revert _ = Ok _ => discriminate H
  | checked_add _ _ = Ok _ => apply checked_add_Ok in H; destruct H as [-> H]
  | checked_sub _ _ = Ok _ => apply checked_sub_Ok in H; destruct H as [-> H]
  | checked_mul _ _ = Ok _ => apply checked_mul_Ok in H; destruct H as [-> H]
  | checked_div _ _ = Ok _ => apply checked_div_Ok in H; destruct H as [-> H]
  | (if ?b then _ else _) _ = Ok _ =>
      let E := fresh "Hcond" in destruct b eqn:E; inv_ok H
  | _ => idtac
  end.

Section SettlementCore.

Import FlashLoan.

Context {Ext : Type} (env : Env Ext).
Implicit Types (w : World Ext) (c : Call).

Lemma calculateMinAmountOut_Ok amount w m w' :
  _calculateMinAmountOut amount w = Ok (m, w') ->
  w' = w /\ m = amount - amount * maxSlippage (store w) / MAX_BPS /\
  amount * maxSlippage (store w) <= MAX_UINT256.
Proof.
  unfold _calculateMinAmountOut. intros H. inv_ok H. auto.
Qed.

Lemma executeFirstTrade_Ok c asset amount w received w' :
  _executeFirstTrade env c asset amount w = Ok (received, w') ->
  exists quoted minAmountOut e',
    getAmountsOut env (ext w) amount asset (intermediateToken (store w)) = Ok quoted /\
    _calculateMinAmountOut quoted w = Ok (minAmountOut, w) /\
    swapExactTokensForTokens env (ext w) (this (store w)) amount minAmountOut asset
      (intermediateToken (store w)) (this (store w)) (block_timestamp c + 300)
      = Ok (received, e') /\
    minAmountOut <= received /\
    w' = mkWorld (store w) e'.
Proof.
  unfold _executeFirstTrade. intros H. inv_ok H.
  match goal with
  | M : _calculateMinAmountOut _ _ = Ok _ |- _ =>
      let M' := fresh in
      pose proof M as M'; apply calculateMinAmountOut_Ok in M';
      destruct M' as (-> & _ & _)
  end.
  apply Z.ltb_ge in Hcond. eauto 10.
Qed.

Lemma executeSecondTrade_Ok c asset amount minimumReturn w received w' :
  _executeSecondTrade env c asset amount minimumReturn w = Ok (received, w') ->
  exists quoted minAmountOut e',
    getAmountsOut env (ext w) amount (intermediateToken (store w)) asset = Ok quoted /\
    _calculateMinAmountOut quoted w = Ok (minAmountOut, w) /\
    minimumReturn <= minAmountOut /\
    swapExactTokensForTokens env (ext w) (this (store w)) amount minAmountOut
      (intermediateToken (store w)) asset (this (store w)) (block_timestamp c + 300)
      = Ok (received, e') /\
    w' = mkWorld (store w) e'.
Proof.
  unfold _executeSecondTrade. intros H. inv_ok H.
  match goal with
  | M : _calculateMinAmountOut _ _ = Ok _ |- _ =>
      let M' := fresh in
      pose proof M as M'; apply calculateMinAmountOut_Ok in M';
      destruct M' as (-> & _ & _)
  end.
  apply Z.ltb_ge in Hcond. eauto 10.
Qed.

Lemma executeFirstTrade_store c asset amount w received w' :
  _executeFirstTrade env c asset amount w = Ok (received, w') -> store w' = store w.
Proof.
  intros H. apply executeFirstTrade_Ok in H.
  destruct H as (? & ? & ? & _ & _ & _ & _ & ->). reflexivity.
Qed.

Lemma executeSecondTrade_store c asset amount minimumReturn w received w' :
  _executeSecondTrade env c asset amount minimumReturn w = Ok (received, w') ->
  store w' = store w.
Proof.
  intros H. apply executeSecondTrade_Ok in H.
  destruct H as (? & ? & ? & _ & _ & _ & _ & ->). reflexivity.
Qed.

(** What the profit check of [_executeArbitrage] answers once both legs
    have returned [finalAmount]. *)
Lemma executeArbitrage_after_legs c asset amount amountOwed w
      intermediateAmount w1 finalAmount w2 :
  msg_sender c = this (store w) ->
  _executeFirstTrade env c asset amount w = Ok (intermediateAmount, w1) ->
  _executeSecondTrade env c asset intermediateAmount amountOwed w1 = Ok (finalAmount, w2) ->
  _executeArbitrage env c asset amount amountOwed w =
    let profit := finalAmount - amountOwed in
    let bps := minProfitBps (store w) in
    if finalAmount <? amountOwed then Revert (Panic ARITHMETIC)
    else if MAX_UINT256 <? profit * MAX_BPS then Revert (Panic ARITHMETIC)
    else if MAX_UINT256 <? amountOwed * bps then Revert (Panic ARITHMETIC)
    else if profit * MAX_BPS <? amountOwed * bps
    then Revert (InsufficientProfit profit (amountOwed * bps / MAX_BPS))
    else Ok (true, mkWorld (set_totalProfitGenerated
                              (unchecked_add (totalProfitGenerated (store w)) profit)
                              (store w)) (ext w2)).
Proof.
  intros Hme H1 H2.
  pose proof H1 as S1. apply executeFirstTrade_store in S1.
  pose proof H2 as S2. apply executeSecondTrade_store in S2.
  unfold _executeArbitrage.
  rewrite (bind_eq_Ok _ _ (a := this (store w)) (x1 := w) w) by reflexivity.
  rewrite Hme, Z.eqb_refl. cbn [negb].
  rewrite (bind_eq_Ok _ _ _ H1), (bind_eq_Ok _ _ _ H2).
  cbv zeta. unfold bind, lift, checked_sub, checked_mul, checked_div, sload, gets,
    sstore, modify, revert, ret.
  cbv beta iota.
  destruct (Z.ltb_spec finalAmount amountOwed) as [Hlt|Hge];
    destruct (Z.leb_spec amountOwed finalAmount); try lia; [reflexivity|].
  cbv beta iota.
  destruct (Z.ltb_spec MAX_UINT256 ((finalAmount - amountOwed) * MAX_BPS));
    destruct (Z.leb_spec ((finalAmount - amountOwed) * MAX_BPS) MAX_UINT256);
    try lia; [reflexivity|].
  cbv beta iota. rewrite S2, S1.
  destruct (Z.ltb_spec MAX_UINT256 (amountOwed * minProfitBps (store w)));
    destruct (Z.leb_spec (amountOwed * minProfitBps (store w)) MAX_UINT256);
    try lia; [reflexivity|].
  cbv beta iota.
  destruct (Z.ltb_spec ((finalAmount - amountOwed) * MAX_BPS)
                       (amountOwed * minProfitBps (store w))).
  - change (MAX_BPS =? 0) with false. reflexivity.
  - rewrite S2, S1. reflexivity.
Qed.

End SettlementCore.


Section FirstLeg.

Import FlashLoan.
Context {Ext : Type} (env : Env Ext).
Implicit Types (w : World Ext) (c : Call).

(** Integer form of "no worse than (1 - s/10000) of the quote". *)
Lemma min_amount_out_bound quoted s received :
  received < quoted - quoted * s / MAX_BPS <->
  received * MAX_BPS < quoted * (MAX_BPS - s).
Proof.
  unfold MAX_BPS.
  pose proof (Z.div_mod (quoted * s) 10000 ltac:(lia)) as Hdm.
  pose proof (Z.mod_pos_bound (quoted * s) 10000 ltac:(lia)) as Hm.
  split; intros H; nia.
Qed.

(** When the settlement core reverts, so does [executeOperation]: the
    [catch] branch counts the failure and reverts again, with the
    caught reason as its message. *)
Lemma executeOperation_reverts_with_core pc asset amount premium initiator w reason :
  _executeArbitrage env (from (this (store w)) pc) asset amount (amount + premium) w
    = Revert reason ->
  exists e,
    executeOperation env pc asset amount premium initiator w = Revert e /\
    (msg_sender pc = lendingPool (store w) ->
     initiator = this (store w) ->
     amount + premium <= MAX_UINT256 ->
     failedTrades (store w) + 1 <= MAX_UINT256 ->
     gas_left pc <= gas_start pc ->
     e = ErrorOfBytes reason).
Proof.
  intros Hcore. unfold executeOperation.
  unfold bind at 1. unfold sload at 1, gets. cbv beta iota.
  unfold bind at 1. unfold sload at 1, gets. cbv beta iota.
  destruct (Z.eqb_spec (msg_sender pc) (lendingPool (store w))); cbn [negb];
    [|unfold revert; eexists; split; [reflexivity|tauto]].
  destruct (Z.eqb_spec initiator (this (store w))); cbn [negb];
    [|unfold revert; eexists; split; [reflexivity|tauto]].
  unfold bind at 1. unfold lift at 1, checked_add.
  destruct (Z.leb_spec (amount + premium) MAX_UINT256);
    [|eexists; split; [reflexivity|lia]].
  unfold try_catch. rewrite Hcore.
  unfold bind at 1. unfold sload at 1, gets. cbv beta iota.
  unfold bind at 1. unfold lift at 1, checked_add.
  destruct (Z.leb_spec (failedTrades (store w) + 1) MAX_UINT256);
    [|eexists; split; [reflexivity|lia]].
  unfold bind at 1. unfold sstore at 1, modify. cbv beta iota.
  unfold bind at 1. unfold lift at 1, checked_sub.
  destruct (Z.leb_spec (gas_left pc) (gas_start pc));
    unfold revert; eexists; (split; [reflexivity|]); [tauto|lia].
Qed.

(** C5.  In the first leg the venue is asked for at least
    [minAmountOut = quoted - quoted * maxSlippage / 10000]; a payout is
    below it exactly when it is worse than [(1 - maxSlippage/10000)] of
    the quote, and then the leg and the settlement core abort with
    [ExcessiveSlippage] and the enclosing [executeOperation] reverts,
    leaving the world as it was; any other payout is accepted. *)
Theorem first_leg_excessive_slippage ts asset amount w quoted minAmountOut received e' :
  getAmountsOut env (ext w) amount asset (intermediateToken (store w)) = Ok quoted ->
  _calculateMinAmountOut quoted w = Ok (minAmountOut, w) ->
  ts + 300 <= MAX_UINT256 ->
  swapExactTokensForTokens env (ext w) (this (store w)) amount minAmountOut asset
    (intermediateToken (store w)) (this (store w)) (ts + 300) = Ok (received, e') ->
  (received < minAmountOut <->
   received * MAX_BPS < quoted * (MAX_BPS - maxSlippage (store w))) /\
  (received < minAmountOut ->
   forall c, block_timestamp c = ts ->
     _executeFirstTrade env c asset amount w
       = Revert (ExcessiveSlippage minAmountOut received) /\
     (msg_sender c = this (store w) ->
      forall amountOwed,
        _executeArbitrage env c asset amount amountOwed w
          = Revert (ExcessiveSlippage minAmountOut received)) /\
     (forall premium, exists e,
        run_tx (executeOperation env c asset amount premium (this (store w))) w
          = (w, Revert e))) /\
  (minAmountOut <= received ->
   forall c, block_timestamp c = ts ->
     _executeFirstTrade env c asset amount w = Ok (received, mkWorld (store w) e')).
Proof.
  intros Hq Hmin Hts Hswap.
  pose proof Hmin as Hm. apply calculateMinAmountOut_Ok in Hm.
  destruct Hm as (_ & Hm & _).
  assert (Hleg : forall c, block_timestamp c = ts ->
            _executeFirstTrade env c asset amount w =
            if received <? minAmountOut
            then Revert (ExcessiveSlippage minAmountOut received)
            else Ok (received, mkWorld (store w) e')).
  { intros c Hc. unfold _executeFirstTrade.
    unfold bind at 1. unfold sload at 1, gets. cbv beta iota.
    unfold bind at 1. unfold sload at 1, gets. cbv beta iota.
    unfold bind at 1. unfold staticcall at 1. rewrite Hq.
    rewrite (bind_eq_Ok _ _ _ Hmin).
    unfold bind at 1. unfold lift at 1, checked_add. rewrite Hc.
    destruct (Z.leb_spec (ts + 300) MAX_UINT256); [|lia].
    unfold bind at 1. unfold call at 1. rewrite Hswap.
    destruct (received <? minAmountOut); reflexivity. }
  split; [rewrite Hm; apply min_amount_out_bound|]. split.
  - intros Hless c Hc.
    assert (Hrev : _executeFirstTrade env c asset amount w
                   = Revert (ExcessiveSlippage minAmountOut received)).
    { rewrite (Hleg c Hc). destruct (Z.ltb_spec received minAmountOut); [reflexivity|lia]. }
    assert (Hcore : forall c', block_timestamp c' = ts -> msg_sender c' = this (store w) ->
              forall amountOwed,
                _executeArbitrage env c' asset amount amountOwed w
                = Revert (ExcessiveSlippage minAmountOut received)).
    { intros c' Hc' Hme amountOwed. unfold _executeArbitrage.
      unfold bind at 1. unfold sload at 1, gets. cbv beta iota.
      rewrite Hme, Z.eqb_refl. cbn [negb].
      apply bind_eq_Revert. rewrite (Hleg c' Hc').
      destruct (Z.ltb_spec received minAmountOut); [reflexivity|lia]. }
    split; [exact Hrev|]. split; [intros Hme; apply Hcore; assumption|].
    intros premium.
    destruct (@executeOperation_reverts_with_core c asset amount premium
                (this (store w)) w
                (ExcessiveSlippage minAmountOut received)) as (e & He & _).
    { apply Hcore; [exact Hc | reflexivity]. }
    exists e. unfold run_tx. rewrite He. reflexivity.
  - intros Hge c Hc. rewrite (Hleg c Hc).
    destruct (Z.ltb_spec received minAmountOut); [lia|reflexivity].
Qed.

End FirstLeg.

(** The scenario of the specification: quoted 110, paid 104, 5% slippage
    allowed: the minimum is 105 and the leg aborts. *)
Lemma first_leg_excessive_slippage_witness :
  FlashLoan._executeFirstTrade (Scripted.env 110) (Mocks.at_block Mocks.ARBITRAGE 10)
    Mocks.TOKEN_A 100
    (FlashLoan.mkWorld (FlashLoan.set_maxSlippage 500 Mocks.fixture_storage) [104])
  = Revert (ExcessiveSlippage 105 104).
Proof.
  refine (proj1 (proj1 (proj2 (@first_leg_excessive_slippage _ (Scripted.env 110)
            1700000000 Mocks.TOKEN_A 100
            (FlashLoan.mkWorld (FlashLoan.set_maxSlippage 500 Mocks.fixture_storage) [104])
            110 105 104 [] _ _ _ _)) _ (Mocks.at_block Mocks.ARBITRAGE 10) _));
    try reflexivity; vm_compute; congruence.
Defined.

Section EntryChecks.

Import FlashLoan.
Context {Ext : Type} (env : Env Ext).
Implicit Types (w : World Ext) (c : Call).

(** [initiateFlashLoan] never looks at its caller. *)
Lemma initiateFlashLoan_any_caller c caller asset amount w :
  initiateFlashLoan env (from caller c) asset amount w
  = initiateFlashLoan env c asset amount w.
Proof. reflexivity. Qed.

(** The guards of [initiateFlashLoan], in the order of the source: all
    of them are decided on the storage and the block alone, before any
    other contract is called. *)
Lemma initiateFlashLoan_guards c asset amount w :
  initiateFlashLoan env c asset amount w =
  if entered (store w) then Revert (Error "ReentrancyGuard: reentrant call")
  else if paused (store w) then Revert (Error "Pausable: paused")
  else if intermediateToken (store w) =? 0
  then Revert (InvalidAddress (intermediateToken (store w)) "Intermediate token not set")
  else if amount =? 0
  then Revert (InvalidAmount amount "Amount must be greater than 0")
  else if maxFlashLoanAmount (store w) <? amount
  then Revert (InvalidAmount amount "Amount exceeds maximum")
  else if block_number c <? lastExecutionTime (store w) then Revert (Panic ARITHMETIC)
  else if block_number c - lastExecutionTime (store w) <? MIN_EXECUTION_DELAY
  then Revert (Error "Too soon")
  else
    (_ <- _checkPriceDeviation env asset amount ;;
     _ <- _calculateEstimatedProfit env asset amount ;;
     _setupFlashLoan env asset amount ;;
     me <- sload this ;;
     flashLoanSimple env (from me c) me asset amount ;;
     sstore (set_entered false))%evm
      (mkWorld (set_lastExecutionTime (block_number c) (set_entered true (store w)))
               (ext w)).
Proof.
  unfold initiateFlashLoan.
  unfold bind at 1. unfold sload at 1, gets. cbv beta iota.
  destruct (entered (store w)); [reflexivity|].
  unfold bind at 1. unfold sstore at 1, modify. cbv beta iota.
  unfold bind at 1. unfold sload at 1, gets. cbv beta iota.
  cbn [store set_entered paused].
  destruct (paused (store w)); [reflexivity|].
  unfold bind at 1. unfold sload at 1, gets. cbv beta iota.
  cbn [store set_entered intermediateToken].
  destruct (intermediateToken (store w) =? 0); [reflexivity|].
  destruct (amount =? 0); [reflexivity|].
  unfold bind at 1. unfold sload at 1, gets. cbv beta iota.
  cbn [store set_entered maxFlashLoanAmount].
  destruct (maxFlashLoanAmount (store w) <? amount); [reflexivity|].
  unfold bind at 1. unfold sload at 1, gets. cbv beta iota.
  cbn [store set_entered lastExecutionTime].
  unfold bind at 1. unfold lift, checked_sub.
  destruct (Z.leb_spec (lastExecutionTime (store w)) (block_number c));
    destruct (Z.ltb_spec (block_number c) (lastExecutionTime (store w)));
    try lia; [|reflexivity].
  destruct (block_number c - lastExecutionTime (store w) <? MIN_EXECUTION_DELAY);
    [reflexivity|].
  unfold bind at 1. unfold sstore at 1, modify. cbv beta iota.
  unfold bind at 1. unfold sload at 1, gets. cbv beta iota.
  unfold bind at 1. unfold sload at 1, gets. cbv beta iota.
  rewrite Z.eqb_refl. cbn [negb].
  unfold bind at 1. unfold sload at 1, gets. cbv beta iota.
  unfold bind at 1. unfold sload at 1, gets. cbv beta iota.
  rewrite Z.eqb_refl. cbn [negb].
  cbn [store ext]. reflexivity.
Qed.

(** The two entry checks that the code does make. *)
Lemma initiateFlashLoan_paused c asset amount w :
  paused (store w) = true ->
  exists e, initiateFlashLoan env c asset amount w = Revert e.
Proof.
  intros Hp. unfold initiateFlashLoan.
  unfold bind at 1. unfold sload at 1, gets. cbv beta iota.
  destruct (entered (store w)); [unfold revert; eauto|].
  unfold bind at 1. unfold sstore at 1, modify. cbv beta iota.
  unfold bind at 1. unfold sload at 1, gets. cbv beta iota.
  cbn [store set_entered paused]. rewrite Hp. unfold revert; eauto.
Qed.

Lemma initiateFlashLoan_too_soon c asset amount w :
  block_number c - lastExecutionTime (store w) < MIN_EXECUTION_DELAY ->
  exists e, initiateFlashLoan env c asset amount w = Revert e.
Proof.
  intros Hsoon. unfold initiateFlashLoan.
  unfold bind at 1. unfold sload at 1, gets. cbv beta iota.
  destruct (entered (store w)); [unfold revert; eauto|].
  unfold bind at 1. unfold sstore at 1, modify. cbv beta iota.
  unfold bind at 1. unfold sload at 1, gets. cbv beta iota.
  cbn [store set_entered paused].
  destruct (paused (store w)); [unfold revert; eauto|].
  unfold bind at 1. unfold sload at 1, gets. cbv beta iota.
  cbn [store set_entered intermediateToken].
  destruct (intermediateToken (store w) =? 0); [unfold revert; eauto|].
  destruct (amount =? 0); [unfold revert; eauto|].
  unfold bind at 1. unfold sload at 1, gets. cbv beta iota.
  cbn [store set_entered maxFlashLoanAmount].
  destruct (maxFlashLoanAmount (store w) <? amount); [unfold revert; eauto|].
  unfold bind at 1. unfold sload at 1, gets. cbv beta iota.
  cbn [store set_entered lastExecutionTime].
  unfold bind at 1. unfold lift, checked_sub.
  destruct (Z.leb_spec (lastExecutionTime (store w)) (block_number c)); [|eauto].
  destruct (Z.ltb_spec (block_number c - lastExecutionTime (store w)) MIN_EXECUTION_DELAY);
    [unfold revert; eauto | lia].
Qed.

(** C4 (what the code does instead).  A fresh price that is not below
    the recorded one is never rejected, however far above it lies:
    [_calculateSlippage] answers 0 whenever [actual >= expected], so
    [_checkPriceDeviation] returns and overwrites [lastKnownPrice]. *)
Theorem checkPriceDeviation_accepts_any_rise asset amount w price :
  getAmountsOut env (ext w) ONE_ETHER asset (WETH (store w)) = Ok price ->
  0 <= maxPriceDeviation (store w) ->
  lastKnownPrice (store w) asset <> 0 ->
  lastKnownPrice (store w) asset <= price ->
  _checkPriceDeviation env asset amount w
    = Ok (price, mkWorld (set_lastKnownPrice asset price (store w)) (ext w)).
Proof.
  intros Hq Hbound Hset Hrise. unfold _checkPriceDeviation.
  unfold bind at 1. unfold sload at 1, gets. cbv beta iota.
  unfold bind at 1. unfold staticcall at 1. rewrite Hq.
  unfold bind at 1. unfold sload at 1, gets. cbv beta iota.
  destruct (Z.eqb_spec (lastKnownPrice (store w) asset) 0); [contradiction|].
  cbn [negb]. unfold _calculateSlippage.
  destruct (Z.leb_spec (lastKnownPrice (store w) asset) price); [|lia].
  unfold bind at 1. unfold bind at 1. unfold ret at 1.
  unfold bind at 1. unfold sload at 1, gets. cbv beta iota.
  destruct (Z.ltb_spec (maxPriceDeviation (store w)) 0); [lia|].
  reflexivity.
Qed.

(** The downward half works as C4 says: a drop of more than
    [maxPriceDeviation] basis points (rounded down) reverts with
    [PriceDeviation], a smaller one records the fresh price. *)
Lemma checkPriceDeviation_drop asset amount w price :
  getAmountsOut env (ext w) ONE_ETHER asset (WETH (store w)) = Ok price ->
  0 <= price < lastKnownPrice (store w) asset ->
  (lastKnownPrice (store w) asset - price) * MAX_BPS <= MAX_UINT256 ->
  _checkPriceDeviation env asset amount w =
    let last := lastKnownPrice (store w) asset in
    if maxPriceDeviation (store w) <? (last - price) * MAX_BPS / last
    then Revert (PriceDeviation last price)
    else Ok (price, mkWorld (set_lastKnownPrice asset price (store w)) (ext w)).
Proof.
  intros Hq Hdrop Hfit. unfold _checkPriceDeviation.
  unfold bind at 1. unfold sload at 1, gets. cbv beta iota.
  unfold bind at 1. unfold staticcall at 1. rewrite Hq.
  unfold bind at 1. unfold sload at 1, gets. cbv beta iota.
  cbv zeta. set (last := lastKnownPrice (store w) asset) in *.
  destruct (Z.eqb_spec last 0) as [E|E]; [lia|]. cbn [negb].
  unfold _calculateSlippage.
  destruct (Z.leb_spec last price); [lia|].
  unfold bind at 1. unfold bind at 1. unfold bind at 1.
  unfold lift at 1, checked_sub.
  destruct (Z.leb_spec price last); [|lia].
  unfold bind at 1. unfold lift at 1, checked_mul.
  destruct (Z.leb_spec ((last - price) * MAX_BPS) MAX_UINT256); [|lia].
  unfold lift, checked_div.
  destruct (Z.eqb_spec last 0); [lia|].
  unfold bind at 1. unfold sload at 1, gets. cbv beta iota.
  destruct (maxPriceDeviation (store w) <? (last - price) * MAX_BPS / last);
    reflexivity.
Qed.

End EntryChecks.

(** The scenario of the test-suite ("100% price increase"): recorded
    price 1.0, fresh price 2.0, bound 5%. *)
Lemma checkPriceDeviation_accepts_any_rise_witness :
  FlashLoan._checkPriceDeviation Mocks.env Mocks.TOKEN_A (Mocks.ether 100)
    (FlashLoan.mkWorld
       (FlashLoan.set_lastKnownPrice Mocks.TOKEN_A (Mocks.ether 1) Mocks.fixture_storage)
       (Mocks.setPrice Mocks.TOKEN_A Mocks.WETH_TOKEN (Mocks.ether 2) Mocks.fixture_chain))
  = Ok (Mocks.ether 2,
        FlashLoan.mkWorld
          (FlashLoan.set_lastKnownPrice Mocks.TOKEN_A (Mocks.ether 2)
             (FlashLoan.set_lastKnownPrice Mocks.TOKEN_A (Mocks.ether 1) Mocks.fixture_storage))
          (Mocks.setPrice Mocks.TOKEN_A Mocks.WETH_TOKEN (Mocks.ether 2) Mocks.fixture_chain)).
Proof.
  apply (@checkPriceDeviation_accepts_any_rise _ Mocks.env Mocks.TOKEN_A (Mocks.ether 100)
           (FlashLoan.mkWorld
              (FlashLoan.set_lastKnownPrice Mocks.TOKEN_A (Mocks.ether 1) Mocks.fixture_storage)
              (Mocks.setPrice Mocks.TOKEN_A Mocks.WETH_TOKEN (Mocks.ether 2)
                 Mocks.fixture_chain))
           (Mocks.ether 2)).
  - reflexivity.
  - vm_compute. discriminate.
  - vm_compute. discriminate.
  - vm_compute. discriminate.
Defined.

Section Effects.

Import FlashLoan.
Context {Ext : Type} (env : Env Ext).
Implicit Types (w : World Ext) (c : Call).

Lemma gets_Ok {A} (f : World Ext -> A) w w' a :
  gets f w = Ok (a, w') -> a = f w /\ w' = w.
Proof. unfold gets. intros H; inversion H; auto. Qed.

Lemma try_catch_Ok {A B} (m : C A) (on_ok : A -> C B) (on_revert : error -> C B) w r :
  try_catch m on_ok on_revert w = Ok r ->
  (exists a w1, m w = Ok (a, w1) /\ on_ok a w1 = Ok r) \/
  (exists reason, m w = Revert reason /\ on_revert reason w = Ok r).
Proof.
  unfold try_catch. destruct (m w) as [[a w1]|reason]; eauto.
Qed.

Lemma calculateSlippage_Ok expected actual w v w' :
  _calculateSlippage expected actual w = Ok (v, w') -> w' = w.
Proof.
  unfold _calculateSlippage. intros H.
  destruct (expected <=? actual); inv_ok H; reflexivity.
Qed.

Lemma calculatePriceImpact_Ok token amount w v w' :
  _calculatePriceImpact env token amount w = Ok (v, w') -> w' = w.
Proof.
  unfold _calculatePriceImpact, _getCurrentPrice. intros H.
  apply bind_Ok in H. destruct H as (last & w0 & Hl & H).
  apply sload_Ok in Hl. destruct Hl as [-> ->].
  destruct (lastKnownPrice (store w) token =? 0).
  - inv_ok H. reflexivity.
  - apply bind_Ok in H. destruct H as (p & w1 & Hp & H).
    inv_ok Hp. now apply calculateSlippage_Ok in H.
Qed.

Lemma checkPriceDeviation_Ok asset amount w v w' :
  _checkPriceDeviation env asset amount w = Ok (v, w') ->
  getAmountsOut env (ext w) ONE_ETHER asset (WETH (store w)) = Ok v /\
  w' = mkWorld (set_lastKnownPrice asset v (store w)) (ext w).
Proof.
  unfold _checkPriceDeviation. intros H.
  apply bind_Ok in H. destruct H as (weth & w0 & Hl & H).
  apply sload_Ok in Hl. destruct Hl as [-> ->].
  apply bind_Ok in H. destruct H as (price & w0 & Hp & H).
  apply staticcall_Ok in Hp. destruct Hp as [Hp ->].
  apply bind_Ok in H. destruct H as (last & w0 & Hl & H).
  apply sload_Ok in Hl. destruct Hl as [-> ->].
  apply bind_Ok in H. destruct H as (u & w1 & Hdev & H).
  assert (w1 = w) as ->.
  { destruct (negb (lastKnownPrice (store w) asset =? 0)).
    - apply bind_Ok in Hdev. destruct Hdev as (d & w2 & Hd & Hdev).
      apply calculateSlippage_Ok in Hd. subst w2.
      inv_ok Hdev. reflexivity.
    - inv_ok Hdev. reflexivity. }
  inv_ok H. auto.
Qed.

Lemma calculateEstimatedProfit_Ok asset amount w v w' :
  _calculateEstimatedProfit env asset amount w = Ok (v, w') -> w' = w.
Proof.
  unfold _calculateEstimatedProfit. intros H. inv_ok H; reflexivity.
Qed.

Lemma setupFlashLoan_Ok asset amount w u w' :
  _setupFlashLoan env asset amount w = Ok (u, w') ->
  exists e1 e2,
    approve env (ext w) asset (this (store w)) (lendingPool (store w)) 0 = Ok e1 /\
    approve env e1 asset (this (store w)) (lendingPool (store w)) (unchecked_mul amount 2)
      = Ok e2 /\
    w' = mkWorld (store w) e2.
Proof.
  unfold _setupFlashLoan. intros H. inv_ok H. simpl in *. eauto.
Qed.

End Effects.

Section Atomicity.

Import FlashLoan.
Context {Ext : Type} (env : Env Ext).
Implicit Types (w : World Ext) (c : Call).

(** A successful settlement core: both swaps were made and the profit
    floor was met; only [totalProfitGenerated] changed in storage. *)
Lemma executeArbitrage_Ok c asset amount amountOwed w b w' :
  _executeArbitrage env c asset amount amountOwed w = Ok (b, w') ->
  exists min1 intermediateAmount e1 min2 finalAmount e2,
    msg_sender c = this (store w) /\
    swapExactTokensForTokens env (ext w) (this (store w)) amount min1 asset
      (intermediateToken (store w)) (this (store w)) (block_timestamp c + 300)
      = Ok (intermediateAmount, e1) /\
    min1 <= intermediateAmount /\
    swapExactTokensForTokens env e1 (this (store w)) intermediateAmount min2
      (intermediateToken (store w)) asset (this (store w)) (block_timestamp c + 300)
      = Ok (finalAmount, e2) /\
    b = true /\
    amountOwed <= finalAmount /\
    amountOwed * minProfitBps (store w) <= (finalAmount - amountOwed) * MAX_BPS /\
    w' = mkWorld (set_totalProfitGenerated
                    (unchecked_add (totalProfitGenerated (store w))
                                   (finalAmount - amountOwed))
                    (store w)) e2.
Proof.
  intros H.
  assert (Hme : msg_sender c = this (store w)).
  { unfold _executeArbitrage in H. apply bind_Ok in H.
    destruct H as (me & w0 & Hl & H). apply sload_Ok in Hl. destruct Hl as [-> ->].
    destruct (Z.eqb_spec (msg_sender c) (this (store w))); [assumption|].
    discriminate H. }
  assert (Hlegs : exists i w1 f w2,
             _executeFirstTrade env c asset amount w = Ok (i, w1) /\
             _executeSecondTrade env c asset i amountOwed w1 = Ok (f, w2)).
  { unfold _executeArbitrage in H. apply bind_Ok in H.
    destruct H as (me & w0 & Hl & H). apply sload_Ok in Hl. destruct Hl as [-> ->].
    rewrite Hme, Z.eqb_refl in H. cbn [negb] in H.
    apply bind_Ok in H. destruct H as (i & w1 & H1 & H).
    apply bind_Ok in H. destruct H as (f & w2 & H2 & _). eauto 8. }
  destruct Hlegs as (i & w1 & f & w2 & H1 & H2).
  rewrite (@executeArbitrage_after_legs _ env c asset amount amountOwed w i w1 f w2
             Hme H1 H2) in H.
  cbv zeta in H.
  destruct (Z.ltb_spec f amountOwed); [discriminate|].
  destruct (Z.ltb_spec MAX_UINT256 ((f - amountOwed) * MAX_BPS)); [discriminate|].
  destruct (Z.ltb_spec MAX_UINT256 (amountOwed * minProfitBps (store w)));
    [discriminate|].
  destruct (Z.ltb_spec ((f - amountOwed) * MAX_BPS)
                       (amountOwed * minProfitBps (store w))); [discriminate|].
  inversion H; subst b w'; clear H.
  apply executeFirstTrade_Ok in H1.
  destruct H1 as (q1 & m1 & e1 & _ & _ & Hs1 & Hm1 & ->).
  apply executeSecondTrade_Ok in H2. cbn [store ext] in H2.
  destruct H2 as (q2 & m2 & e2 & _ & _ & _ & Hs2 & ->).
  exists m1, i, e1, m2, f, e2. cbn [ext]. repeat split; auto.
Qed.

(** The [catch] branch of [executeOperation] never returns. *)
Lemma executeOperation_Ok c asset amount premium initiator w b w' :
  executeOperation env c asset amount premium initiator w = Ok (b, w') ->
  msg_sender c = lendingPool (store w) /\ initiator = this (store w) /\
  exists w1,
    _executeArbitrage env (from (this (store w)) c) asset amount (amount + premium) w
      = Ok (true, w1) /\
    b = true /\
    amount + premium <= MAX_UINT256 /\
    gas_left c <= gas_start c /\
    w' = mkWorld (set_totalGasUsed (totalGasUsed (store w1) + (gas_start c - gas_left c))
                    (set_successfulTrades (successfulTrades (store w1) + 1) (store w1)))
                 (ext w1).
Proof.
  unfold executeOperation. intros H.
  apply bind_Ok in H. destruct H as (pool & w0 & Hl & H).
  apply sload_Ok in Hl. destruct Hl as [-> ->].
  apply bind_Ok in H. destruct H as (me & w0 & Hl & H).
  apply sload_Ok in Hl. destruct Hl as [-> ->].
  destruct (Z.eqb_spec (msg_sender c) (lendingPool (store w))); [|discriminate H].
  destruct (Z.eqb_spec initiator (this (store w))); [|discriminate H].
  cbn [negb] in H. split; [assumption|]. split; [assumption|].
  apply bind_Ok in H. destruct H as (owed & w0 & Ho & H).
  apply lift_Ok in Ho. destruct Ho as [Ho ->].
  apply checked_add_Ok in Ho. destruct Ho as [-> Ho].
  apply try_catch_Ok in H. destruct H as [(ok & w1 & Hcore & H)|(reason & _ & H)].
  - pose proof Hcore as Hb. apply executeArbitrage_Ok in Hb.
    destruct Hb as (? & ? & ? & ? & ? & ? & _ & _ & _ & _ & -> & _).
    exists w1. split; [assumption|].
    apply bind_Ok in H. destruct H as (n & w2 & Hl & H).
    apply sload_Ok in Hl. destruct Hl as [-> ->].
    apply bind_Ok in H. destruct H as (n' & w2 & Hl & H).
    apply lift_Ok in Hl. destruct Hl as [Hn ->].
    apply checked_add_Ok in Hn. destruct Hn as [-> Hn].
    apply bind_Ok in H. destruct H as (u & w2 & Hl & H).
    apply sstore_Ok in Hl. subst w2.
    apply bind_Ok in H. destruct H as (g & w2 & Hl & H).
    apply lift_Ok in Hl. destruct Hl as [Hg ->].
    apply checked_sub_Ok in Hg. destruct Hg as [-> Hg].
    apply bind_Ok in H. destruct H as (t & w2 & Hl & H).
    apply sload_Ok in Hl. destruct Hl as [-> ->].
    apply bind_Ok in H. destruct H as (t' & w2 & Hl & H).
    apply lift_Ok in Hl. destruct Hl as [Ht ->].
    apply checked_add_Ok in Ht. destruct Ht as [-> Ht].
    apply bind_Ok in H. destruct H as (u' & w2 & Hl & H).
    apply sstore_Ok in Hl. subst w2.
    apply bind_Ok in H. destruct H as (bal & w2 & Hl & H).
    apply gets_Ok in Hl. destruct Hl as [-> ->].
    apply bind_Ok in H. destruct H as (sl & w2 & Hl & H).
    apply calculateSlippage_Ok in Hl. subst w2.
    apply bind_Ok in H. destruct H as (pi & w2 & Hl & H).
    apply calculatePriceImpact_Ok in Hl. subst w2.
    unfold ret in H. inversion H; subst b w'. cbn [store ext].
    repeat split; auto.
  - exfalso. apply bind_Ok in H. destruct H as (f & w2 & Hl & H).
    apply sload_Ok in Hl. destruct Hl as [-> ->].
    apply bind_Ok in H. destruct H as (f' & w2 & Hl & H).
    apply bind_Ok in H. destruct H as (u & w3 & Hs & H).
    apply bind_Ok in H. destruct H as (g & w4 & Hg & H).
    discriminate H.
Qed.

Lemma flashLoanSimple_Ok c receiver asset amount w u w' :
  flashLoanSimple env c receiver asset amount w = Ok (u, w') ->
  exists premium e1 w1 w2 e3,
    lend env (ext w) receiver asset amount = Ok (premium, e1) /\
    executeOperation env (from (lendingPool (store w)) c) asset amount premium
      (msg_sender c) (mkWorld (store w) e1) = Ok (true, w2) /\
    collect env (ext w2) receiver asset amount premium = Ok e3 /\
    w1 = mkWorld (store w) e1 /\
    w' = mkWorld (store w2) e3.
Proof.
  unfold flashLoanSimple. intros H.
  apply bind_Ok in H. destruct H as (pool & w0 & Hl & H).
  apply sload_Ok in Hl. destruct Hl as [-> ->].
  apply bind_Ok in H. destruct H as (premium & w1 & Hl & H).
  apply call_Ok in Hl. destruct Hl as (e1 & Hlend & ->).
  apply bind_Ok in H. destruct H as (ok & w2 & Hop & H).
  destruct ok; [|discriminate H].
  apply call__Ok in H. destruct H as (e3 & Hc & ->).
  exists premium, e1, (mkWorld (store w) e1), w2, e3. auto.
Qed.

Lemma initiateFlashLoan_Ok c asset amount w u w' :
  initiateFlashLoan env c asset amount w = Ok (u, w') ->
  entered (store w) = false /\ paused (store w) = false /\
  intermediateToken (store w) <> 0 /\
  0 <> amount /\ amount <= maxFlashLoanAmount (store w) /\
  MIN_EXECUTION_DELAY <= block_number c - lastExecutionTime (store w) /\
  gas_left c <= gas_start c /\
  settled env c asset amount w w' /\
  exists price,
    getAmountsOut env (ext w) ONE_ETHER asset (WETH (store w)) = Ok price /\
    lastKnownPrice (store w') asset = price /\
    entered (store w') = false.
Proof.
  unfold initiateFlashLoan. intros H.
  apply bind_Ok in H. destruct H as (r & w0 & Hl & H).
  apply sload_Ok in Hl. destruct Hl as [-> ->].
  destruct (entered (store w)) eqn:Hent; [discriminate H|].
  apply bind_Ok in H. destruct H as (u0 & w0 & Hl & H).
  apply sstore_Ok in Hl. subst w0.
  apply bind_Ok in H. destruct H as (p & w0 & Hl & H).
  apply sload_Ok in Hl. destruct Hl as [-> ->]. cbn [store set_entered paused] in H.
  destruct (paused (store w)) eqn:Hp; [discriminate H|].
  apply bind_Ok in H. destruct H as (i & w0 & Hl & H).
  apply sload_Ok in Hl. destruct Hl as [-> ->].
  cbn [store set_entered intermediateToken] in H.
  destruct (Z.eqb_spec (intermediateToken (store w)) 0) as [|Hi]; [discriminate H|].
  destruct (Z.eqb_spec amount 0) as [|Ha]; [discriminate H|].
  apply bind_Ok in H. destruct H as (m & w0 & Hl & H).
  apply sload_Ok in Hl. destruct Hl as [-> ->].
  cbn [store set_entered maxFlashLoanAmount] in H.
  destruct (Z.ltb_spec (maxFlashLoanAmount (store w)) amount) as [|Hm]; [discriminate H|].
  apply bind_Ok in H. destruct H as (l & w0 & Hl & H).
  apply sload_Ok in Hl. destruct Hl as [-> ->].
  cbn [store set_entered lastExecutionTime] in H.
  apply bind_Ok in H. destruct H as (d & w0 & Hl & H).
  apply lift_Ok in Hl. destruct Hl as [Hd ->].
  apply checked_sub_Ok in Hd. destruct Hd as [-> Hd].
  destruct (Z.ltb_spec (block_number c - lastExecutionTime (store w)) MIN_EXECUTION_DELAY)
    as [|Hdelay]; [discriminate H|].
  apply bind_Ok in H. destruct H as (u1 & w0 & Hl & H).
  apply sstore_Ok in Hl. subst w0. cbn [store ext] in H.
  apply bind_Ok in H. destruct H as (pl & w0 & Hl & H).
  apply sload_Ok in Hl. destruct Hl as [-> ->].
  apply bind_Ok in H. destruct H as (pl' & w0 & Hl & H).
  apply sload_Ok in Hl. destruct Hl as [-> ->].
  rewrite Z.eqb_refl in H. cbn [negb] in H.
  apply bind_Ok in H. destruct H as (pv & w0 & Hl & H).
  apply sload_Ok in Hl. destruct Hl as [-> ->].
  apply bind_Ok in H. destruct H as (pv' & w0 & Hl & H).
  apply sload_Ok in Hl. destruct Hl as [-> ->].
  rewrite Z.eqb_refl in H. cbn [negb] in H.
  apply bind_Ok in H. destruct H as (price & w0 & Hl & H).
  apply checkPriceDeviation_Ok in Hl. cbn [store ext] in Hl.
  destruct Hl as [Hprice ->].
  apply bind_Ok in H. destruct H as (est & w0 & Hl & H).
  apply calculateEstimatedProfit_Ok in Hl. subst w0.
  apply bind_Ok in H. destruct H as (u2 & w0 & Hl & H).
  apply setupFlashLoan_Ok in Hl. cbn [store ext] in Hl.
  destruct Hl as (e1 & e2 & Ha1 & Ha2 & ->).
  apply bind_Ok in H. destruct H as (me & w0 & Hl & H).
  apply sload_Ok in Hl. destruct Hl as [-> ->]. cbn [store ext] in H.
  apply bind_Ok in H. destruct H as (u3 & w0 & Hl & H).
  apply flashLoanSimple_Ok in Hl. cbn [store ext] in Hl.
  destruct Hl as (premium & e3 & w1 & w2 & e6 & Hlend & Hop & Hcol & -> & ->).
  apply sstore_Ok in H. subst w'. cbn [store ext].
  apply executeOperation_Ok in Hop. cbn [store ext] in Hop.
  destruct Hop as (_ & _ & w3 & Hcore & _ & Howed & Hgas & ->).
  apply executeArbitrage_Ok in Hcore. cbn [store ext] in Hcore.
  destruct Hcore as (m1 & ia & e4 & m2 & fa & e5 & _ & Hs1 & Hm1 & Hs2 & _ & Hge & Hfloor & ->).
  cbn [store ext] in *.
  repeat (split; [assumption || lia || reflexivity|]).
  split.
  - unfold settled. cbv zeta.
    exists e1, e2, premium, e3, m1, ia, e4, m2, fa, e5, e6.
    cbn. repeat split; auto.
  - exists price. cbn. rewrite Z.eqb_refl. auto.
Qed.

(** When the callback reverts, so does the loan. *)
Lemma flashLoanSimple_reverts_with_callback c receiver asset amount w premium e1 e :
  lend env (ext w) receiver asset amount = Ok (premium, e1) ->
  executeOperation env (from (lendingPool (store w)) c) asset amount premium
    (msg_sender c) (mkWorld (store w) e1) = Revert e ->
  flashLoanSimple env c receiver asset amount w = Revert e.
Proof.
  intros Hlend Hop. unfold flashLoanSimple.
  unfold bind at 1. unfold sload at 1, gets. cbv beta iota.
  unfold bind at 1. unfold call at 1. rewrite Hlend.
  unfold bind at 1. rewrite Hop. reflexivity.
Qed.

(** C2.  A settlement transaction either settles completely (every
    balance change of the borrow, the two legs and the repayment has
    occurred) or leaves the world exactly as it was.  No abort is
    swallowed on the way: a revert of the settlement core (price,
    slippage, profit, or any other reason) reverts the lender's callback,
    and a revert of the callback reverts the loan; a caller who is not the
    lender, or not the contract itself, is turned away. *)
Theorem settlement_all_or_nothing c asset amount w :
  (forall w', run_tx (initiateFlashLoan env c asset amount) w = (w', Ok tt) ->
              settled env c asset amount w w') /\
  (forall w' e, run_tx (initiateFlashLoan env c asset amount) w = (w', Revert e) ->
                w' = w) /\
  (forall premium initiator reason,
      _executeArbitrage env (from (this (store w)) c) asset amount (amount + premium) w
        = Revert reason ->
      exists e,
        run_tx (executeOperation env c asset amount premium initiator) w = (w, Revert e)) /\
  (forall receiver premium e1 e,
      lend env (ext w) receiver asset amount = Ok (premium, e1) ->
      executeOperation env (from (lendingPool (store w)) c) asset amount premium
        (msg_sender c) (mkWorld (store w) e1) = Revert e ->
      run_tx (flashLoanSimple env c receiver asset amount) w = (w, Revert e)) /\
  (msg_sender c <> lendingPool (store w) ->
   forall premium initiator,
     run_tx (executeOperation env c asset amount premium initiator) w
     = (w, Revert (UnauthorizedCaller (msg_sender c) (lendingPool (store w))))) /\
  (msg_sender c <> this (store w) ->
   forall amountOwed,
     run_tx (_executeArbitrage env c asset amount amountOwed) w
     = (w, Revert (UnauthorizedCaller (msg_sender c) (this (store w))))).
Proof.
  repeat split.
  - intros w' H. unfold run_tx in H.
    destruct (initiateFlashLoan env c asset amount w) as [[u w1]|e] eqn:E;
      [|discriminate H].
    inversion H; subst w1. apply initiateFlashLoan_Ok in E. tauto.
  - intros w' e H. unfold run_tx in H.
    destruct (initiateFlashLoan env c asset amount w) as [[u w1]|e1];
      inversion H; reflexivity.
  - intros premium initiator reason Hcore.
    destruct (@executeOperation_reverts_with_core _ env c asset amount premium
                initiator w reason Hcore) as (e & He & _).
    exists e. unfold run_tx. rewrite He. reflexivity.
  - intros receiver premium e1 e Hlend Hop. unfold run_tx.
    rewrite (@flashLoanSimple_reverts_with_callback c receiver asset amount w premium e1 e
               Hlend Hop). reflexivity.
  - intros Hne premium initiator. unfold run_tx, executeOperation.
    unfold bind at 1. unfold sload at 1, gets. cbv beta iota.
    unfold bind at 1. unfold sload at 1, gets. cbv beta iota.
    destruct (Z.eqb_spec (msg_sender c) (lendingPool (store w))); [contradiction|].
    reflexivity.
  - intros Hne amountOwed. unfold run_tx, _executeArbitrage.
    unfold bind at 1. unfold sload at 1, gets. cbv beta iota.
    destruct (Z.eqb_spec (msg_sender c) (this (store w))); [contradiction|].
    reflexivity.
Qed.

End Atomicity.

Section Spacing.

Import FlashLoan.
Context {Ext : Type} (env : Env Ext).
Implicit Types (w : World Ext) (c : Call).

(** Too soon after the recorded block: the call is turned away on the
    storage and the block number alone, with the same error whatever the
    lender, the venue and the tokens are. *)
Lemma initiateFlashLoan_too_soon_everywhere c asset amount (s : Storage) :
  block_number c - lastExecutionTime s < MIN_EXECUTION_DELAY ->
  exists err,
    forall (Ext' : Type) (env' : Env Ext') (e' : Ext'),
      initiateFlashLoan env' c asset amount (mkWorld s e') = Revert err.
Proof.
  intros Hsoon.
  exists (if entered s then Error "ReentrancyGuard: reentrant call"
          else if paused s then Error "Pausable: paused"
          else if intermediateToken s =? 0
          then InvalidAddress (intermediateToken s) "Intermediate token not set"
          else if amount =? 0
          then InvalidAmount amount "Amount must be greater than 0"
          else if maxFlashLoanAmount s <? amount
          then InvalidAmount amount "Amount exceeds maximum"
          else if block_number c <? lastExecutionTime s then Panic ARITHMETIC
          else Error "Too soon").
  intros Ext' env' e'. rewrite initiateFlashLoan_guards. cbn [store].
  destruct (entered s); [reflexivity|].
  destruct (paused s); [reflexivity|].
  destruct (intermediateToken s =? 0); [reflexivity|].
  destruct (amount =? 0); [reflexivity|].
  destruct (maxFlashLoanAmount s <? amount); [reflexivity|].
  destruct (block_number c <? lastExecutionTime s); [reflexivity|].
  destruct (Z.ltb_spec (block_number c - lastExecutionTime s) MIN_EXECUTION_DELAY);
    [reflexivity | lia].
Qed.

(** C3 (amended).  [initiateFlashLoan] aborts, borrowing nothing, when
    fewer than [MIN_EXECUTION_DELAY] blocks have passed since the block
    on record, which is the block of the last settlement that went
    through: the call is turned away before any other contract is asked
    (the error is the same whatever lender, venue and tokens are there)
    and the world is left as it was.  A settlement that goes through ran
    at least [MIN_EXECUTION_DELAY] blocks after the block on record and
    puts its own block on record, for every asset alike; an attempt that
    aborted leaves the record as it was and so does not count. *)
Theorem spacing_counts_from_the_last_settlement c asset amount w :
  (block_number c - lastExecutionTime (store w) < MIN_EXECUTION_DELAY ->
   exists err,
     forall (Ext' : Type) (env' : Env Ext') (e' : Ext'),
       run_tx (initiateFlashLoan env' c asset amount) (mkWorld (store w) e')
       = (mkWorld (store w) e', Revert err)) /\
  (forall w',
      run_tx (initiateFlashLoan env c asset amount) w = (w', Ok tt) ->
      lastExecutionTime (store w) + MIN_EXECUTION_DELAY <= block_number c /\
      lastExecutionTime (store w') = block_number c /\
      forall c' asset' amount' e',
        block_number c' < block_number c + MIN_EXECUTION_DELAY ->
        exists err,
          run_tx (initiateFlashLoan env c' asset' amount') (mkWorld (store w') e')
          = (mkWorld (store w') e', Revert err)) /\
  (forall w' err,
      run_tx (initiateFlashLoan env c asset amount) w = (w', Revert err) ->
      w' = w /\ lastExecutionTime (store w') = lastExecutionTime (store w)).
Proof.
  split; [|split].
  - intros Hsoon.
    destruct (initiateFlashLoan_too_soon_everywhere c asset amount (store w) Hsoon)
      as [err Herr].
    exists err. intros Ext' env' e'. unfold run_tx. now rewrite Herr.
  - intros w' H. unfold run_tx in H.
    destruct (initiateFlashLoan env c asset amount w) as [[u w1]|e] eqn:E;
      [|discriminate H].
    inversion H; subst w1. apply initiateFlashLoan_Ok in E.
    destruct E as (_ & _ & _ & _ & _ & Hd & _ & Hs & _).
    unfold settled in Hs. cbv zeta in Hs.
    destruct Hs as (e1 & e2 & premium & e3 & min1 & ia & e4 & min2 & fa & e5 & e6 &
                    _ & _ & _ & _ & _ & _ & _ & _ & _ & _ & _ & _ & _ & _ & HL).
    split; [lia|]. split; [exact HL|].
    intros c' asset' amount' e' Hsoon.
    destruct (initiateFlashLoan_too_soon_everywhere c' asset' amount' (store w'))
      as [err Herr].
    { rewrite HL. lia. }
    exists err. unfold run_tx. now rewrite Herr.
  - intros w' err H. unfold run_tx in H.
    destruct (initiateFlashLoan env c asset amount w) as [[u w1]|e];
      inversion H; auto.
Qed.

End Spacing.

(** C3, as stated, fails for the caller and for the spacing.  At a venue
    that quotes and pays 110 for whatever comes in, with a lender that
    lends on request: a stranger's call in block 10 borrows and settles
    100 units; an attempt in block 20 aborts in its first leg (the venue
    pays 104, the minimum is 109); and the attempt that follows it one
    block later, the venue paying 110 again, is not turned away for being
    too soon: it borrows and settles. *)
Lemma initiateFlashLoan_serves_strangers_and_forgets_aborts :
  let env := Scripted.env 110 in
  let loan caller block :=
    run_tx (FlashLoan.initiateFlashLoan env (Mocks.at_block caller block)
                                        Mocks.TOKEN_A 100) in
  let w0 := FlashLoan.mkWorld Mocks.fixture_storage [] in
  let w1 := fst (loan Mocks.USER1 10 w0) in
  let w2 := FlashLoan.mkWorld (FlashLoan.store w1) [104] in
  let w3 := FlashLoan.mkWorld (FlashLoan.store w1) [] in
  Mocks.USER1 <> FlashLoan.owner (FlashLoan.store w0) /\
  snd (loan Mocks.USER1 10 w0) = Ok tt /\
  FlashLoan.settled env (Mocks.at_block Mocks.USER1 10) Mocks.TOKEN_A 100 w0 w1 /\
  FlashLoan.lastExecutionTime (FlashLoan.store w1) = 10 /\
  snd (loan Mocks.OWNER 20 w2) = Revert (ErrorOfBytes (ExcessiveSlippage 109 104)) /\
  FlashLoan.lastExecutionTime (FlashLoan.store (fst (loan Mocks.OWNER 20 w2))) = 10 /\
  snd (loan Mocks.OWNER 21 w3) = Ok tt /\
  FlashLoan.settled env (Mocks.at_block Mocks.OWNER 21) Mocks.TOKEN_A 100 w3
                    (fst (loan Mocks.OWNER 21 w3)).
Proof.
  cbv zeta.
  assert (S : forall caller block (w : FlashLoan.World Scripted.payouts),
             snd (run_tx (FlashLoan.initiateFlashLoan (Scripted.env 110)
                            (Mocks.at_block caller block) Mocks.TOKEN_A 100) w) = Ok tt ->
             FlashLoan.settled (Scripted.env 110) (Mocks.at_block caller block) Mocks.TOKEN_A
               100 w
               (fst (run_tx (FlashLoan.initiateFlashLoan (Scripted.env 110)
                               (Mocks.at_block caller block) Mocks.TOKEN_A 100) w))).
  { intros caller block w H. unfold run_tx in *.
    destruct (FlashLoan.initiateFlashLoan (Scripted.env 110) (Mocks.at_block caller block)
                Mocks.TOKEN_A 100 w) as [[u w']|e] eqn:E; [|discriminate H].
    cbn [fst]. apply initiateFlashLoan_Ok in E. tauto. }
  assert (A1 : snd (run_tx (FlashLoan.initiateFlashLoan (Scripted.env 110)
                              (Mocks.at_block Mocks.USER1 10) Mocks.TOKEN_A 100)
                           (FlashLoan.mkWorld Mocks.fixture_storage [])) = Ok tt)
    by (vm_compute; reflexivity).
  split; [vm_compute; discriminate|].
  split; [exact A1|].
  split; [apply S; exact A1|].
  split; [vm_compute; reflexivity|].
  split; [vm_compute; reflexivity|].
  split; [vm_compute; reflexivity|].
  match goal with |- snd ?r = Ok tt /\ _ => assert (A3 : snd r = Ok tt)
                                              by (vm_compute; reflexivity) end.
  split; [exact A3|]. apply S. exact A3.
Qed.

(** * The off-chain scripts *)

Section FloatOrder.

(** Comparisons of doubles, through their specification. *)
Lemma SFcompare_antisym x y :
  SFcompare y x = option_map CompOpp (SFcompare x y).
Proof.
  destruct x as [sx|sx| |sx mx ex], y as [sy|sy| |sy my ey]; cbn;
    try reflexivity;
    try (destruct sx; reflexivity); try (destruct sy; reflexivity);
    try (destruct sx, sy; reflexivity).
  destruct sx, sy; cbn; try reflexivity.
  - rewrite (Z.compare_antisym ex ey).
    destruct (ex ?= ey)%Z; cbn; try reflexivity.
    change (Pos.compare_cont Eq my mx) with (my ?= mx)%positive.
    change (Pos.compare_cont Eq mx my) with (mx ?= my)%positive.
    rewrite (Pos.compare_antisym mx my).
    now destruct (mx ?= my)%positive.
  - rewrite (Z.compare_antisym ex ey).
    destruct (ex ?= ey)%Z; cbn; try reflexivity.
    change (Pos.compare_cont Eq my mx) with (my ?= mx)%positive.
    change (Pos.compare_cont Eq mx my) with (mx ?= my)%positive.
    now rewrite (Pos.compare_antisym mx my).
Qed.

Lemma ltb_antisym a b : (a <? b)%float = true -> (b <? a)%float = false.
Proof.
  rewrite !ltb_spec. unfold SFltb.
  rewrite (SFcompare_antisym (Prim2SF a) (Prim2SF b)).
  destruct (SFcompare (Prim2SF a) (Prim2SF b)) as [[| |]|]; cbn; congruence.
Qed.

Lemma eqb_not_ltb a b : (a =? b)%float = true -> (b <? a)%float = false.
Proof.
  rewrite eqb_spec, ltb_spec. unfold SFeqb, SFltb.
  rewrite (SFcompare_antisym (Prim2SF a) (Prim2SF b)).
  destruct (SFcompare (Prim2SF a) (Prim2SF b)) as [[| |]|]; cbn; congruence.
Qed.

Lemma ltb_not_eqb a b : (a <? b)%float = true -> (b =? a)%float = false.
Proof.
  rewrite eqb_spec, ltb_spec. unfold SFeqb, SFltb.
  rewrite (SFcompare_antisym (Prim2SF a) (Prim2SF b)).
  destruct (SFcompare (Prim2SF a) (Prim2SF b)) as [[| |]|]; cbn; congruence.
Qed.

Lemma ltb_leb a b : (a <? b)%float = true -> (a <=? b)%float = true.
Proof.
  rewrite leb_spec, ltb_spec. unfold SFleb, SFltb.
  destruct (SFcompare (Prim2SF a) (Prim2SF b)) as [[| |]|]; cbn; congruence.
Qed.

Lemma ltb_not_nan a b : (a <? b)%float = true -> is_nan a = false /\ is_nan b = false.
Proof.
  unfold is_nan. rewrite !eqb_spec, ltb_spec. unfold SFeqb, SFltb.
  destruct (Prim2SF a) as [sx|sx| |sx mx ex], (Prim2SF b) as [sy|sy| |sy my ey];
    cbn; try discriminate; intros _;
    rewrite ?Z.compare_refl, ?Pos.compare_cont_refl;
    repeat match goal with s : bool |- _ => destruct s end; cbn;
    rewrite ?Z.compare_refl, ?Pos.compare_cont_refl; auto.
Qed.

(** Among doubles that are not [NaN], the order is total. *)
Lemma not_ltb_leb a b :
  is_nan a = false -> is_nan b = false -> (b <? a)%float = false -> (a <=? b)%float = true.
Proof.
  unfold is_nan. rewrite !eqb_spec, leb_spec, ltb_spec. unfold SFeqb, SFleb, SFltb.
  rewrite (SFcompare_antisym (Prim2SF a) (Prim2SF b)).
  destruct (Prim2SF a) as [sx|sx| |sx mx ex], (Prim2SF b) as [sy|sy| |sy my ey];
    cbn; try discriminate; try reflexivity;
    repeat match goal with s : bool |- _ => destruct s end; cbn;
    try discriminate; try reflexivity;
    intros _ _; destruct (ex ?= ey)%Z; cbn; try discriminate; try reflexivity;
    destruct (Pos.compare_cont Eq mx my); cbn; try discriminate; reflexivity.
Qed.

Lemma is_nan_spec x : is_nan x = true <-> Prim2SF x = S754_nan.
Proof.
  split.
  - intros H. unfold Prim2SF. now rewrite H.
  - intros H. unfold is_nan. rewrite eqb_spec, H. reflexivity.
Qed.

Lemma mul_nan_l x y : is_nan x = true -> is_nan (x * y)%float = true.
Proof.
  rewrite !is_nan_spec, mul_spec. intros ->. reflexivity.
Qed.

Lemma sub_nan_l x y : is_nan x = true -> is_nan (x - y)%float = true.
Proof.
  rewrite !is_nan_spec, sub_spec. intros ->. reflexivity.
Qed.

Lemma ltb_irrefl a : (a <? a)%float = false.
Proof.
  destruct (a <? a)%float eqn:E; [|reflexivity].
  pose proof (@ltb_antisym a a E). congruence.
Qed.

Lemma leb_refl a : is_nan a = false -> (a <=? a)%float = true.
Proof.
  intros H. apply not_ltb_leb; auto using ltb_irrefl.
Qed.

(** [Math.min(a, b) <= b] unless it is [NaN]. *)
Lemma Math_min_le_r a b :
  is_nan (Js.Math_min a b) = false -> (Js.Math_min a b <=? b)%float = true.
Proof.
  unfold Js.Math_min.
  destruct (is_nan a) eqn:Na; [cbn; discriminate|].
  destruct (is_nan b) eqn:Nb; [cbn; discriminate|]. cbn [orb].
  destruct (a <? b)%float eqn:Hab; [intros _; now apply ltb_leb|].
  destruct (b <? a)%float eqn:Hba; [intros _; now apply leb_refl|].
  destruct (classify a); intros _;
    solve [now apply leb_refl | now apply not_ltb_leb].
Qed.

End FloatOrder.

Section Detection.

Import Js Detector.

(** Adding a BigInt amount to a Number reserve throws: the price impact
    is never computed. *)
Lemma calculatePriceImpact_throws parseUnits amount reserve0 reserve1 decimals :
  exists e, calculatePriceImpact parseUnits amount reserve0 reserve1 decimals = Throw e.
Proof.
  unfold calculatePriceImpact.
  destruct (parseUnits amount decimals) as [amountBN|e]; [|eauto].
  cbn. eauto.
Qed.

(** Where a pass ends, against the gate [priceDiff > 0.1]. *)
Lemma checkArbitrageOpportunity_gate unitsToNumber parseUnits gas dec r0 r1 s0 s1 :
  let diff := priceDiff (priceDecimal r0 r1) (priceDecimal s0 s1) in
  match checkArbitrageOpportunity unitsToNumber parseUnits gas dec r0 r1 s0 s1 with
  | Skipped => True
  | BelowThreshold d => d = diff /\ gt diff 0.1 = false
  | NoTrade d => d = diff /\ gt diff 0.1 = true
  | Caught _ => gt diff 0.1 = true
  | HighPriceImpact _ => gt diff 0.1 = true
  | Logged _ d _ => d = diff /\ gt diff 0.1 = true
  end.
Proof.
  cbv zeta. unfold checkArbitrageOpportunity.
  destruct ((r0 =? 0)%Z || (r1 =? 0)%Z || (s0 =? 0)%Z || (s1 =? 0)%Z); [exact I|].
  destruct (strict_eq (priceDecimal r0 r1) 0 || strict_eq (priceDecimal s0 s1) 0
            || negb (isFinite (priceDecimal r0 r1))
            || negb (isFinite (priceDecimal s0 s1))); [exact I|].
  destruct (gt (priceDiff (priceDecimal r0 r1) (priceDecimal s0 s1)) 0.1) eqn:G;
    [|split; reflexivity].
  destruct (calculateProfit _ _ _ _ _ _ _) as [det|]; [|split; reflexivity].
  destruct (gt (profit det) 5); [|split; reflexivity].
  destruct (calculatePriceImpact _ _ _ _ _) as [impact|e]; [|reflexivity].
  destruct (gt impact maxPriceImpact); [reflexivity | split; reflexivity].
Qed.
End Detection.

Section Monitor.
Import Js PriceMonitor.

Lemma against_In pairName threshold buy later o :
  In o (against pairName threshold buy later) ->
  profitPercent o = ((sellPrice o - buyPrice o) / buyPrice o * 100)%float /\
  gt (profitPercent o) threshold = true.
Proof.
  induction later as [|sell rest IH]; cbn [against]; [intros []|].
  intros H. apply in_app_or in H. destruct H as [H|H]; [|auto].
  destruct (gt ((bid (quote sell) - ask (quote buy)) / ask (quote buy) * 100)%float
               threshold) eqn:G; [|destruct H].
  destruct H as [<-|[]]. cbn [profitPercent sellPrice buyPrice]. auto.
Qed.

Lemma scan_In pairName threshold exchangePrices o :
  In o (scan pairName threshold exchangePrices) ->
  profitPercent o = ((sellPrice o - buyPrice o) / buyPrice o * 100)%float /\
  gt (profitPercent o) threshold = true.
Proof.
  induction exchangePrices as [|buy later IH]; cbn [scan]; [intros []|].
  intros H. apply in_app_or in H. destruct H as [H|H]; [|auto].
  eapply against_In; eassumption.
Qed.

(** The opportunity the two loops build from a buy and a sell entry. *)
Lemma against_iff pairName threshold buy later o :
  In o (against pairName threshold buy later) <->
  exists l2 sell l3,
    later = l2 ++ sell :: l3 /\
    let profit := ((bid (quote sell) - ask (quote buy)) / ask (quote buy) * 100)%float in
    gt profit threshold = true /\
    o = mkOpportunity pairName (exchange buy) (exchange sell)
                      (ask (quote buy)) (bid (quote sell)) profit.
Proof.
  induction later as [|sell rest IH]; cbn [against].
  - split; [intros [] | intros (l2 & s & l3 & E & _); destruct l2; discriminate E].
  - split.
    + intros H. apply in_app_or in H. destruct H as [H|H].
      * destruct (gt _ threshold) eqn:G; [|destruct H].
        destruct H as [<-|[]]. exists [], sell, rest. cbn. auto.
      * apply IH in H. destruct H as (l2 & s & l3 & -> & G & ->).
        exists (sell :: l2), s, l3. cbn. auto.
    + intros (l2 & s & l3 & E & G & ->). apply in_or_app.
      destruct l2 as [|x l2]; cbn in E; inversion E; subst.
      * left. cbv zeta in G. rewrite G. left. reflexivity.
      * right. apply IH. exists l2, s, l3. auto.
Qed.

Lemma scan_iff pairName threshold exchangePrices o :
  In o (scan pairName threshold exchangePrices) <->
  exists l1 buy l2 sell l3,
    exchangePrices = l1 ++ buy :: l2 ++ sell :: l3 /\
    let profit := ((bid (quote sell) - ask (quote buy)) / ask (quote buy) * 100)%float in
    gt profit threshold = true /\
    o = mkOpportunity pairName (exchange buy) (exchange sell)
                      (ask (quote buy)) (bid (quote sell)) profit.
Proof.
  induction exchangePrices as [|first later IH]; cbn [scan].
  - split; [intros [] | intros (l1 & b & l2 & s & l3 & E & _); destruct l1; discriminate E].
  - split.
    + intros H. apply in_app_or in H. destruct H as [H|H].
      * apply against_iff in H. destruct H as (l2 & s & l3 & -> & G & ->).
        exists [], first, l2, s, l3. cbn. auto.
      * apply IH in H. destruct H as (l1 & b & l2 & s & l3 & -> & G & ->).
        exists (first :: l1), b, l2, s, l3. cbn. auto.
    + intros (l1 & b & l2 & s & l3 & E & G & ->). apply in_or_app.
      destruct l1 as [|x l1]; cbn in E; inversion E; subst.
      * left. apply against_iff. exists l2, s, l3. auto.
      * right. apply IH. exists l1, b, l2, s, l3. auto.
Qed.

Lemma findArbitrageOpportunities_iff pairs prices minProfitPercent o :
  In o (findArbitrageOpportunities pairs prices minProfitPercent) <->
  exists pairName l1 buy l2 sell l3,
    In pairName pairs /\
    map (fun entry => mkExchangePrice (before_dash (fst entry)) (snd entry))
        (filter (fun entry => endsWith (fst entry) pairName) prices)
    = l1 ++ buy :: l2 ++ sell :: l3 /\
    let profit := ((bid (quote sell) - ask (quote buy)) / ask (quote buy) * 100)%float in
    gt profit (match minProfitPercent with Some x => x | None => 0.5%float end) = true /\
    o = mkOpportunity pairName (exchange buy) (exchange sell)
                      (ask (quote buy)) (bid (quote sell)) profit.
Proof.
  unfold findArbitrageOpportunities. cbv zeta. rewrite in_flat_map. split.
  - intros (pairName & Hin & H). apply scan_iff in H.
    destruct H as (l1 & b & l2 & s & l3 & E & G & ->).
    exists pairName, l1, b, l2, s, l3. auto.
  - intros (pairName & l1 & b & l2 & s & l3 & Hin & E & G & ->).
    exists pairName. split; [exact Hin|]. apply scan_iff.
    exists l1, b, l2, s, l3. auto.
Qed.

Lemma findArbitrageOpportunities_In pairs prices minProfitPercent o :
  In o (findArbitrageOpportunities pairs prices minProfitPercent) ->
  let threshold := match minProfitPercent with Some x => x | None => 0.5%float end in
  profitPercent o = ((sellPrice o - buyPrice o) / buyPrice o * 100)%float /\
  gt (profitPercent o) threshold = true.
Proof.
  unfold findArbitrageOpportunities. intros H.
  apply in_flat_map in H. destruct H as (pairName & _ & H).
  eapply scan_In; eassumption.
Qed.
End Monitor.

(** C8 (amended).  The detector of the orchestrator computes the
    divergence of the two venue rates as [|a - b| / min(a, b) * 100] in
    doubles and goes past its gate only when the computed value is
    strictly above 0.1, a literal of the script: every pass that ends
    beyond the gate had a computed divergence above 0.1, and every other
    pass ends as skipped or below the threshold.  The price monitor
    emits exactly the opportunities of two entries of a pair, the buy
    entry standing before the sell entry in the price map, whose computed
    [(bid of the seller - ask of the buyer) / ask of the buyer * 100] is
    strictly above [minProfitPercent] (0.5 unless given).  A computed
    value equal to the floor is never strictly above it and emits
    nothing.  Rates 2000 and 2005 compute to 0.25 and yield no
    opportunity from the monitor under its floor of 0.5, in either
    order of the venues; neither do 200 and 201, which compute to 0.5,
    nor, at the orchestrator, reserves whose rates compute to 0.1. *)
Theorem detector_threshold_is_exclusive :
  (forall a b,
      Detector.priceDiff a b
      = (Js.Math_abs (a - b) / Js.Math_min a b * 100)%float) /\
  (forall unitsToNumber parseUnits gas dec r0 r1 s0 s1,
      let diff := Detector.priceDiff (Detector.priceDecimal r0 r1)
                                     (Detector.priceDecimal s0 s1) in
      (Js.strict_eq diff 0.1 = true -> Js.gt diff 0.1 = false) /\
      match Detector.checkArbitrageOpportunity unitsToNumber parseUnits
              gas dec r0 r1 s0 s1 with
      | Detector.Skipped => True
      | Detector.BelowThreshold d => d = diff /\ Js.gt diff 0.1 = false
      | Detector.NoTrade d => d = diff /\ Js.gt diff 0.1 = true
      | Detector.Caught _ => Js.gt diff 0.1 = true
      | Detector.HighPriceImpact _ => Js.gt diff 0.1 = true
      | Detector.Logged _ d _ => d = diff /\ Js.gt diff 0.1 = true
      end) /\
  (forall pairs prices minProfitPercent o,
      let threshold := match minProfitPercent with Some x => x | None => 0.5%float end in
      (In o (PriceMonitor.findArbitrageOpportunities pairs prices minProfitPercent) <->
       exists pairName l1 buy l2 sell l3,
         In pairName pairs /\
         map (fun entry => PriceMonitor.mkExchangePrice
                             (PriceMonitor.before_dash (fst entry)) (snd entry))
             (filter (fun entry => PriceMonitor.endsWith (fst entry) pairName) prices)
         = l1 ++ buy :: l2 ++ sell :: l3 /\
         let profit := ((PriceMonitor.bid (PriceMonitor.quote sell)
                         - PriceMonitor.ask (PriceMonitor.quote buy))
                        / PriceMonitor.ask (PriceMonitor.quote buy) * 100)%float in
         Js.gt profit threshold = true /\
         o = PriceMonitor.mkOpportunity pairName (PriceMonitor.exchange buy)
               (PriceMonitor.exchange sell) (PriceMonitor.ask (PriceMonitor.quote buy))
               (PriceMonitor.bid (PriceMonitor.quote sell)) profit) /\
      (In o (PriceMonitor.findArbitrageOpportunities pairs prices minProfitPercent) ->
       PriceMonitor.profitPercent o
       = ((PriceMonitor.sellPrice o - PriceMonitor.buyPrice o)
          / PriceMonitor.buyPrice o * 100)%float /\
       Js.gt (PriceMonitor.profitPercent o) threshold = true /\
       Js.strict_eq (PriceMonitor.profitPercent o) threshold = false)) /\
  Detector.priceDiff 2000 2005 = 0.25%float /\
  PriceMonitor.findArbitrageOpportunities ["BTC/USDT"%string]
    [("binance-BTC/USDT"%string, PriceMonitor.mkTicker 2000 2000 0);
     ("kraken-BTC/USDT"%string, PriceMonitor.mkTicker 2005 2005 0)] None = [] /\
  PriceMonitor.findArbitrageOpportunities ["BTC/USDT"%string]
    [("kraken-BTC/USDT"%string, PriceMonitor.mkTicker 2005 2005 0);
     ("binance-BTC/USDT"%string, PriceMonitor.mkTicker 2000 2000 0)] None = [] /\
  PriceMonitor.findArbitrageOpportunities ["BTC/USDT"%string]
    [("binance-BTC/USDT"%string, PriceMonitor.mkTicker 200 200 0);
     ("kraken-BTC/USDT"%string, PriceMonitor.mkTicker 201 201 0)] None = [] /\
  Detector.checkArbitrageOpportunity Detector.unitsAsDouble Detector.parseWhole
    (Detector.gasCostUSD Detector.unitsAsDouble "WETH/DAI" (30 * 10 ^ 9)) 18
    (1000 * 10 ^ 18) (2000000 * 10 ^ 18) (1000 * 10 ^ 18) (2002000 * 10 ^ 18)
  = Detector.BelowThreshold 0.1.
Proof.
  split; [reflexivity|].
  split.
  { intros unitsToNumber parseUnits gas dec r0 r1 s0 s1. cbv zeta.
    split; [unfold Js.strict_eq, Js.gt; apply eqb_not_ltb|].
    exact (checkArbitrageOpportunity_gate unitsToNumber parseUnits gas dec r0 r1 s0 s1). }
  split.
  { intros pairs prices minProfitPercent o. cbv zeta.
    split; [apply findArbitrageOpportunities_iff|].
    intros Hin.
    apply findArbitrageOpportunities_In in Hin. cbv zeta in Hin.
    destruct Hin as [Hp Hgt]. split; [exact Hp|]. split; [exact Hgt|].
    unfold Js.strict_eq, Js.gt in *. now apply ltb_not_eqb. }
  repeat split; vm_compute; reflexivity.
Qed.

(** C8, as stated, fails, in three ways.  A tie is emitted: quotes of
    100 and 107 diverge by exactly 7 percent, and 1000 and 1007 by
    exactly 0.7, yet under floors of 7 and of 0.7 the monitor emits an
    opportunity for each, because the doubles it computes lie above the
    floor; and at the orchestrator, reserves whose rates are 3000 and
    3003, exactly 0.1 percent apart, pass the gate.  The measure of the
    monitor is not [|a - b| / min(a, b)]: with the dearer venue first in
    the price map, rates 2500 and 2000 diverge by 25 percent and nothing
    is emitted under the floor of 0.5.  The floor of the orchestrator is
    not the configured one: rates 2000 and 2005 pass its gate. *)
Lemma ties_and_order_at_the_floor :
  let monitor first second floor :=
    PriceMonitor.findArbitrageOpportunities ["BTC/USDT"%string]
      [("binance-BTC/USDT"%string, PriceMonitor.mkTicker first first 0);
       ("kraken-BTC/USDT"%string, PriceMonitor.mkTicker second second 0)] floor in
  let detector uni1 sushi1 :=
    Detector.checkArbitrageOpportunity Detector.unitsAsDouble Detector.parseWhole
      (Detector.gasCostUSD Detector.unitsAsDouble "WETH/DAI" (30 * 10 ^ 9)) 18
      (1000 * 10 ^ 18) (uni1 * 10 ^ 18) (1000 * 10 ^ 18) (sushi1 * 10 ^ 18) in
  (107 - 100) * 100 = 7 * 100 /\
  map PriceMonitor.sellExchange (monitor 100 107 (Some 7))%float = ["kraken"%string] /\
  (1007 - 1000) * 100 * 10 = 7 * 1000 /\
  map PriceMonitor.sellExchange (monitor 1000 1007 (Some 0.7))%float = ["kraken"%string] /\
  (3003 - 3000) * 100 * 10 = 1 * 3000 /\
  (exists diff, detector 3000000 3003000 = Detector.NoTrade diff /\
                Js.gt diff 0.1 = true) /\
  Detector.priceDiff 2500 2000 = 25%float /\
  monitor 2500%float 2000%float None = [] /\
  detector 2000000 2005000 = Detector.NoTrade 0.25.
Proof.
  cbv zeta. repeat split; try (vm_compute; reflexivity).
  eexists. split; vm_compute; reflexivity.
Qed.

(** C7 (what the code does instead).  [calculateProfit] takes the
    smaller of [sqrt(gasCostUSD / (profitPerUnit * 0.997))] and the cap,
    and reports it only when its own estimate at that size is above 5
    and between 10 and 1000 percent of the gas cost.  The gas cost it is
    handed is the gas in wei over [10^9], read as ether, times 2200: a
    thousand-millionth of the cost.  In the scenario of the
    specification (100 tokens against 200000 and against 250000, rates
    2000 and 2500) at 30 gwei that is less than a millionth of a dollar,
    the chosen size is less than a hundred-thousandth of a token and
    nothing is reported, at this and at every other whole number of gwei
    up to the ceiling, for every gas estimate of the script; the pass ends
    without a trade.  The capped range reaches up to 3 tokens, where the
    estimate of the code itself is above 1400, and by the yardstick of
    the specification one token, sold where it is dear and bought back
    where it is cheap, comes back as more than 1.2 tokens. *)
Theorem calculateProfit_sizes_nothing :
  (forall unitsToNumber uniPrice sushiPrice gasCostUSD token0Decimals uniReserve0
          sushiReserve0,
      let size := Detector.chosenSize unitsToNumber uniPrice sushiPrice gasCostUSD
                    token0Decimals uniReserve0 sushiReserve0 in
      let profit := Detector.estimate uniPrice sushiPrice gasCostUSD size in
      let roi := (profit / gasCostUSD * 100)%float in
      Detector.calculateProfit unitsToNumber uniPrice sushiPrice gasCostUSD
        token0Decimals uniReserve0 sushiReserve0
      = if Js.gt profit 5 && Js.gt roi 10 && Js.lt roi 1000
        then Some (Detector.mkProfitDetails profit roi size
                     (if Js.gt uniPrice sushiPrice then "Sushi->Uni" else "Uni->Sushi"))
        else None) /\
  let gas := Detector.gasCostUSD Detector.unitsAsDouble "WETH/DAI" (30 * 10 ^ 9) in
  let size := Detector.chosenSize Detector.unitsAsDouble 2000 2500 gas 18
                Detector.hundred_tokens Detector.hundred_tokens in
  Detector.priceDecimal Detector.hundred_tokens Detector.cheap_side = 2000%float /\
  Detector.priceDecimal Detector.hundred_tokens Detector.dear_side = 2500%float /\
  Js.lt gas 0.000001 = true /\
  Js.lt size 0.00001 = true /\
  Detector.calculateProfit Detector.unitsAsDouble 2000 2500 gas 18
    Detector.hundred_tokens Detector.hundred_tokens = None /\
  Detector.checkArbitrageOpportunity Detector.unitsAsDouble Detector.parseWhole gas 18
    Detector.hundred_tokens Detector.cheap_side
    Detector.hundred_tokens Detector.dear_side = Detector.NoTrade 25 /\
  forallb
    (fun pairName =>
       forallb
         (fun gasPrice =>
            match Detector.calculateProfit Detector.unitsAsDouble 2000 2500
                    (Detector.gasCostUSD Detector.unitsAsDouble pairName gasPrice) 18
                    Detector.hundred_tokens Detector.hundred_tokens with
            | None => true
            | Some _ => false
            end)
         Detector.whole_gwei_prices)
    Detector.gas_estimated_pairs = true /\
  Detector.maxTradeSize Detector.unitsAsDouble 18
    Detector.hundred_tokens Detector.hundred_tokens = 3%float /\
  Js.gt (Detector.estimate 2000 2500 gas 3) 1400 = true /\
  10 ^ 18 <= 3 * 10 ^ 18 /\
  12 * 10 ^ 17 < SizerReference.roundTrip 997 (10 ^ 18)
                   Detector.hundred_tokens Detector.dear_side
                   Detector.hundred_tokens Detector.cheap_side.
Proof.
  split; [reflexivity|].
  cbv zeta. repeat split; try (vm_compute; reflexivity).
  vm_compute. discriminate.
Qed.

Section RiskGate.

Import Js Orchestrator.
Context (unitsToNumber : Z -> Z -> float).

(** The gas spent is a BigInt whenever it is computed at all; a BigInt
    times the Number 2200 throws. *)
Lemma gasSpent_is_BigInt price gas spent :
  mul price (BigInt gas) = Normal spent -> exists n, spent = BigInt n.
Proof.
  destruct price; cbn; intros H; inversion H; eauto.
Qed.

(** No call changes the two totals; the flag is raised by a call that
    finds one of them above its ceiling, and by nothing else. *)
Lemma executeArbitrage_totals pairName opportunity io now bot :
  let '(bot', r, log) := executeArbitrage unitsToNumber pairName opportunity io now bot in
  totalLoss bot' = totalLoss bot /\ totalGasUsed bot' = totalGasUsed bot /\
  emergencyStopActive bot' =
    emergencyStopActive bot || gt (totalLoss bot) maxLoss || gt (totalGasUsed bot) maxGasSpent.
Proof.
  unfold executeArbitrage, checkEmergencyStop.
  destruct (emergencyStopActive bot) eqn:A; [cbn; rewrite A; auto|].
  rewrite orb_false_l.
  destruct (gt (totalLoss bot) maxLoss || gt (totalGasUsed bot) maxGasSpent);
    [cbn; auto|].
  destruct (gt (optimalSize opportunity) (maxPositionSize pairName)); [cbn; auto|].
  destruct (lt (liquidityUSD opportunity) (minLiquidity pairName)); [cbn; auto|].
  destruct io; try (cbn; auto; fail).
  destruct (mul (gasPrice opportunity) (BigInt (estimatedGasUsed pairName)))
    as [spent|e] eqn:Em; [|cbn; auto].
  apply gasSpent_is_BigInt in Em. destruct Em as [n ->].
  destruct (updateExecutionStats _ _ _) as [stats [u|e]]; [|cbn; auto].
  cbn [success gasSpent negb].
  destruct (bundleInclusion =? 0)%Z; cbn; auto.
Qed.

(** While the totals are within their ceilings no sequence of calls
    raises the flag, however the calls end. *)
Lemma executeAll_never_trips attempts bot :
  emergencyStopActive bot = false ->
  gt (totalLoss bot) maxLoss = false -> gt (totalGasUsed bot) maxGasSpent = false ->
  emergencyStopActive (fst (executeAll unitsToNumber attempts bot)) = false /\
  totalLoss (fst (executeAll unitsToNumber attempts bot)) = totalLoss bot /\
  totalGasUsed (fst (executeAll unitsToNumber attempts bot)) = totalGasUsed bot.
Proof.
  revert bot. induction attempts as [|a rest IH]; intros bot A L G; [cbn; auto|].
  cbn [executeAll].
  pose proof (executeArbitrage_totals (attempt_pair a) (attempt_opportunity a)
                (attempt_io a) (attempt_time a) bot) as T.
  destruct (executeArbitrage _ _ _ _ _ _) as [[bot1 r] log].
  destruct T as (TL & TG & TA). rewrite A, L, G in TA. cbn in TA.
  specialize (IH bot1 TA). rewrite TL, TG in IH. specialize (IH L G).
  destruct (executeAll unitsToNumber rest bot1) as [bot2 results]. cbn [fst] in *.
  exact IH.
Qed.

(** Nor is any of the calls turned away. *)
Lemma executeArbitrage_not_skipped pairName opportunity io now bot :
  emergencyStopActive bot = false ->
  gt (totalLoss bot) maxLoss = false -> gt (totalGasUsed bot) maxGasSpent = false ->
  let '(bot', r, log) := executeArbitrage unitsToNumber pairName opportunity io now bot in
  ~ skipped (r, log).
Proof.
  intros A L G. unfold executeArbitrage, checkEmergencyStop. rewrite A, L, G.
  cbn [orb].
  assert (F : forall r log,
             (r <> ReturnUndefined \/
              last log SendBundle <> Console "Emergency stop active, skipping trade" \/
              In SendBundle log) ->
             ~ skipped (r, log)).
  { intros r log H (R & K & _ & S2). cbn [fst snd] in *. tauto. }
  destruct (gt (optimalSize opportunity) (maxPositionSize pairName));
    [apply F; right; left; cbn; discriminate|].
  destruct (lt (liquidityUSD opportunity) (minLiquidity pairName));
    [apply F; right; left; cbn; discriminate|].
  destruct io; try (apply F; first [left; discriminate | right; left; cbn; discriminate]).
  destruct (mul (gasPrice opportunity) (BigInt (estimatedGasUsed pairName)))
    as [spent|e] eqn:Em; [|apply F; left; discriminate].
  apply gasSpent_is_BigInt in Em. destruct Em as [n ->].
  destruct (updateExecutionStats _ _ _) as [stats [u|e]]; [|apply F; left; discriminate].
  cbn [success gasSpent negb].
  destruct (bundleInclusion =? 0)%Z; cbn; apply F; left; discriminate.
Qed.

Lemma executeAll_never_skips attempts bot :
  emergencyStopActive bot = false ->
  gt (totalLoss bot) maxLoss = false -> gt (totalGasUsed bot) maxGasSpent = false ->
  Forall (fun outcome => ~ skipped outcome) (snd (executeAll unitsToNumber attempts bot)).
Proof.
  revert bot. induction attempts as [|a rest IH]; intros bot A L G; [constructor|].
  cbn [executeAll].
  pose proof (executeArbitrage_totals (attempt_pair a) (attempt_opportunity a)
                (attempt_io a) (attempt_time a) bot) as T.
  pose proof (executeArbitrage_not_skipped (attempt_pair a) (attempt_opportunity a)
                (attempt_io a) (attempt_time a) bot A L G) as N.
  destruct (executeArbitrage _ _ _ _ _ _) as [[bot1 r] log].
  destruct T as (TL & TG & TA). rewrite A, L, G in TA. cbn in TA.
  specialize (IH bot1 TA). rewrite TL, TG in IH. specialize (IH L G).
  destruct (executeAll unitsToNumber rest bot1) as [bot2 results]. cbn [fst snd] in *.
  constructor; assumption.
Qed.

End RiskGate.

(** C6 (what the code does instead).  Nothing counts failures in a row
    and nothing cools down: [cooldownPeriod] is read nowhere, and the
    one statement that would add a failure to [totalLoss] throws (a
    BigInt times a Number), so the totals stay at 0 and the emergency
    stop, the only gate on past results, is never raised.  From the
    start of the script, whatever the attempts and however they end,
    none is turned away for earlier results.  In particular, after three
    attempts in a row that failed on WETH/DAI (the simulation showed a
    revert, or the bundle was sent and missed its block, which the
    statistics record as three failed trades) the fourth attempt on the
    same pair, in the same second, has its bundle simulated and sent. *)
Theorem no_cooling_down_after_three_failures :
  (forall (unitsToNumber : Z -> Z -> float) attempts start,
      let run := Orchestrator.executeAll unitsToNumber attempts
                   (Orchestrator.initialBot start) in
      Orchestrator.emergencyStopActive (fst run) = false /\
      Orchestrator.totalLoss (fst run) = 0%float /\
      Orchestrator.totalGasUsed (fst run) = 0%float /\
      Forall (fun outcome => ~ Orchestrator.skipped outcome) (snd run)) /\
  let reverted := Orchestrator.mkAttempt "WETH/DAI" Orchestrator.sample_opportunity
                    Orchestrator.SimulationReverts 1700000000000 in
  let missed := Orchestrator.mkAttempt "WETH/DAI" Orchestrator.sample_opportunity
                  (Orchestrator.Resolved 1) 1700000000000 in
  let run attempts :=
    Orchestrator.executeAll Detector.unitsAsDouble attempts (Orchestrator.initialBot 0) in
  map fst (snd (run [reverted; reverted; reverted]))
  = [Orchestrator.ReturnUndefined; Orchestrator.ReturnUndefined;
     Orchestrator.ReturnUndefined] /\
  Orchestrator.checkEmergencyStop (fst (run [reverted; reverted; reverted]))
  = (false, fst (run [reverted; reverted; reverted]), []) /\
  map Orchestrator.submitted (snd (run [reverted; reverted; reverted; missed]))
  = [false; false; false; true] /\
  map fst (snd (run [missed; missed; missed]))
  = [Orchestrator.ReturnBool false; Orchestrator.ReturnBool false;
     Orchestrator.ReturnBool false] /\
  Orchestrator.failedTrades
    (Orchestrator.executionStats (fst (run [missed; missed; missed]))) = 3%float /\
  Orchestrator.checkEmergencyStop (fst (run [missed; missed; missed]))
  = (false, fst (run [missed; missed; missed]), []) /\
  map Orchestrator.submitted (snd (run [missed; missed; missed; missed]))
  = [true; true; true; true].
Proof.
  split.
  - intros unitsToNumber attempts start. cbv zeta.
    destruct (@executeAll_never_trips unitsToNumber attempts (Orchestrator.initialBot start))
      as (A & L & G); try reflexivity.
    repeat split; try assumption.
    apply executeAll_never_skips; reflexivity.
  - cbv zeta. repeat split; vm_compute; reflexivity.
Qed.

(** * Counters of the contract *)

Section Forward.

Import FlashLoan.
Context {Ext : Type} (env : Env Ext).
Implicit Types (w : World Ext) (c : Call).
Local Open Scope evm_scope.





Lemma reachable_replay txs w : reachable env w -> reachable env (replay env txs w).
Proof.
  revert w. induction txs as [|[c t] rest IH]; intros w R; cbn; auto.
  apply IH. now apply reach_step.
Qed.

End Forward.

Section Counters.

Import FlashLoan.
Context {Ext : Type} (env : Env Ext).
Implicit Types (w : World Ext) (c : Call).

Lemma abi_uint_Ok bits v w u w' :
  abi_uint bits v w = Ok (u, w') -> w' = w /\ 0 <= v < 2 ^ bits.
Proof.
  unfold abi_uint. intros H.
  destruct (Z.leb_spec 0 v), (Z.ltb_spec v (2 ^ bits)); cbn in H;
    try discriminate H.
  unfold ret in H. inversion H. auto.
Qed.

Lemma onlyOwner_Ok c w u w' : onlyOwner c w = Ok (u, w') -> w' = w.
Proof.
  unfold onlyOwner. intros H.
  apply bind_Ok in H. destruct H as (o & w0 & Hl & H).
  apply sload_Ok in Hl. destruct Hl as [-> ->].
  destruct (msg_sender c =? owner (store w)); [|discriminate H].
  unfold ret in H. now inversion H.
Qed.

(** What a transaction that went through did to the four counters. *)
Lemma dispatch_counters c t w u w' :
  dispatch env c t w = Ok (u, w') ->
  failedTrades (store w') = failedTrades (store w) /\
  totalGasUsed (store w) <= totalGasUsed (store w') /\
  (successfulTrades (store w') = successfulTrades (store w) \/
   successfulTrades (store w') = successfulTrades (store w) + 1) /\
  (totalProfitGenerated (store w') = totalProfitGenerated (store w) \/
   exists profit,
     settlement_profit env c (store w) profit /\
     0 <= profit /\
     totalProfitGenerated (store w')
     = unchecked_add (totalProfitGenerated (store w)) profit).
Proof.
  destruct t; cbn [dispatch]; intros H.
  - apply bind_Ok in H. destruct H as (u0 & w0 & Ha & H).
    apply abi_uint_Ok in Ha. destruct Ha as [-> _].
    apply initiateFlashLoan_Ok in H.
    destruct H as (_ & _ & _ & _ & _ & _ & Hgas & Hs & _).
    unfold settled in Hs. cbv zeta in Hs.
    destruct Hs as (e1 & e2 & premium & e3 & min1 & ia & e4 & min2 & fa & e5 & e6 &
                    _ & _ & _ & _ & _ & Hsw & Hge & Hfl & _ & _ & Hp & Hn & Hf & Hg & _).
    repeat split; [exact Hf | lia | auto |].
    right. exists (fa - (amount + premium)).
    split; [|split; [lia | exact Hp]].
    exists asset, (amount + premium), ia, min2, fa, e4, e5. auto.
  - apply bind_Ok in H. destruct H as (u0 & w0 & Ha & H).
    apply abi_uint_Ok in Ha. destruct Ha as [-> _].
    apply bind_Ok in H. destruct H as (u1 & w0 & Ha & H).
    apply abi_uint_Ok in Ha. destruct Ha as [-> _].
    apply bind_Ok in H. destruct H as (b & w1 & Hop & H).
    unfold ret in H. inversion H; subst w1; clear H.
    apply executeOperation_Ok in Hop.
    destruct Hop as (_ & _ & w1 & Hcore & _ & _ & Hgas & ->).
    apply executeArbitrage_Ok in Hcore.
    destruct Hcore as (m1 & ia & e1 & m2 & fa & e2 & _ & _ & _ & Hsw & _ & Hge & Hfl & ->).
    cbn [store set_totalGasUsed set_successfulTrades set_totalProfitGenerated
         failedTrades totalGasUsed successfulTrades totalProfitGenerated].
    repeat split; [lia | auto |].
    right. exists (fa - (amount + premium)).
    split; [|split; [lia | reflexivity]].
    exists asset, (amount + premium), ia, m2, fa, e1, e2. auto.
  - apply bind_Ok in H. destruct H as (u0 & w0 & Ha & H).
    apply abi_uint_Ok in Ha. destruct Ha as [-> _].
    apply bind_Ok in H. destruct H as (u1 & w0 & Ha & H).
    apply abi_uint_Ok in Ha. destruct Ha as [-> _].
    apply bind_Ok in H. destruct H as (b & w1 & Hcore & H).
    unfold ret in H. inversion H; subst w1; clear H.
    apply executeArbitrage_Ok in Hcore.
    destruct Hcore as (m1 & ia & e1 & m2 & fa & e2 & _ & _ & _ & Hsw & _ & Hge & Hfl & ->).
    cbn [store set_totalProfitGenerated
         failedTrades totalGasUsed successfulTrades totalProfitGenerated].
    repeat split; [lia | auto |].
    right. exists (fa - amountOwed).
    split; [|split; [lia | reflexivity]].
    exists asset, amountOwed, ia, m2, fa, e1, e2. auto.
  - apply bind_Ok in H. destruct H as (u0 & w0 & Ha & H).
    apply abi_uint_Ok in Ha. destruct Ha as [-> _].
    unfold setMaxFlashLoanAmount in H.
    apply bind_Ok in H. destruct H as (u1 & w0 & Ho & H).
    apply onlyOwner_Ok in Ho. subst w0.
    destruct (newAmount =? 0); [discriminate H|].
    apply sstore_Ok in H. subst w'. cbn. repeat split; auto; lia.
  - apply bind_Ok in H. destruct H as (u0 & w0 & Ha & H).
    apply abi_uint_Ok in Ha. destruct Ha as [-> _].
    unfold setMinProfitBps in H.
    apply bind_Ok in H. destruct H as (u1 & w0 & Ho & H).
    apply onlyOwner_Ok in Ho. subst w0.
    destruct ((newBps =? 0) || (MAX_BPS <=? newBps)); [discriminate H|].
    apply sstore_Ok in H. subst w'. cbn. repeat split; auto; lia.
  - apply bind_Ok in H. destruct H as (u0 & w0 & Ha & H).
    apply abi_uint_Ok in Ha. destruct Ha as [-> _].
    unfold setMaxPriceDeviation in H.
    apply bind_Ok in H. destruct H as (u1 & w0 & Ho & H).
    apply onlyOwner_Ok in Ho. subst w0.
    destruct ((newDeviation =? 0) || (MAX_BPS <=? newDeviation)); [discriminate H|].
    apply sstore_Ok in H. subst w'. cbn. repeat split; auto; lia.
  - apply bind_Ok in H. destruct H as (u0 & w0 & Ha & H).
    apply abi_uint_Ok in Ha. destruct Ha as [-> _].
    unfold setMaxSlippage in H.
    apply bind_Ok in H. destruct H as (u1 & w0 & Ho & H).
    apply onlyOwner_Ok in Ho. subst w0.
    destruct ((newSlippage =? 0) || (MAX_BPS <=? newSlippage)); [discriminate H|].
    apply sstore_Ok in H. subst w'. cbn. repeat split; auto; lia.
  - unfold setIntermediateToken in H.
    apply bind_Ok in H. destruct H as (u1 & w0 & Ho & H).
    apply onlyOwner_Ok in Ho. subst w0.
    destruct (token =? 0); [discriminate H|].
    apply sstore_Ok in H. subst w'. cbn. repeat split; auto; lia.
  - unfold transferOwnership in H.
    apply bind_Ok in H. destruct H as (u1 & w0 & Ho & H).
    apply onlyOwner_Ok in Ho. subst w0.
    destruct (newOwner =? 0); [discriminate H|].
    apply sstore_Ok in H. subst w'. cbn. repeat split; auto; lia.
  - unfold renounceOwnership in H.
    apply bind_Ok in H. destruct H as (u1 & w0 & Ho & H).
    apply onlyOwner_Ok in Ho. subst w0.
    apply sstore_Ok in H. subst w'. cbn. repeat split; auto; lia.
  - unfold emergencyWithdraw in H.
    apply bind_Ok in H. destruct H as (u1 & w0 & Ho & H).
    apply onlyOwner_Ok in Ho. subst w0.
    apply bind_Ok in H. destruct H as (r & w0 & Hl & H).
    apply sload_Ok in Hl. destruct Hl as [-> ->].
    destruct (entered (store w)); [discriminate H|].
    apply bind_Ok in H. destruct H as (u2 & w0 & Hl & H).
    apply sstore_Ok in Hl. subst w0.
    destruct (token =? 0); [discriminate H|].
    destruct (to =? 0); [discriminate H|].
    apply bind_Ok in H. destruct H as (me & w0 & Hl & H).
    apply sload_Ok in Hl. destruct Hl as [-> ->].
    apply bind_Ok in H. destruct H as (bal & w0 & Hl & H).
    apply gets_Ok in Hl. destruct Hl as [-> ->].
    match type of H with (if ?b then _ else _) _ = _ => destruct b end;
      [discriminate H|].
    apply bind_Ok in H. destruct H as (u3 & w0 & Hl & H).
    apply call__Ok in Hl. destruct Hl as (e' & _ & ->).
    apply sstore_Ok in H. subst w'. cbn. repeat split; auto; lia.
  - unfold ret in H. inversion H; subst. repeat split; auto; lia.
Qed.

(** The same for whole transactions, reverted ones included. *)
Lemma step_counters c t w :
  failedTrades (store (step env c t w)) = failedTrades (store w) /\
  totalGasUsed (store w) <= totalGasUsed (store (step env c t w)) /\
  (successfulTrades (store (step env c t w)) = successfulTrades (store w) \/
   successfulTrades (store (step env c t w)) = successfulTrades (store w) + 1) /\
  (totalProfitGenerated (store (step env c t w)) = totalProfitGenerated (store w) \/
   exists profit,
     settlement_profit env c (store w) profit /\
     0 <= profit /\
     totalProfitGenerated (store (step env c t w))
     = unchecked_add (totalProfitGenerated (store w)) profit).
Proof.
  unfold step, run_tx.
  destruct (dispatch env c t w) as [[u w']|e] eqn:E; cbn [fst].
  - eapply dispatch_counters; eassumption.
  - repeat split; auto; lia.
Qed.


Lemma deployed_counters s :
  deployed s ->
  failedTrades s = 0 /\ successfulTrades s = 0 /\ totalGasUsed s = 0 /\
  totalProfitGenerated s = 0.
Proof.
  intros (deployer & self & pool & prov & router & weth & maxAmount & bps & _ & _ & H).
  unfold constructor in H.
  repeat match type of H with
         | (if ?b then _ else _) = _ => destruct b; [discriminate H|]
         end.
  inversion H. cbn. auto.
Qed.

Lemma reachable_failedTrades w : reachable env w -> failedTrades (store w) = 0.
Proof.
  induction 1 as [s e D|w c t R IH|w e' R IH]; cbn.
  - now apply deployed_counters.
  - destruct (step_counters c t w) as [-> _]. exact IH.
  - exact IH.
Qed.

Lemma getTradeStatistics_Ok w stats w' :
  getTradeStatistics w = Ok (stats, w') ->
  w' = w /\
  totalProfit stats = totalProfitGenerated (store w) /\
  totalTrades stats = successfulTrades (store w) + failedTrades (store w) /\
  (0 < totalTrades stats ->
   successRate stats = successfulTrades (store w) * MAX_BPS / totalTrades stats /\
   avgGasUsed stats = totalGasUsed (store w) / totalTrades stats).
Proof.
  unfold getTradeStatistics. intros H.
  apply bind_Ok in H. destruct H as (p & w0 & Hl & H).
  apply sload_Ok in Hl. destruct Hl as [-> ->].
  apply bind_Ok in H. destruct H as (ok & w0 & Hl & H).
  apply sload_Ok in Hl. destruct Hl as [-> ->].
  apply bind_Ok in H. destruct H as (ko & w0 & Hl & H).
  apply sload_Ok in Hl. destruct Hl as [-> ->].
  apply bind_Ok in H. destruct H as (trades & w0 & Hl & H).
  apply lift_Ok in Hl. destruct Hl as [Ht ->].
  apply checked_add_Ok in Ht. destruct Ht as [-> Ht].
  apply bind_Ok in H. destruct H as (g & w0 & Hl & H).
  apply sload_Ok in Hl. destruct Hl as [-> ->].
  apply bind_Ok in H. destruct H as (avg & w0 & Havg & H).
  apply bind_Ok in H. destruct H as (rate & w1 & Hrate & H).
  unfold ret in H. inversion H; subst stats w'; clear H. cbn.
  destruct (Z.ltb_spec 0 (successfulTrades (store w) + failedTrades (store w))) as [Hpos|Hz].
  - apply lift_Ok in Havg. destruct Havg as [Havg ->].
    apply checked_div_Ok in Havg. destruct Havg as [-> _].
    apply bind_Ok in Hrate. destruct Hrate as (scaled & w2 & Hs & Hrate).
    apply lift_Ok in Hs. destruct Hs as [Hs ->].
    apply checked_mul_Ok in Hs. destruct Hs as [-> _].
    apply lift_Ok in Hrate. destruct Hrate as [Hrate ->].
    apply checked_div_Ok in Hrate. destruct Hrate as [-> _].
    repeat split; auto.
  - unfold ret in Havg, Hrate. inversion Havg; subst. inversion Hrate; subst.
    repeat split; auto; lia.
Qed.

End Counters.

Section Statistics.

Import FlashLoan.
Context {Ext : Type} (env : Env Ext).
Implicit Types (w : World Ext) (c : Call).

Lemma getTradeStatistics_all_successful w :
  failedTrades (store w) = 0 -> 0 < successfulTrades (store w) ->
  successfulTrades (store w) * MAX_BPS <= MAX_UINT256 ->
  exists stats,
    getTradeStatistics w = Ok (stats, w) /\
    totalTrades stats = successfulTrades (store w) /\
    successRate stats = 10000.
Proof.
  intros Hf Hpos Hfit.
  unfold getTradeStatistics, bind, sload, gets, lift, ret.
  rewrite Hf. unfold checked_add, checked_mul, checked_div.
  rewrite !Z.add_0_r.
  unfold MAX_BPS in *.
  destruct (Z.leb_spec (successfulTrades (store w)) MAX_UINT256); [|lia].
  destruct (Z.ltb_spec 0 (successfulTrades (store w))); [|lia].
  destruct (Z.eqb_spec (successfulTrades (store w)) 0); [lia|].
  destruct (Z.leb_spec (successfulTrades (store w) * 10000) MAX_UINT256); [|lia].
  eexists. split; [reflexivity|]. cbn. split; [reflexivity|].
  rewrite Z.mul_comm. now apply Z.div_mul.
Qed.

(** C10.  In every state the contract can reach, [failedTrades] is 0:
    a transaction that went through never touched it, and the one place
    that increments it, the [catch] branch of [executeOperation], reverts
    afterwards, which undoes the increment.  So whenever
    [getTradeStatistics] reports on at least one trade, the success rate
    it reports is 10000; and it does report, with that rate, as long as
    [successfulTrades * 10000] fits in 256 bits. *)
Theorem failedTrades_is_always_zero w :
  reachable env w ->
  failedTrades (store w) = 0 /\
  (forall c asset amount premium initiator reason,
      _executeArbitrage env (from (this (store w)) c) asset amount (amount + premium) w
      = Revert reason ->
      exists e,
        executeOperation env c asset amount premium initiator w = Revert e /\
        step env c (ExecuteOperation asset amount premium initiator) w = w) /\
  (forall stats w',
      getTradeStatistics w = Ok (stats, w') ->
      0 < totalTrades stats -> successRate stats = 10000) /\
  (0 < successfulTrades (store w) ->
   successfulTrades (store w) * MAX_BPS <= MAX_UINT256 ->
   exists stats,
     getTradeStatistics w = Ok (stats, w) /\ 0 < totalTrades stats /\
     successRate stats = 10000).
Proof.
  intros R. pose proof (reachable_failedTrades R) as F.
  split; [exact F|]. split; [|split].
  - intros c asset amount premium initiator reason Hcore.
    destruct (@executeOperation_reverts_with_core _ env c asset amount premium
                initiator w reason Hcore) as (e & He & _).
    exists e. split; [exact He|].
    unfold step, run_tx, dispatch.
    destruct (abi_uint 256 amount w) as [[u w0]|e0] eqn:A1; [|unfold bind; now rewrite A1].
    apply abi_uint_Ok in A1 as A1'. destruct A1' as [-> _].
    erewrite bind_eq_Ok by exact A1.
    destruct (abi_uint 256 premium w) as [[u' w0]|e0] eqn:A2;
      [|unfold bind; now rewrite A2].
    apply abi_uint_Ok in A2 as A2'. destruct A2' as [-> _].
    erewrite bind_eq_Ok by exact A2.
    unfold bind. now rewrite He.
  - intros stats w' H Hpos.
    apply getTradeStatistics_Ok in H. destruct H as (_ & _ & Ht & Hr).
    destruct (Hr Hpos) as [-> _]. rewrite Ht, F, Z.add_0_r in *.
    rewrite Z.mul_comm. apply Z.div_mul. lia.
  - intros Hpos Hfit.
    destruct (getTradeStatistics_all_successful w F Hpos Hfit) as (stats & E & Ht & Hr).
    exists stats. repeat split; auto. lia.
Qed.

End Statistics.

Lemma deployed_fixture : FlashLoan.deployed Mocks.deployed_storage.
Proof.
  exists Mocks.OWNER, Mocks.ARBITRAGE, Mocks.POOL, Mocks.PROVIDER, Mocks.ROUTER,
         Mocks.WETH_TOKEN, (Mocks.ether 1000), 100.
  repeat split; try (vm_compute; congruence).
Qed.

(** At a venue that quotes 110 for whatever comes in, the owner names
    the intermediate token and a stranger settles 100 units; then the
    venue pays 104 on a first leg whose minimum is 109, and that attempt
    fails in the settlement core, in the [catch] branch. *)
Lemma failedTrades_is_always_zero_witness :
  let env := Scripted.env 110 in
  let w1 := FlashLoan.replay env
              [(Mocks.at_block Mocks.OWNER 1,
                FlashLoan.SetIntermediateToken Mocks.WETH_TOKEN);
               (Mocks.at_block Mocks.USER1 10,
                FlashLoan.InitiateFlashLoan Mocks.TOKEN_A 100)]
              Scripted.start in
  let w2 := FlashLoan.mkWorld (FlashLoan.store w1) [104] in
  let attempt := FlashLoan.initiateFlashLoan env (Mocks.at_block Mocks.USER1 20)
                   Mocks.TOKEN_A 100 in
  let w3 := FlashLoan.step env (Mocks.at_block Mocks.USER1 20)
              (FlashLoan.InitiateFlashLoan Mocks.TOKEN_A 100) w2 in
  attempt w2 = Revert (ErrorOfBytes (ExcessiveSlippage 109 104)) /\
  FlashLoan.reachable env w3 /\
  FlashLoan.successfulTrades (FlashLoan.store w3) = 1 /\
  FlashLoan.failedTrades (FlashLoan.store w3) = 0 /\
  exists stats,
    FlashLoan.getTradeStatistics w3 = Ok (stats, w3) /\
    FlashLoan.successRate stats = 10000.
Proof.
  cbv zeta.
  split; [vm_compute; reflexivity|].
  match goal with |- FlashLoan.reachable _ ?w /\ _ =>
    assert (R : FlashLoan.reachable (Scripted.env 110) w)
  end.
  { apply FlashLoan.reach_step.
    apply (FlashLoan.reach_ext (env := Scripted.env 110)).
    apply reachable_replay. apply FlashLoan.reach_deployed. exact deployed_fixture. }
  split; [exact R|].
  destruct (failedTrades_is_always_zero R) as (F & _ & _ & S).
  split; [vm_compute; reflexivity|]. split; [exact F|].
  destruct S as (stats & E & _ & Hr).
  - vm_compute. reflexivity.
  - vm_compute. discriminate.
  - exists stats. split; [exact E | exact Hr].
Defined.

Section WrapAround.

Import FlashLoan Scripted.




End WrapAround.




(** * Further properties of the contract *)

Section Configuration.

Import FlashLoan.
Context {Ext : Type} (env : Env Ext).
Implicit Types (w : World Ext) (c : Call).

(** What a settlement leaves of the storage it found: everything but
    the lock (released again), the block of the last run, the three
    counters that move and the recorded price. *)
Lemma initiateFlashLoan_frame c asset amount w u w' :
  initiateFlashLoan env c asset amount w = Ok (u, w') ->
  (this (store w') = this (store w) /\ WETH (store w') = WETH (store w) /\
   provider (store w') = provider (store w) /\
   lendingPool (store w') = lendingPool (store w) /\
   uniswapRouter (store w') = uniswapRouter (store w)) /\
  owner (store w') = owner (store w) /\
  paused (store w') = paused (store w) /\
  entered (store w') = false /\
  intermediateToken (store w') = intermediateToken (store w) /\
  maxPriceDeviation (store w') = maxPriceDeviation (store w) /\
  maxSlippage (store w') = maxSlippage (store w) /\
  minProfitBps (store w') = minProfitBps (store w) /\
  maxFlashLoanAmount (store w') = maxFlashLoanAmount (store w) /\
  failedTrades (store w') = failedTrades (store w).
Proof.
  unfold initiateFlashLoan. intros H.
  apply bind_Ok in H. destruct H as (r & w0 & Hl & H).
  apply sload_Ok in Hl. destruct Hl as [-> ->].
  destruct (entered (store w)) eqn:Hent; [discriminate H|].
  apply bind_Ok in H. destruct H as (u0 & w0 & Hl & H).
  apply sstore_Ok in Hl. subst w0.
  apply bind_Ok in H. destruct H as (p & w0 & Hl & H).
  apply sload_Ok in Hl. destruct Hl as [-> ->]. cbn [store set_entered paused] in H.
  destruct (paused (store w)) eqn:Hp; [discriminate H|].
  apply bind_Ok in H. destruct H as (i & w0 & Hl & H).
  apply sload_Ok in Hl. destruct Hl as [-> ->].
  cbn [store set_entered intermediateToken] in H.
  destruct (Z.eqb_spec (intermediateToken (store w)) 0) as [|Hi]; [discriminate H|].
  destruct (Z.eqb_spec amount 0) as [|Ha]; [discriminate H|].
  apply bind_Ok in H. destruct H as (m & w0 & Hl & H).
  apply sload_Ok in Hl. destruct Hl as [-> ->].
  cbn [store set_entered maxFlashLoanAmount] in H.
  destruct (Z.ltb_spec (maxFlashLoanAmount (store w)) amount) as [|Hm]; [discriminate H|].
  apply bind_Ok in H. destruct H as (l & w0 & Hl & H).
  apply sload_Ok in Hl. destruct Hl as [-> ->].
  cbn [store set_entered lastExecutionTime] in H.
  apply bind_Ok in H. destruct H as (d & w0 & Hl & H).
  apply lift_Ok in Hl. destruct Hl as [Hd ->].
  apply checked_sub_Ok in Hd. destruct Hd as [-> Hd].
  destruct (Z.ltb_spec (block_number c - lastExecutionTime (store w)) MIN_EXECUTION_DELAY)
    as [|Hdelay]; [discriminate H|].
  apply bind_Ok in H. destruct H as (u1 & w0 & Hl & H).
  apply sstore_Ok in Hl. subst w0. cbn [store ext] in H.
  apply bind_Ok in H. destruct H as (pl & w0 & Hl & H).
  apply sload_Ok in Hl. destruct Hl as [-> ->].
  apply bind_Ok in H. destruct H as (pl' & w0 & Hl & H).
  apply sload_Ok in Hl. destruct Hl as [-> ->].
  rewrite Z.eqb_refl in H. cbn [negb] in H.
  apply bind_Ok in H. destruct H as (pv & w0 & Hl & H).
  apply sload_Ok in Hl. destruct Hl as [-> ->].
  apply bind_Ok in H. destruct H as (pv' & w0 & Hl & H).
  apply sload_Ok in Hl. destruct Hl as [-> ->].
  rewrite Z.eqb_refl in H. cbn [negb] in H.
  apply bind_Ok in H. destruct H as (price & w0 & Hl & H).
  apply checkPriceDeviation_Ok in Hl. cbn [store ext] in Hl.
  destruct Hl as [Hprice ->].
  apply bind_Ok in H. destruct H as (est & w0 & Hl & H).
  apply calculateEstimatedProfit_Ok in Hl. subst w0.
  apply bind_Ok in H. destruct H as (u2 & w0 & Hl & H).
  apply setupFlashLoan_Ok in Hl. cbn [store ext] in Hl.
  destruct Hl as (e1 & e2 & Ha1 & Ha2 & ->).
  apply bind_Ok in H. destruct H as (me & w0 & Hl & H).
  apply sload_Ok in Hl. destruct Hl as [-> ->]. cbn [store ext] in H.
  apply bind_Ok in H. destruct H as (u3 & w0 & Hl & H).
  apply flashLoanSimple_Ok in Hl. cbn [store ext] in Hl.
  destruct Hl as (premium & e3 & w1 & w2 & e6 & Hlend & Hop & Hcol & -> & ->).
  apply sstore_Ok in H. subst w'. cbn [store ext].
  apply executeOperation_Ok in Hop. cbn [store ext] in Hop.
  destruct Hop as (_ & _ & w3 & Hcore & _ & Howed & Hgas & ->).
  apply executeArbitrage_Ok in Hcore. cbn [store ext] in Hcore.
  destruct Hcore as (m1 & ia & e4 & m2 & fa & e5 & _ & Hs1 & Hm1 & Hs2 & _ & Hge & Hfloor & ->).
  repeat split; first [reflexivity | exact Hp | exact Hent].
Qed.


Lemma onlyOwner_caller c w u w' :
  onlyOwner c w = Ok (u, w') -> w' = w /\ msg_sender c = owner (store w).
Proof.
  unfold onlyOwner. intros H.
  apply bind_Ok in H. destruct H as (o & w0 & Hl & H).
  apply sload_Ok in Hl. destruct Hl as [-> ->].
  destruct (Z.eqb_spec (msg_sender c) (owner (store w))) as [E|]; [|discriminate H].
  unfold ret in H. inversion H. subst. auto.
Qed.

(** What a transaction that went through did to the configuration. *)
Lemma dispatch_frame c t w u w' :
  dispatch env c t w = Ok (u, w') ->
  (this (store w') = this (store w) /\ WETH (store w') = WETH (store w) /\
   provider (store w') = provider (store w) /\
   lendingPool (store w') = lendingPool (store w) /\
   uniswapRouter (store w') = uniswapRouter (store w)) /\
  paused (store w') = paused (store w) /\
  (entered (store w) = false -> entered (store w') = false) /\
  (owner (store w') = owner (store w) \/ msg_sender c = owner (store w)) /\
  (minProfitBps (store w') = minProfitBps (store w) \/
   msg_sender c = owner (store w) /\ 0 < minProfitBps (store w') < MAX_BPS) /\
  (maxSlippage (store w') = maxSlippage (store w) \/
   msg_sender c = owner (store w) /\ 0 < maxSlippage (store w') < MAX_BPS) /\
  (maxPriceDeviation (store w') = maxPriceDeviation (store w) \/
   msg_sender c = owner (store w) /\ 0 < maxPriceDeviation (store w') < MAX_BPS) /\
  (maxFlashLoanAmount (store w') = maxFlashLoanAmount (store w) \/
   msg_sender c = owner (store w) /\ 0 < maxFlashLoanAmount (store w') <= MAX_UINT256) /\
  (intermediateToken (store w') = intermediateToken (store w) \/
   msg_sender c = owner (store w) /\ intermediateToken (store w') <> 0).
Proof.
  destruct t; cbn [dispatch]; intros H.
  - apply bind_Ok in H. destruct H as (u0 & w0 & Ha & H).
    apply abi_uint_Ok in Ha. destruct Ha as [-> _].
    apply initiateFlashLoan_frame in H. intuition congruence.
  - apply bind_Ok in H. destruct H as (u0 & w0 & Ha & H).
    apply abi_uint_Ok in Ha. destruct Ha as [-> _].
    apply bind_Ok in H. destruct H as (u1 & w0 & Ha & H).
    apply abi_uint_Ok in Ha. destruct Ha as [-> _].
    apply bind_Ok in H. destruct H as (b & w1 & Hop & H).
    unfold ret in H. inversion H; subst w1; clear H.
    apply executeOperation_Ok in Hop.
    destruct Hop as (_ & _ & w1 & Hcore & _ & _ & Hgas & ->).
    apply executeArbitrage_Ok in Hcore.
    destruct Hcore as (m1 & ia & e1 & m2 & fa & e2 & _ & _ & _ & _ & _ & Hge & _ & ->).
    cbn. tauto.
  - apply bind_Ok in H. destruct H as (u0 & w0 & Ha & H).
    apply abi_uint_Ok in Ha. destruct Ha as [-> _].
    apply bind_Ok in H. destruct H as (u1 & w0 & Ha & H).
    apply abi_uint_Ok in Ha. destruct Ha as [-> _].
    apply bind_Ok in H. destruct H as (b & w1 & Hcore & H).
    unfold ret in H. inversion H; subst w1; clear H.
    apply executeArbitrage_Ok in Hcore.
    destruct Hcore as (m1 & ia & e1 & m2 & fa & e2 & _ & _ & _ & _ & _ & Hge & _ & ->).
    cbn. tauto.
  - apply bind_Ok in H. destruct H as (u0 & w0 & Ha & H).
    apply abi_uint_Ok in Ha. destruct Ha as [-> Hr].
    unfold setMaxFlashLoanAmount in H.
    apply bind_Ok in H. destruct H as (u1 & w0 & Ho & H).
    apply onlyOwner_caller in Ho. destruct Ho as [-> Ho].
    destruct (Z.eqb_spec newAmount 0); [discriminate H|].
    apply sstore_Ok in H. subst w'. cbn.
    assert (2 ^ 256 = MAX_UINT256 + 1) by reflexivity.
    repeat split; auto. right. split; [exact Ho | lia].
  - apply bind_Ok in H. destruct H as (u0 & w0 & Ha & H).
    apply abi_uint_Ok in Ha. destruct Ha as [-> Hr].
    unfold setMinProfitBps in H.
    apply bind_Ok in H. destruct H as (u1 & w0 & Ho & H).
    apply onlyOwner_caller in Ho. destruct Ho as [-> Ho].
    destruct (Z.eqb_spec newBps 0); [discriminate H|].
    destruct (Z.leb_spec MAX_BPS newBps); [discriminate H|]. cbn [orb] in H.
    apply sstore_Ok in H. subst w'. cbn.
    repeat split; auto. right. split; [exact Ho | lia].
  - apply bind_Ok in H. destruct H as (u0 & w0 & Ha & H).
    apply abi_uint_Ok in Ha. destruct Ha as [-> Hr].
    unfold setMaxPriceDeviation in H.
    apply bind_Ok in H. destruct H as (u1 & w0 & Ho & H).
    apply onlyOwner_caller in Ho. destruct Ho as [-> Ho].
    destruct (Z.eqb_spec newDeviation 0); [discriminate H|].
    destruct (Z.leb_spec MAX_BPS newDeviation); [discriminate H|]. cbn [orb] in H.
    apply sstore_Ok in H. subst w'. cbn.
    repeat split; auto. right. split; [exact Ho | lia].
  - apply bind_Ok in H. destruct H as (u0 & w0 & Ha & H).
    apply abi_uint_Ok in Ha. destruct Ha as [-> Hr].
    unfold setMaxSlippage in H.
    apply bind_Ok in H. destruct H as (u1 & w0 & Ho & H).
    apply onlyOwner_caller in Ho. destruct Ho as [-> Ho].
    destruct (Z.eqb_spec newSlippage 0); [discriminate H|].
    destruct (Z.leb_spec MAX_BPS newSlippage); [discriminate H|]. cbn [orb] in H.
    apply sstore_Ok in H. subst w'. cbn.
    repeat split; auto. right. split; [exact Ho | lia].
  - unfold setIntermediateToken in H.
    apply bind_Ok in H. destruct H as (u1 & w0 & Ho & H).
    apply onlyOwner_caller in Ho. destruct Ho as [-> Ho].
    destruct (Z.eqb_spec token 0); [discriminate H|].
    apply sstore_Ok in H. subst w'. cbn. repeat split; auto.
  - unfold transferOwnership in H.
    apply bind_Ok in H. destruct H as (u1 & w0 & Ho & H).
    apply onlyOwner_caller in Ho. destruct Ho as [-> Ho].
    destruct (newOwner =? 0); [discriminate H|].
    apply sstore_Ok in H. subst w'. cbn. repeat split; auto.
  - unfold renounceOwnership in H.
    apply bind_Ok in H. destruct H as (u1 & w0 & Ho & H).
    apply onlyOwner_caller in Ho. destruct Ho as [-> Ho].
    apply sstore_Ok in H. subst w'. cbn. repeat split; auto.
  - unfold emergencyWithdraw in H.
    apply bind_Ok in H. destruct H as (u1 & w0 & Ho & H).
    apply onlyOwner_caller in Ho. destruct Ho as [-> Ho].
    apply bind_Ok in H. destruct H as (r & w0 & Hl & H).
    apply sload_Ok in Hl. destruct Hl as [-> ->].
    destruct (entered (store w)); [discriminate H|].
    apply bind_Ok in H. destruct H as (u2 & w0 & Hl & H).
    apply sstore_Ok in Hl. subst w0.
    destruct (token =? 0); [discriminate H|].
    destruct (to =? 0); [discriminate H|].
    apply bind_Ok in H. destruct H as (me & w0 & Hl & H).
    apply sload_Ok in Hl. destruct Hl as [-> ->].
    apply bind_Ok in H. destruct H as (bal & w0 & Hl & H).
    apply gets_Ok in Hl. destruct Hl as [-> ->].
    match type of H with (if ?b then _ else _) _ = _ => destruct b end;
      [discriminate H|].
    apply bind_Ok in H. destruct H as (u3 & w0 & Hl & H).
    apply call__Ok in Hl. destruct Hl as (e' & _ & ->).
    apply sstore_Ok in H. subst w'. cbn. repeat split; auto.
  - unfold ret in H. inversion H; subst. repeat split; auto.
Qed.

End Configuration.

Section Governance.

Import FlashLoan.
Context {Ext : Type} (env : Env Ext).
Implicit Types (w : World Ext) (c : Call).

Lemma step_cases c t w :
  step env c t w = w \/
  exists u w', dispatch env c t w = Ok (u, w') /\ step env c t w = w'.
Proof.
  unfold step, run_tx.
  destruct (dispatch env c t w) as [[u w']|e]; cbn [fst]; eauto.
Qed.

Lemma onlyOwner_denies c w :
  msg_sender c <> owner (store w) ->
  onlyOwner c w = Revert (Error "Ownable: caller is not the owner").
Proof.
  intros H. unfold onlyOwner, bind, sload, gets.
  destruct (Z.eqb_spec (msg_sender c) (owner (store w))); [contradiction|reflexivity].
Qed.

(** X1.  Nobody but the owner configures the contract: the five setters
    and [emergencyWithdraw] turn every other caller away with Ownable's
    message, and no transaction of another caller, whatever it is,
    changes the owner, the loan ceiling, the profit floor, the two
    tolerances or the intermediate token. *)
Theorem only_the_owner_configures c w :
  msg_sender c <> owner (store w) ->
  (forall v, setMaxFlashLoanAmount c v w
             = Revert (Error "Ownable: caller is not the owner")) /\
  (forall v, setMinProfitBps c v w = Revert (Error "Ownable: caller is not the owner")) /\
  (forall v, setMaxPriceDeviation c v w
             = Revert (Error "Ownable: caller is not the owner")) /\
  (forall v, setMaxSlippage c v w = Revert (Error "Ownable: caller is not the owner")) /\
  (forall token, setIntermediateToken c token w
                 = Revert (Error "Ownable: caller is not the owner")) /\
  (forall token to, emergencyWithdraw env c token to w
                    = Revert (Error "Ownable: caller is not the owner")) /\
  (forall t,
      let s' := store (step env c t w) in
      owner s' = owner (store w) /\
      maxFlashLoanAmount s' = maxFlashLoanAmount (store w) /\
      minProfitBps s' = minProfitBps (store w) /\
      maxPriceDeviation s' = maxPriceDeviation (store w) /\
      maxSlippage s' = maxSlippage (store w) /\
      intermediateToken s' = intermediateToken (store w)).
Proof.
  intros H. pose proof (onlyOwner_denies c w H) as D.
  repeat split;
    try (intros; unfold setMaxFlashLoanAmount, setMinProfitBps, setMaxPriceDeviation,
           setMaxSlippage, setIntermediateToken, emergencyWithdraw;
         unfold bind at 1; rewrite D; reflexivity);
    destruct (step_cases c t w) as [->|(u & w' & E & ->)]; try reflexivity;
    apply dispatch_frame in E; tauto.
Qed.

(** X2.  The configuration stays in range in every state the contract
    can reach: profit floor, slippage and price tolerance strictly
    between 0 and 10000 basis points, and a loan ceiling that is not 0. *)
Theorem configuration_stays_in_range w :
  reachable env w ->
  0 < minProfitBps (store w) < MAX_BPS /\
  0 < maxSlippage (store w) < MAX_BPS /\
  0 < maxPriceDeviation (store w) < MAX_BPS /\
  0 < maxFlashLoanAmount (store w) <= MAX_UINT256.
Proof.
  induction 1 as [s e D|w c t R IH|w e' R IH]; cbn [store].
  - destruct D as (deployer & self & pool & prov & router & weth & maxAmount & bps
                   & Ha & Hb & H).
    unfold constructor in H.
    destruct (Z.eqb_spec maxAmount 0); [discriminate H|].
    destruct (Z.eqb_spec bps 0); [discriminate H|].
    destruct (Z.leb_spec MAX_BPS bps); [discriminate H|]. cbn [orb] in H.
    repeat match type of H with
           | (if ?b then _ else _) = _ => destruct b; [discriminate H|]
           end.
    inversion H; subst s; cbn [minProfitBps maxSlippage maxPriceDeviation maxFlashLoanAmount]. unfold MAX_BPS in *. lia.
  - destruct (step_cases c t w) as [->|(u & w' & E & ->)]; [exact IH|].
    apply dispatch_frame in E.
    destruct E as (_ & _ & _ & _ & [->|[_ ?]] & [->|[_ ?]] & [->|[_ ?]] & [->|[_ ?]] & _);
      tauto.
  - exact IH.
Qed.

(** X3.  Between transactions the reentrancy lock is free: every entry
    point that takes it releases it or reverts. *)
Theorem lock_is_free_between_transactions w :
  reachable env w -> entered (store w) = false.
Proof.
  induction 1 as [s e D|w c t R IH|w e' R IH]; cbn [store].
  - destruct D as (deployer & self & pool & prov & router & weth & maxAmount & bps
                   & Ha & Hb & H).
    unfold constructor in H.
    repeat match type of H with
           | (if ?b then _ else _) = _ => destruct b; [discriminate H|]
           end.
    inversion H; subst s. reflexivity.
  - destruct (step_cases c t w) as [->|(u & w' & E & ->)]; [exact IH|].
    apply dispatch_frame in E. tauto.
  - exact IH.
Qed.

(** X4.  No transaction changes the contract's own address, [WETH],
    the provider, the lending pool or the router, and none sets the
    pause flag: a deployed contract is never paused, so [whenNotPaused]
    never turns a call away. *)
Theorem never_paused_and_immutables_fixed :
  (forall c t w,
      let s' := store (step env c t w) in
      this s' = this (store w) /\ WETH s' = WETH (store w) /\
      provider s' = provider (store w) /\ lendingPool s' = lendingPool (store w) /\
      uniswapRouter s' = uniswapRouter (store w) /\ paused s' = paused (store w)) /\
  (forall w, reachable env w -> paused (store w) = false).
Proof.
  assert (S : forall c t w,
      let s' := store (step env c t w) in
      this s' = this (store w) /\ WETH s' = WETH (store w) /\
      provider s' = provider (store w) /\ lendingPool s' = lendingPool (store w) /\
      uniswapRouter s' = uniswapRouter (store w) /\ paused s' = paused (store w)).
  { intros c t w. cbv zeta.
    destruct (step_cases c t w) as [->|(u & w' & E & ->)]; [tauto|].
    apply dispatch_frame in E. tauto. }
  split; [exact S|].
  induction 1 as [s e D|w c t R IH|w e' R IH]; cbn [store].
  - destruct D as (deployer & self & pool & prov & router & weth & maxAmount & bps
                   & Ha & Hb & H).
    unfold constructor in H.
    repeat match type of H with
           | (if ?b then _ else _) = _ => destruct b; [discriminate H|]
           end.
    inversion H; subst s. reflexivity.
  - destruct (S c t w) as (_ & _ & _ & _ & _ & ->). exact IH.
  - exact IH.
Qed.


End Governance.

Section Helpers.

Import FlashLoan.
Context {Ext : Type} (env : Env Ext).
Implicit Types (w : World Ext) (c : Call).

(** X6.  [_calculateSlippage] on unsigned amounts: 0 when the actual
    amount is not below the expected one (so it never divides by zero),
    else the shortfall in basis points rounded down, between 0 and
    10000; it panics exactly when the shortfall times 10000 does not fit
    in 256 bits.  It never changes the state. *)
Theorem calculateSlippage_in_basis_points expected actual w :
  0 <= actual -> 0 <= expected ->
  (expected <= actual -> _calculateSlippage expected actual w = Ok (0, w)) /\
  (actual < expected -> (expected - actual) * MAX_BPS <= MAX_UINT256 ->
   exists v,
     _calculateSlippage expected actual w = Ok (v, w) /\
     0 <= v <= MAX_BPS /\
     v * expected <= (expected - actual) * MAX_BPS < (v + 1) * expected) /\
  (actual < expected -> MAX_UINT256 < (expected - actual) * MAX_BPS ->
   _calculateSlippage expected actual w = Revert (Panic ARITHMETIC)).
Proof.
  intros Ha He. unfold _calculateSlippage. repeat split.
  - intros H. destruct (Z.leb_spec expected actual); [reflexivity | lia].
  - intros H Hfit. destruct (Z.leb_spec expected actual); [lia|].
    unfold bind, lift, checked_sub, checked_mul, checked_div.
    destruct (Z.leb_spec actual expected); [|lia].
    destruct (Z.leb_spec ((expected - actual) * MAX_BPS) MAX_UINT256); [|lia].
    destruct (Z.eqb_spec expected 0); [lia|].
    eexists. split; [reflexivity|]. unfold MAX_BPS in *.
    pose proof (Z.div_mod ((expected - actual) * 10000) expected ltac:(lia)) as Hdm.
    pose proof (Z.mod_pos_bound ((expected - actual) * 10000) expected ltac:(lia)) as Hm.
    assert (0 <= (expected - actual) * 10000 / expected)
      by (apply Z.div_pos; lia).
    assert ((expected - actual) * 10000 / expected <= 10000).
    { apply Z.div_le_upper_bound; lia. }
    repeat split; try lia; nia.
  - intros H Hover. destruct (Z.leb_spec expected actual); [lia|].
    unfold bind, lift, checked_sub, checked_mul.
    destruct (Z.leb_spec actual expected); [|lia].
    destruct (Z.leb_spec ((expected - actual) * MAX_BPS) MAX_UINT256); [lia|].
    reflexivity.
Qed.

(** X7.  [emergencyWithdraw] sends the contract's whole balance of the
    token, nothing less: it goes through only for the owner, a token and
    a recipient that are not zero and a balance that is not zero, with
    one [transfer] of that balance, and leaves the storage as it was
    (the lock is released again); with nothing to withdraw it reverts
    with [InvalidAmount(0, "No tokens to withdraw")]. *)
Theorem emergencyWithdraw_sweeps_the_balance c token to w :
  let me := this (store w) in
  let balance := balanceOf env (ext w) token me in
  (forall u w',
      emergencyWithdraw env c token to w = Ok (u, w') ->
      msg_sender c = owner (store w) /\ token <> 0 /\ to <> 0 /\ balance <> 0 /\
      transfer env (ext w) token me to balance = Ok (ext w') /\
      store w' = store w) /\
  (msg_sender c = owner (store w) -> entered (store w) = false ->
   token <> 0 -> to <> 0 ->
   (balance = 0 ->
    emergencyWithdraw env c token to w
    = Revert (InvalidAmount 0 "No tokens to withdraw")) /\
   (balance <> 0 ->
    forall e', transfer env (ext w) token me to balance = Ok e' ->
               emergencyWithdraw env c token to w = Ok (tt, mkWorld (store w) e'))).
Proof.
  cbv zeta. split.
  - intros u w' H. unfold emergencyWithdraw in H.
    apply bind_Ok in H. destruct H as (u1 & w0 & Ho & H).
    apply onlyOwner_caller in Ho. destruct Ho as [-> Ho].
    apply bind_Ok in H. destruct H as (r & w0 & Hl & H).
    apply sload_Ok in Hl. destruct Hl as [-> ->].
    destruct (entered (store w)) eqn:Hent; [discriminate H|].
    apply bind_Ok in H. destruct H as (u2 & w0 & Hl & H).
    apply sstore_Ok in Hl. subst w0.
    destruct (Z.eqb_spec token 0); [discriminate H|].
    destruct (Z.eqb_spec to 0); [discriminate H|].
    apply bind_Ok in H. destruct H as (me & w0 & Hl & H).
    apply sload_Ok in Hl. destruct Hl as [-> ->].
    apply bind_Ok in H. destruct H as (bal & w0 & Hl & H).
    apply gets_Ok in Hl. destruct Hl as [-> ->]. cbn [store ext set_entered this] in H.
    destruct (Z.eqb_spec (balanceOf env (ext w) token (this (store w))) 0);
      [discriminate H|].
    apply bind_Ok in H. destruct H as (u3 & w0 & Hl & H).
    apply call__Ok in Hl. cbn [store ext] in Hl. destruct Hl as (e' & Ht & ->).
    apply sstore_Ok in H. subst w'. cbn [store ext].
    repeat split; auto.
    clear - Hent. destruct w as [s e]. destruct s. cbn in *. subst. reflexivity.
  - intros Ho Hent Ht Hto.
    unfold emergencyWithdraw, onlyOwner, bind, sload, gets, sstore, modify, call_,
      ret, revert.
    rewrite Ho, Z.eqb_refl, Hent.
    destruct (Z.eqb_spec token 0); [contradiction|].
    destruct (Z.eqb_spec to 0); [contradiction|].
    cbn [store ext set_entered this].
    split.
    + intros Hb. rewrite Hb. reflexivity.
    + intros Hb e' Htr.
      destruct (Z.eqb_spec (balanceOf env (ext w) token (this (store w))) 0);
        [contradiction|].
      cbn [store ext]. rewrite Htr. cbn [store ext]. f_equal. f_equal. f_equal.
      clear - Hent. destruct w as [s e]. destruct s. cbn in *. subst. reflexivity.
Qed.

End Helpers.

Section Router.

Import FlashLoan Mocks.

Lemma amounts_along_shape e rest : forall amountIn tokenIn amounts,
  amounts_along e amountIn tokenIn rest = Ok amounts ->
  List.length amounts = S (List.length rest) /\ hd 0 amounts = amountIn.
Proof.
  induction rest as [|tokenOut rest IH]; intros amountIn tokenIn amounts H;
    cbn [amounts_along] in H.
  - inversion H. auto.
  - destruct (Z.leb_spec (exchangeRates e tokenIn tokenOut) 0); [discriminate H|].
    destruct (checked_mul amountIn (exchangeRates e tokenIn tokenOut)) as [p|r];
      [|discriminate H].
    destruct (amounts_along e (p / ONE_ETHER) tokenOut rest) as [l|r] eqn:E;
      [|discriminate H].
    inversion H. cbn. apply IH in E. destruct E as [-> _]. auto.
Qed.

Lemma amounts_along_hops e rest : forall amountIn tokenIn amounts i,
  amounts_along e amountIn tokenIn rest = Ok amounts ->
  (i < List.length rest)%nat ->
  let rate := exchangeRates e (nth i (tokenIn :: rest) 0) (nth (S i) (tokenIn :: rest) 0) in
  0 < rate /\
  nth i amounts 0 * rate <= MAX_UINT256 /\
  nth (S i) amounts 0 = nth i amounts 0 * rate / ONE_ETHER.
Proof.
  induction rest as [|tokenOut rest IH]; intros amountIn tokenIn amounts i H Hi;
    [cbn [List.length] in Hi; lia|].
  cbn [amounts_along] in H.
  destruct (Z.leb_spec (exchangeRates e tokenIn tokenOut) 0) as [|Hr]; [discriminate H|].
  destruct (checked_mul amountIn (exchangeRates e tokenIn tokenOut)) as [p|r] eqn:Em;
    [|discriminate H].
  apply checked_mul_Ok in Em. destruct Em as [-> Hfit].
  destruct (amounts_along e (amountIn * exchangeRates e tokenIn tokenOut / ONE_ETHER)
                          tokenOut rest) as [l|r] eqn:E; [|discriminate H].
  inversion H; subst amounts; clear H.
  destruct i as [|i].
  - cbn [nth]. apply amounts_along_shape in E as S. destruct S as [_ Hh].
    destruct l as [|x l]; cbn [hd nth] in Hh |- *; subst; auto.
  - cbn [nth]. apply (IH _ tokenOut l i E). cbn [List.length] in Hi. lia.
Qed.

(** X8.  [getAmountsOut] of the mock router along a path of any
    length: a path has at least two tokens, there is one amount per
    token, the first is the amount put in, and every hop has a rate that
    is set and turns its amount into [amount * rate / 1e18] without
    overflow. *)
Theorem getAmountsOut_follows_the_path e amountIn path amounts :
  getAmountsOut e amountIn path = Ok amounts ->
  (2 <= List.length path)%nat /\
  List.length amounts = List.length path /\
  nth 0 amounts 0 = amountIn /\
  forall i, (S i < List.length path)%nat ->
    let rate := exchangeRates e (nth i path 0) (nth (S i) path 0) in
    0 < rate /\
    nth i amounts 0 * rate <= MAX_UINT256 /\
    nth (S i) amounts 0 = nth i amounts 0 * rate / ONE_ETHER.
Proof.
  destruct path as [|tokenIn [|tokenOut rest]]; try discriminate.
  cbn [getAmountsOut]. intros H.
  pose proof (@amounts_along_shape e _ amountIn tokenIn amounts H) as [Hl Hh].
  split; [cbn [List.length]; lia|]. split; [rewrite Hl; reflexivity|].
  split; [destruct amounts; exact Hh|].
  intros i Hi. apply (@amounts_along_hops e _ amountIn tokenIn amounts i H). cbn [List.length] in *. lia.
Qed.

Lemma getAmountsOut_two_tokens e amountIn tokenIn tokenOut :
  getAmountsOut e amountIn [tokenIn; tokenOut]
  = match quote e amountIn tokenIn tokenOut with
    | Ok out => Ok [amountIn; out]
    | Revert r => Revert r
    end.
Proof.
  cbn [getAmountsOut amounts_along]. unfold quote.
  destruct (exchangeRates e tokenIn tokenOut <=? 0); [reflexivity|].
  destruct (checked_mul amountIn (exchangeRates e tokenIn tokenOut)); reflexivity.
Qed.

Lemma quote_Ok e amountIn tokenIn tokenOut out :
  quote e amountIn tokenIn tokenOut = Ok out ->
  0 < exchangeRates e tokenIn tokenOut /\
  amountIn * exchangeRates e tokenIn tokenOut <= MAX_UINT256 /\
  out = amountIn * exchangeRates e tokenIn tokenOut / ONE_ETHER.
Proof.
  unfold quote. intros H.
  destruct (Z.leb_spec (exchangeRates e tokenIn tokenOut) 0); [discriminate H|].
  destruct (checked_mul amountIn (exchangeRates e tokenIn tokenOut)) as [p|r] eqn:Em;
    [|discriminate H].
  apply checked_mul_Ok in Em. destruct Em as [-> Hfit].
  inversion H. auto.
Qed.

(** X9.  The profit [_calculateEstimatedProfit] announces at the mock
    router is never invented by rounding: what comes back after both
    legs is at most [amount * there * back / 1e36], so the estimate is 0
    whenever the two rates multiply to 1 or less. *)
Theorem estimated_profit_is_not_invented asset amount (w : World Chain) est w' :
  0 <= amount ->
  _calculateEstimatedProfit Mocks.env asset amount w = Ok (est, w') ->
  let inter := intermediateToken (store w) in
  let there := exchangeRates (ext w) asset inter in
  let back := exchangeRates (ext w) inter asset in
  w' = w /\ 0 <= est /\
  (amount + est) * (ONE_ETHER * ONE_ETHER) <= Z.max (amount * (there * back))
                                                   (amount * (ONE_ETHER * ONE_ETHER)) /\
  (there * back <= ONE_ETHER * ONE_ETHER -> est = 0).
Proof.
  intros Ha H. cbv zeta. unfold _calculateEstimatedProfit in H.
  apply bind_Ok in H. destruct H as (inter & w0 & Hl & H).
  apply sload_Ok in Hl. destruct Hl as [-> ->].
  apply bind_Ok in H. destruct H as (q1 & w0 & Hl & H).
  apply staticcall_Ok in Hl. destruct Hl as [H1 ->].
  apply bind_Ok in H. destruct H as (q2 & w0 & Hl & H).
  apply staticcall_Ok in Hl. destruct Hl as [H2 ->].
  cbn [getAmountsOut Mocks.env] in H1, H2.
  apply quote_Ok in H1. destruct H1 as (Hr1 & _ & ->).
  apply quote_Ok in H2. destruct H2 as (Hr2 & _ & ->).
  set (r1 := exchangeRates (ext w) asset (intermediateToken (store w))) in *.
  set (r2 := exchangeRates (ext w) (intermediateToken (store w)) asset) in *.
  set (q1 := amount * r1 / ONE_ETHER) in *.
  set (q2 := q1 * r2 / ONE_ETHER) in *.
  assert (E : 0 < ONE_ETHER) by reflexivity.
  assert (B1 : 0 <= q1 /\ q1 * ONE_ETHER <= amount * r1).
  { unfold q1. split; [apply Z.div_pos; nia|].
    rewrite Z.mul_comm. apply Z.mul_div_le. exact E. }
  assert (B2 : 0 <= q2 /\ q2 * ONE_ETHER <= q1 * r2).
  { unfold q2. split; [apply Z.div_pos; nia|].
    rewrite Z.mul_comm. apply Z.mul_div_le. exact E. }
  assert (B : q2 * (ONE_ETHER * ONE_ETHER) <= amount * (r1 * r2)).
  { destruct B1 as [? B1], B2 as [? B2].
    apply Z.le_trans with (q1 * r2 * ONE_ETHER); [nia|].
    apply Z.le_trans with (amount * r1 * r2); [|nia].
    replace (q1 * r2 * ONE_ETHER) with (q1 * ONE_ETHER * r2) by ring.
    apply Z.mul_le_mono_nonneg_r; lia. }
  destruct (Z.ltb_spec amount q2) as [Hlt|Hge].
  - apply lift_Ok in H. destruct H as [H ->].
    apply checked_sub_Ok in H. destruct H as [-> _].
    split; [reflexivity|]. split; [lia|]. split.
    + replace (amount + (q2 - amount)) with q2 by ring. lia.
    + intros Hno. exfalso.
      assert (amount * (r1 * r2) <= amount * (ONE_ETHER * ONE_ETHER))
        by (apply Z.mul_le_mono_nonneg_l; lia).
      assert (amount * (ONE_ETHER * ONE_ETHER) < q2 * (ONE_ETHER * ONE_ETHER))
        by (apply Z.mul_lt_mono_pos_r; [reflexivity | lia]).
      lia.
  - unfold ret in H. inversion H; subst. split; [reflexivity|]. split; [lia|].
    split; [lia | reflexivity].
Qed.

End Router.

(** * Further properties of the scripts *)

Section Scanning.

Import Js Detector.
Local Close Scope Z_scope.

(** X10.  [checkArbitrageOpportunity] never logs an opportunity and
    never reports a high price impact: whenever the divergence passes
    the floor and [calculateProfit] reports details, the call of
    [calculatePriceImpact] throws (it adds a BigInt to a Number, if
    [parseUnits] has not thrown before) and the pass ends in the [catch]
    block. *)
Theorem checkArbitrageOpportunity_never_logs unitsToNumber parseUnits gas dec r0 r1 s0 s1 :
  let out := checkArbitrageOpportunity unitsToNumber parseUnits gas dec r0 r1 s0 s1 in
  (forall details diff liquidity, out <> Logged details diff liquidity) /\
  (forall impact, out <> HighPriceImpact impact) /\
  (forall details,
      (r0 =? 0)%Z || (r1 =? 0)%Z || (s0 =? 0)%Z || (s1 =? 0)%Z = false ->
      strict_eq (priceDecimal r0 r1) 0 || strict_eq (priceDecimal s0 s1) 0
      || negb (isFinite (priceDecimal r0 r1)) || negb (isFinite (priceDecimal s0 s1))
      = false ->
      gt (priceDiff (priceDecimal r0 r1) (priceDecimal s0 s1)) 0.1 = true ->
      calculateProfit unitsToNumber (priceDecimal r0 r1) (priceDecimal s0 s1) gas dec r0 s0
      = Some details ->
      exists e, out = Caught e).
Proof.
  cbv zeta. unfold checkArbitrageOpportunity.
  destruct ((r0 =? 0)%Z || (r1 =? 0)%Z || (s0 =? 0)%Z || (s1 =? 0)%Z);
    [repeat split; try discriminate|].
  destruct (strict_eq (priceDecimal r0 r1) 0 || strict_eq (priceDecimal s0 s1) 0
            || negb (isFinite (priceDecimal r0 r1))
            || negb (isFinite (priceDecimal s0 s1)));
    [repeat split; try discriminate|].
  destruct (gt (priceDiff (priceDecimal r0 r1) (priceDecimal s0 s1)) 0.1);
    [|repeat split; try discriminate].
  destruct (calculateProfit _ _ _ _ _ _ _) as [det|] eqn:Ep;
    [|repeat split; try discriminate].
  assert (G : gt (profit det) 5 = true).
  { unfold calculateProfit in Ep. cbv zeta in Ep.
    match type of Ep with (if ?a && ?b && ?c then _ else _) = _ =>
      destruct a eqn:A; [|discriminate Ep]; destruct b; [|discriminate Ep];
      destruct c; [|discriminate Ep] end.
    cbn [andb] in Ep. inversion Ep. cbn [profit]. exact A. }
  rewrite G.
  destruct (calculatePriceImpact_throws parseUnits (optimalSize det) (of_BigInt r0)
              (of_BigInt r1) dec) as [e ->].
  repeat split; try discriminate.
  intros details _ _ _ _. eauto.
Qed.

End Scanning.

Section Execution.

Import Js Orchestrator.
Local Close Scope Z_scope.
Context (unitsToNumber : Z -> Z -> float).

(** With the gas spent a BigInt, a trade leaves [totalGasSpent] and
    [profitByPair] alone as long as [totalGasSpent] is a number, and a
    successful one then throws. *)
Lemma updateExecutionStats_gas_in_BigInt trade now st n x :
  gasSpent trade = BigInt n -> totalGasSpent st = Number x ->
  let r := updateExecutionStats trade now st in
  totalGasSpent (fst r) = Number x /\
  profitByPair (fst r) = profitByPair st /\
  (success trade = true -> exists e, snd r = Throw e) /\
  (success trade = false -> snd r = Normal tt).
Proof.
  intros Hg Ht. unfold updateExecutionStats. cbv zeta.
  destruct (success trade).
  - cbn [totalProfit totalGasSpent].
    destruct (add (totalProfit st) (profit trade)) as [p|e].
    + cbn [totalGasSpent]. rewrite Hg, Ht. cbn.
      repeat split; eauto; discriminate.
    + cbn. repeat split; eauto; discriminate.
  - cbn. repeat split; auto; discriminate.
Qed.

Lemma updateExecutionStats_errors trade now st :
  let st' := fst (updateExecutionStats trade now st) in
  ((List.length (recentErrors st) <= 10)%nat ->
   (List.length (recentErrors st') <= 10)%nat) /\
  (success trade = true -> recentErrors st' = recentErrors st) /\
  (success trade = false ->
   last (recentErrors st') (mkErrorEntry 0 "") = mkErrorEntry now (pair trade) /\
   ((List.length (recentErrors st) < 10)%nat ->
    recentErrors st' = recentErrors st ++ [mkErrorEntry now (pair trade)]) /\
   ((10 <= List.length (recentErrors st))%nat ->
    recentErrors st' = tl (recentErrors st) ++ [mkErrorEntry now (pair trade)])).
Proof.
  cbv zeta. unfold updateExecutionStats. cbv zeta.
  destruct (success trade).
  - cbn [totalProfit totalGasSpent recentErrors profitByPair].
    destruct (add (totalProfit st) (profit trade)) as [p|e];
      [|cbn; repeat split; auto; discriminate].
    cbn [totalGasSpent].
    destruct (add (totalGasSpent st) (gasSpent trade)) as [g|e];
      [|cbn; repeat split; auto; discriminate].
    cbn [profitByPair].
    match goal with |- context [add ?a ?b] => destruct (add a b) end;
      cbn; repeat split; auto; discriminate.
  - cbn [fst recentErrors].
    set (errors := recentErrors st ++ [mkErrorEntry now (pair trade)]).
    assert (L : List.length errors = S (List.length (recentErrors st))).
    { unfold errors. rewrite length_app. cbn. lia. }
    destruct (Nat.ltb_spec 10 (List.length errors)) as [Hlong|Hshort].
    + split; [|split; [discriminate|]].
      * intros H. destruct errors; cbn in *; lia.
      * intros _. split; [|split].
        -- unfold errors. destruct (recentErrors st) as [|x l]; [cbn in *; lia|].
           cbn [app tl]. apply last_last.
        -- intros H. lia.
        -- intros H. unfold errors. destruct (recentErrors st); [cbn in *; lia|].
           reflexivity.
    + split; [|split; [discriminate|]].
      * intros H. lia.
      * intros _. split; [|split].
        -- unfold errors. apply last_last.
        -- reflexivity.
        -- intros H. lia.
Qed.

(** What one call does to the statistics and what it answers. *)
Lemma executeArbitrage_stats pairName opportunity io now bot x :
  totalGasSpent (executionStats bot) = Number x ->
  let r := executeArbitrage unitsToNumber pairName opportunity io now bot in
  snd (fst r) <> ReturnBool true /\
  totalGasSpent (executionStats (fst (fst r))) = Number x /\
  profitByPair (executionStats (fst (fst r))) = profitByPair (executionStats bot) /\
  ((List.length (recentErrors (executionStats bot)) <= 10)%nat ->
   (List.length (recentErrors (executionStats (fst (fst r)))) <= 10)%nat).
Proof.
  intros Hx. cbv zeta. unfold executeArbitrage, checkEmergencyStop.
  destruct (emergencyStopActive bot); [cbn; repeat split; auto; discriminate|].
  destruct (gt (totalLoss bot) maxLoss || gt (totalGasUsed bot) maxGasSpent);
    [cbn; repeat split; auto; discriminate|].
  destruct (gt (optimalSize opportunity) (maxPositionSize pairName));
    [cbn; repeat split; auto; discriminate|].
  destruct (lt (liquidityUSD opportunity) (minLiquidity pairName));
    [cbn; repeat split; auto; discriminate|].
  destruct io; try (cbn; repeat split; auto; discriminate).
  destruct (mul (gasPrice opportunity) (BigInt (estimatedGasUsed pairName)))
    as [spent|e] eqn:Em; [|cbn; repeat split; auto; discriminate].
  apply gasSpent_is_BigInt in Em. destruct Em as [n ->].
  set (trade := mkTrade (bundleInclusion =? 0)%Z (expectedProfit opportunity)
                        (BigInt n) pairName).
  pose proof (@updateExecutionStats_gas_in_BigInt trade now (executionStats bot) n x
                eq_refl Hx) as G.
  pose proof (updateExecutionStats_errors trade now (executionStats bot)) as E.
  cbv zeta in G, E. destruct G as (G1 & G2 & G3 & G4). destruct E as (E1 & _).
  destruct (updateExecutionStats trade now (executionStats bot)) as [stats updated].
  cbn [fst snd] in *.
  destruct (success trade) eqn:S.
  - destruct (G3 eq_refl) as [e ->]. cbn. repeat split; auto; discriminate.
  - rewrite (G4 eq_refl). cbn [negb gasSpent trade].
    cbn. repeat split; auto; discriminate.
Qed.

Lemma executeAll_stats attempts : forall bot x,
  totalGasSpent (executionStats bot) = Number x ->
  let r := executeAll unitsToNumber attempts bot in
  Forall (fun o => fst o <> ReturnBool true) (snd r) /\
  totalGasSpent (executionStats (fst r)) = Number x /\
  profitByPair (executionStats (fst r)) = profitByPair (executionStats bot) /\
  ((List.length (recentErrors (executionStats bot)) <= 10)%nat ->
   (List.length (recentErrors (executionStats (fst r))) <= 10)%nat).
Proof.
  induction attempts as [|a rest IH]; intros bot x Hx; cbv zeta.
  - cbn. repeat split; auto.
  - cbn [executeAll].
    pose proof (@executeArbitrage_stats (attempt_pair a) (attempt_opportunity a)
                  (attempt_io a) (attempt_time a) bot x Hx) as S.
    cbv zeta in S.
    destruct (executeArbitrage _ _ _ _ _ _) as [[bot1 r] log]. cbn [fst snd] in S.
    destruct S as (S1 & S2 & S3 & S4).
    specialize (IH bot1 x S2). cbv zeta in IH.
    destruct (executeAll unitsToNumber rest bot1) as [bot2 results]. cbn [fst snd] in *.
    destruct IH as (I1 & I2 & I3 & I4).
    repeat split; auto.
    congruence.
Qed.

(** X11.  [executeArbitrage] never resolves to [true]: for a bundle
    that was included, [updateExecutionStats] throws on
    [totalGasSpent += trade.gasSpent] (a Number and a BigInt) and the
    [catch] block answers [false].  So from the start of the script on,
    [totalGasSpent] stays the Number 0 and [profitByPair] stays empty. *)
Theorem executeArbitrage_never_reports_success attempts start :
  let r := executeAll unitsToNumber attempts (initialBot start) in
  Forall (fun outcome => fst outcome <> ReturnBool true) (snd r) /\
  totalGasSpent (executionStats (fst r)) = Number 0 /\
  profitByPair (executionStats (fst r)) = [].
Proof.
  cbv zeta.
  destruct (@executeAll_stats attempts (initialBot start) 0%float eq_refl)
    as (H1 & H2 & H3 & _).
  auto.
Qed.

(** X12.  [recentErrors] holds the last ten failures: it never grows
    beyond ten entries, and a failed trade is recorded without an
    exception as the newest entry, at the end, after the oldest has been
    dropped if ten were on record. *)
Theorem recentErrors_holds_the_last_ten :
  (forall attempts start,
      (List.length (recentErrors
         (executionStats (fst (executeAll unitsToNumber attempts (initialBot start)))))
       <= 10)%nat) /\
  (forall trade now st,
      success trade = false ->
      let st' := fst (updateExecutionStats trade now st) in
      snd (updateExecutionStats trade now st) = Normal tt /\
      last (recentErrors st') (mkErrorEntry 0 "") = mkErrorEntry now (pair trade) /\
      ((List.length (recentErrors st) < 10)%nat ->
       recentErrors st' = recentErrors st ++ [mkErrorEntry now (pair trade)]) /\
      ((10 <= List.length (recentErrors st))%nat ->
       recentErrors st' = tl (recentErrors st) ++ [mkErrorEntry now (pair trade)])).
Proof.
  split.
  - intros attempts start.
    destruct (@executeAll_stats attempts (initialBot start) 0%float eq_refl)
      as (_ & _ & _ & H).
    apply H. cbn. lia.
  - intros trade now st Hs. cbv zeta.
    pose proof (updateExecutionStats_errors trade now st) as E. cbv zeta in E.
    destruct E as (_ & _ & E). split; [|exact (E Hs)].
    unfold updateExecutionStats. cbv zeta. rewrite Hs. reflexivity.
Qed.

(** X13.  A bundle is sent only when the emergency stop is off, the
    size is within the position limit and the liquidity within its
    minimum, and only after it was simulated and the simulation neither
    threw nor showed a revert; it is sent once. *)
Theorem nothing_is_sent_past_the_limits pairName opportunity io now bot :
  let log := snd (executeArbitrage unitsToNumber pairName opportunity io now bot) in
  In SendBundle log ->
  checkEmergencyStop bot = (false, bot, []) /\
  gt (optimalSize opportunity) (maxPositionSize pairName) = false /\
  lt (liquidityUSD opportunity) (minLiquidity pairName) = false /\
  (io = SubmissionFails \/ exists inclusion, io = Resolved inclusion) /\
  exists rest, log = SimulateBundle :: SendBundle :: rest /\ ~ In SendBundle rest.
Proof.
  cbv zeta. unfold executeArbitrage, checkEmergencyStop.
  assert (No : forall l : list event,
             (forall e, In e l -> e <> SendBundle) -> In SendBundle l -> False).
  { intros l H Hin. exact (H _ Hin eq_refl). }
  destruct (emergencyStopActive bot);
    [cbn; intros [H|[]]; discriminate H|].
  destruct (gt (totalLoss bot) maxLoss || gt (totalGasUsed bot) maxGasSpent);
    [cbn; intros H; exfalso; repeat (destruct H as [H|H]; [discriminate H|]); exact H|].
  destruct (gt (optimalSize opportunity) (maxPositionSize pairName));
    [cbn; intros [H|[]]; discriminate H|].
  destruct (lt (liquidityUSD opportunity) (minLiquidity pairName));
    [cbn; intros [H|[]]; discriminate H|].
  assert (Sent : forall rest : list event,
             ~ In SendBundle rest ->
             forall io', (io' = SubmissionFails \/ exists inclusion, io' = Resolved inclusion) ->
             (false, bot, @nil event) = (false, bot, []) /\
             false = false /\ false = false /\
             (io' = SubmissionFails \/ exists inclusion, io' = Resolved inclusion) /\
             exists rest', SimulateBundle :: SendBundle :: rest
                           = SimulateBundle :: SendBundle :: rest' /\
                           ~ In SendBundle rest').
  { intros rest Hr io' Hio. repeat split; auto. exists rest. auto. }
  assert (F : ~ In SendBundle [Console "Error executing arbitrage:"])
    by (intros [H|[]]; discriminate H).
  destruct io.
  - cbn. intros [H|[]]. discriminate H.
  - cbn. intros [H|[H|[]]]; discriminate H.
  - cbn. intros [H|[H|[]]]; discriminate H.
  - cbn. intros _. apply Sent; auto.
  - destruct (mul (gasPrice opportunity) (BigInt (estimatedGasUsed pairName)))
      as [spent|e] eqn:Em; [|cbn; intros _; apply Sent; eauto].
    apply gasSpent_is_BigInt in Em. destruct Em as [n ->].
    destruct (updateExecutionStats _ _ _) as [stats [u|e]];
      [|cbn; intros _; apply Sent; eauto].
    cbn [success gasSpent negb].
    destruct (bundleInclusion =? 0)%Z; cbn; intros _; apply Sent; eauto.
Qed.

End Execution.

Section Feeding.

Import Js Detector.
Local Close Scope Z_scope.
Context (unitsToNumber : Z -> Z -> float) (toBigInt : float -> completion Z).

Lemma is_finite_not_nan x : is_finite x = true -> is_nan x = false.
Proof.
  unfold is_finite. destruct (is_nan x); [discriminate | reflexivity].
Qed.

Lemma not_leb_ltb a b :
  is_nan a = false -> is_nan b = false -> (a <=? b)%float = false -> (b <? a)%float = true.
Proof.
  intros Na Nb H. destruct (b <? a)%float eqn:E; [reflexivity|].
  rewrite (@not_ltb_leb a b Na Nb E) in H. discriminate H.
Qed.

(** X14.  [getPrice] answers a finite number that is 0 or positive,
    whatever the reserves: never [NaN], never an infinity, never a
    negative price; a missing or falsy reserve gives 0. *)
Theorem getPrice_is_finite_and_not_negative reserves isToken0Base :
  let price := getPrice unitsToNumber toBigInt reserves isToken0Base in
  isFinite price = true /\
  (price = 0%float \/ lt 0 price = true) /\
  (forall r, reserves = Some r ->
             Orchestrator.falsy (reserve0 r) || Orchestrator.falsy (reserve1 r) = true ->
             price = 0%float).
Proof.
  cbv zeta. unfold getPrice.
  destruct reserves as [r|]; [|repeat split; auto; discriminate].
  destruct (Orchestrator.falsy (reserve0 r) || Orchestrator.falsy (reserve1 r)) eqn:F.
  { repeat split; auto. }
  assert (T : forall x : float, isFinite x = true /\ (x = 0%float \/ lt 0 x = true) ->
              isFinite x = true /\ (x = 0%float \/ lt 0 x = true) /\
              (forall r0, Some r = Some r0 ->
                 Orchestrator.falsy (reserve0 r0) || Orchestrator.falsy (reserve1 r0)
                 = true -> x = 0%float)).
  { intros x [A B]. repeat split; auto.
    intros r0 E0 F0. inversion E0; subst r0. rewrite F in F0. discriminate F0. }
  assert (Z0 : isFinite 0 = true /\ (0%float = 0%float \/ lt 0 0 = true))
    by (split; [reflexivity | left; reflexivity]).
  destruct (as_bigint toBigInt (reserve0 r)) as [n0|e]; [|apply T, Z0].
  destruct (as_bigint toBigInt (reserve1 r)) as [n1|e]; [|apply T, Z0].
  cbv zeta.
  destruct (strict_eq _ 0); [apply T, Z0|].
  match goal with |- context [negb (isFinite ?p) || (?p <=? 0)%float] =>
    set (price := p);
    destruct (isFinite price) eqn:Fin; cbn [negb orb]; [|apply T, Z0];
    destruct (price <=? 0)%float eqn:L; [apply T, Z0|]
  end.
  apply T. split; [exact Fin|]. right. unfold lt.
  apply not_leb_ltb; auto using is_finite_not_nan.
Qed.

End Feeding.

Section Health.

Import Js Orchestrator.
Local Close Scope Z_scope.

Lemma errors_on_record n :
  (n <= 10)%nat -> gt (of_BigInt (Z.of_nat n)) 5 = (5 <? n)%nat.
Proof.
  intros H.
  do 11 (destruct n as [|n]; [vm_compute; reflexivity|]). lia.
Qed.

(** X15.  [checkBotHealth] answers [true] exactly when at least half
    of the trades succeeded and at most five errors are on record, and
    prints its warning exactly when it answers [false]; before the first
    trade the success rate counts as 0, so the bot is reported as
    unhealthy. *)
Theorem checkBotHealth_verdict startTime now st profit gas :
  totalProfit st = Number profit -> totalGasSpent st = Number gas ->
  (List.length (recentErrors st) <= 10)%nat ->
  let rate := if truthy (totalTrades st)
              then (successfulTrades st / totalTrades st * 100)%float else 0%float in
  let healthy := negb (lt rate 50) && (List.length (recentErrors st) <=? 5)%nat in
  exists report,
    checkBotHealth startTime now st = (Normal healthy, report) /\
    (In suboptimal report <-> healthy = false) /\
    (truthy (totalTrades st) = false -> healthy = false) /\
    ((5 < List.length (recentErrors st))%nat -> healthy = false).
Proof.
  intros Hp Hg Hn. cbv zeta. unfold checkBotHealth. cbv zeta.
  rewrite Hp, Hg.
  set (rate := if truthy (totalTrades st)
               then (successfulTrades st / totalTrades st * 100)%float else 0%float).
  assert (A : exists a,
             (if truthy (successfulTrades st)
              then div (Number profit) (Number (successfulTrades st))
              else Normal (Number 0)) = Normal (Number a)).
  { destruct (truthy (successfulTrades st)); cbn; eauto. }
  destruct A as [a ->]. cbn [mul div arith to_numeric toFixed bind].
  rewrite (errors_on_record Hn).
  assert (E : (5 <? List.length (recentErrors st))%nat
              = negb (List.length (recentErrors st) <=? 5)%nat).
  { destruct (Nat.ltb_spec 5 (List.length (recentErrors st)));
      destruct (Nat.leb_spec (List.length (recentErrors st)) 5); auto; lia. }
  rewrite E.
  assert (W : forall l : list event,
             (forall e, In e l -> e <> suboptimal) -> ~ In suboptimal l).
  { intros l H Hin. exact (H _ Hin eq_refl). }
  destruct (lt rate 50) eqn:R; cbn [negb andb orb].
  - eexists. split; [reflexivity|]. split; [|auto].
    split; auto. intros _. apply in_or_app. right. left. reflexivity.
  - destruct (List.length (recentErrors st) <=? 5)%nat eqn:L; cbn [negb].
    + eexists. split; [reflexivity|]. split; [|split].
      * split; [|discriminate]. intros H. exfalso. revert H. apply W.
        intros e He. cbn in He.
        repeat (destruct He as [<-|He]; [discriminate|]). destruct He.
      * intros T. exfalso. unfold rate in R. rewrite T in R. vm_compute in R.
        discriminate R.
      * intros H. apply Nat.leb_le in L. lia.
    + eexists. split; [reflexivity|]. split; [|auto].
      split; auto. intros _. apply in_or_app. right. left. reflexivity.
Qed.

End Health.

Section Book.

Import Js PriceMonitor.
Local Close Scope Z_scope.
Local Open Scope string_scope.
Local Open Scope list_scope.

(** The timestamps replaced, the rest of the price map as it is. *)
Lemma scan_ext pairName threshold xs ys :
  map (fun x => (exchange x, bid (quote x), ask (quote x))) xs
  = map (fun x => (exchange x, bid (quote x), ask (quote x))) ys ->
  scan pairName threshold xs = scan pairName threshold ys.
Proof.
  assert (A : forall buy buy' later later',
             exchange buy = exchange buy' -> ask (quote buy) = ask (quote buy') ->
             map (fun x => (exchange x, bid (quote x), ask (quote x))) later
             = map (fun x => (exchange x, bid (quote x), ask (quote x))) later' ->
             against pairName threshold buy later
             = against pairName threshold buy' later').
  { intros buy buy' later. induction later as [|s rest IH]; intros [|s' rest'] He Ha H;
      try discriminate H; [reflexivity|].
    cbn in H. inversion H. cbn [against].
    rewrite He, Ha. f_equal; [|apply IH; auto].
    repeat match goal with E : _ = _ |- _ => rewrite E; clear E end. reflexivity. }
  revert ys. induction xs as [|x xs IH]; intros [|y ys] H; try discriminate H;
    [reflexivity|].
  cbn in H. inversion H. cbn [scan]. f_equal; [apply A; auto | apply IH; auto].
Qed.

(** X16.  [findArbitrageOpportunities] never looks at the age of a
    quote: with other timestamps in the price map the opportunities are
    the same. *)
Theorem opportunities_ignore_the_age_of_quotes pairs prices minProfitPercent
        (stamp : string -> Ticker -> float) :
  findArbitrageOpportunities pairs
    (map (fun entry => (fst entry,
                        mkTicker (bid (snd entry)) (ask (snd entry))
                                 (stamp (fst entry) (snd entry)))) prices)
    minProfitPercent
  = findArbitrageOpportunities pairs prices minProfitPercent.
Proof.
  unfold findArbitrageOpportunities. cbv zeta.
  apply flat_map_ext. intros pairName. apply scan_ext.
  induction prices as [|[k t] rest IH]; [reflexivity|].
  cbn [map filter fst snd].
  destruct (endsWith k pairName); cbn [map fst snd exchange quote bid ask];
    rewrite IH; reflexivity.
Qed.

End Book.

Section Keys.

Import Js PriceMonitor.
Local Close Scope Z_scope.
Local Open Scope list_scope.
Local Open Scope string_scope.

Lemma string_length_app (a b : string) :
  String.length (a ++ b) = String.length a + String.length b.
Proof. induction a as [|ch a IH]; cbn; auto. Qed.

Lemma string_app_assoc (a b c : string) : (a ++ b) ++ c = a ++ (b ++ c).
Proof. induction a as [|ch a IH]; cbn; [reflexivity | now rewrite IH]. Qed.

Lemma substring_whole (s : string) : substring 0 (String.length s) s = s.
Proof. induction s as [|ch s IH]; cbn; [reflexivity | now rewrite IH]. Qed.

Lemma substring_after (a b : string) :
  substring (String.length a) (String.length b) (a ++ b) = b.
Proof. induction a as [|ch a IH]; cbn; [apply substring_whole | exact IH]. Qed.

Lemma substring_split (s : string) : forall k,
  k <= String.length s ->
  s = substring 0 k s ++ substring k (String.length s - k) s.
Proof.
  induction s as [|ch s IH]; intros k Hk.
  - destruct k; cbn in *; [reflexivity | lia].
  - destruct k as [|k].
    + cbn [substring append]. rewrite Nat.sub_0_r.
      change (String ch s = substring 0 (String.length (String ch s)) (String ch s)).
      now rewrite substring_whole.
    + cbn [substring append String.length Nat.sub]. f_equal. apply IH. cbn in Hk. lia.
Qed.

(** X17.  The filter [key.endsWith(pair)] accepts exactly the keys
    that have the pair as a suffix; so the quotes stored for a pair whose
    name ends with another pair's name are counted for that pair too. *)
Theorem pair_filter_matches_suffixes :
  (forall key pairName,
      endsWith key pairName = true <-> exists prefix, key = prefix ++ pairName) /\
  (forall exchangeName longer pairName,
      endsWith (key_of exchangeName (longer ++ pairName)) pairName = true).
Proof.
  assert (A : forall key pairName,
             endsWith key pairName = true <-> exists prefix, key = prefix ++ pairName).
  { intros key pairName. unfold endsWith. cbv zeta. split.
    - intros H. apply andb_prop in H. destruct H as [Hle He].
      apply Nat.leb_le in Hle. apply String.eqb_eq in He.
      exists (substring 0 (String.length key - String.length pairName) key).
      assert (Hk : String.length key - String.length pairName <= String.length key)
        by lia.
      pose proof (substring_split key Hk) as S.
      replace (String.length key - (String.length key - String.length pairName))
        with (String.length pairName) in S by lia.
      rewrite He in S. exact S.
    - intros [prefix ->]. rewrite string_length_app.
      replace (String.length prefix + String.length pairName - String.length pairName)
        with (String.length prefix) by lia.
      rewrite substring_after, String.eqb_refl.
      apply andb_true_intro. split; [apply Nat.leb_le; lia | reflexivity]. }
  split; [exact A|].
  intros exchangeName longer pairName. apply A.
  exists (exchangeName ++ "-" ++ longer). unfold key_of.
  now rewrite !string_app_assoc.
Qed.

(** [get] after [set]. *)
Lemma get_set key value prices k :
  get k (set key value prices)
  = if (key =? k)%string then Some value else get k prices.
Proof.
  induction prices as [|[k0 v0] rest IH]; cbn [set get].
  - reflexivity.
  - destruct (String.eqb_spec k0 key) as [->|Hne]; cbn [get].
    + destruct (String.eqb_spec key k); reflexivity.
    + destruct (String.eqb_spec k0 k) as [->|Hne'].
      * destruct (String.eqb_spec key k); [congruence | reflexivity].
      * exact IH.
Qed.

Section Round.

Context (fetchTicker : string -> string -> option Ticker) (k : string).

Lemma record_ticker_get pairName prices x :
  get k (record_ticker fetchTicker pairName prices x)
  = match fetchTicker x pairName with
    | Some ticker => if (key_of x pairName =? k)%string then Some ticker else get k prices
    | None => get k prices
    end.
Proof.
  unfold record_ticker. destruct (fetchTicker x pairName); [apply get_set | reflexivity].
Qed.

Lemma exchanges_stale pairName exchanges : forall prices,
  (forall x, In x exchanges -> key_of x pairName = k -> fetchTicker x pairName = None) ->
  get k (fold_left (record_ticker fetchTicker pairName) exchanges prices) = get k prices.
Proof.
  induction exchanges as [|x rest IH]; intros prices H; [reflexivity|].
  cbn [fold_left]. rewrite IH by (intros; apply H; [right|]; assumption).
  rewrite record_ticker_get.
  destruct (fetchTicker x pairName) eqn:F; [|reflexivity].
  destruct (String.eqb_spec (key_of x pairName) k) as [E|]; [|reflexivity].
  rewrite (H x (or_introl eq_refl) E) in F. discriminate F.
Qed.

Lemma exchanges_present pairName exchanges : forall prices,
  get k prices <> None ->
  get k (fold_left (record_ticker fetchTicker pairName) exchanges prices) <> None.
Proof.
  induction exchanges as [|x rest IH]; intros prices H; [exact H|].
  cbn [fold_left]. apply IH. rewrite record_ticker_get.
  destruct (fetchTicker x pairName); [|exact H].
  destruct (key_of x pairName =? k)%string; [discriminate | exact H].
Qed.

Lemma exchanges_keep ticker pairName exchanges : forall prices,
  (forall x, In x exchanges -> key_of x pairName = k ->
             fetchTicker x pairName = Some ticker \/ fetchTicker x pairName = None) ->
  get k prices = Some ticker ->
  get k (fold_left (record_ticker fetchTicker pairName) exchanges prices) = Some ticker.
Proof.
  induction exchanges as [|x rest IH]; intros prices H G; [exact G|].
  cbn [fold_left]. apply IH; [intros; apply H; [right|]; assumption|].
  rewrite record_ticker_get.
  destruct (fetchTicker x pairName) as [t|] eqn:F; [|exact G].
  destruct (String.eqb_spec (key_of x pairName) k) as [E|]; [|exact G].
  destruct (H x (or_introl eq_refl) E) as [H'|H']; congruence.
Qed.

Lemma exchanges_fresh ticker pairName exchanges x : forall prices,
  (forall x', In x' exchanges -> key_of x' pairName = k ->
              fetchTicker x' pairName = Some ticker \/ fetchTicker x' pairName = None) ->
  In x exchanges -> key_of x pairName = k -> fetchTicker x pairName = Some ticker ->
  get k (fold_left (record_ticker fetchTicker pairName) exchanges prices) = Some ticker.
Proof.
  induction exchanges as [|x0 rest IH]; intros prices H Hin Hk F; [destruct Hin|].
  cbn [fold_left]. destruct Hin as [->|Hin].
  - apply exchanges_keep; [intros; apply H; [right|]; assumption|].
    rewrite record_ticker_get, F, Hk, String.eqb_refl. reflexivity.
  - apply IH; auto. intros; apply H; [right|]; assumption.
Qed.

End Round.

(** X18.  [updatePrices] refreshes or keeps: no key of the price map
    is ever removed; a key none of whose requests was answered keeps the
    quote it had; and where keys are distinct, a request that was
    answered leaves its ticker under its key. *)
Theorem updatePrices_refreshes_or_keeps pairs exchanges fetchTicker prices :
  let after := updatePrices pairs exchanges fetchTicker prices in
  (forall k, get k prices <> None -> get k after <> None) /\
  (forall k,
      (forall pairName x, In pairName pairs -> In x exchanges ->
                          key_of x pairName = k -> fetchTicker x pairName = None) ->
      get k after = get k prices) /\
  (forall pairName x ticker,
      In pairName pairs -> In x exchanges ->
      fetchTicker x pairName = Some ticker ->
      (forall pairName' x', In pairName' pairs -> In x' exchanges ->
                            key_of x' pairName' = key_of x pairName ->
                            x' = x /\ pairName' = pairName) ->
      get (key_of x pairName) after = Some ticker).
Proof.
  cbv zeta. unfold updatePrices. split; [|split].
  - intros k. revert prices. induction pairs as [|p rest IH]; intros prices H; [exact H|].
    cbn [fold_left]. apply IH. now apply exchanges_present.
  - intros k. revert prices. induction pairs as [|p rest IH]; intros prices H;
      [reflexivity|].
    cbn [fold_left]. rewrite IH by (intros; eapply H; [right| |]; eassumption).
    apply exchanges_stale. intros x Hx. apply H; [left; reflexivity | exact Hx].
  - intros pairName x ticker Hp Hx F U.
    assert (C : forall pairName' x', In pairName' pairs -> In x' exchanges ->
                  key_of x' pairName' = key_of x pairName ->
                  fetchTicker x' pairName' = Some ticker \/
                  fetchTicker x' pairName' = None).
    { intros p' x' Hp' Hx' E. destruct (U p' x' Hp' Hx' E) as [-> ->]. auto. }
    clear U.
    assert (K : forall ps prices0,
               (forall p', In p' ps -> In p' pairs) ->
               get (key_of x pairName) prices0 = Some ticker ->
               get (key_of x pairName)
                   (fold_left (fun acc p' =>
                      fold_left (record_ticker fetchTicker p') exchanges acc) ps prices0)
               = Some ticker).
    { induction ps as [|p rest IH]; intros prices0 Hsub G; [exact G|].
      cbn [fold_left]. apply IH; [intros; apply Hsub; right; assumption|].
      apply exchanges_keep; [|exact G].
      intros x' Hx' E. apply C; auto. apply Hsub. left. reflexivity. }
    assert (G : forall ps prices0,
               (forall p', In p' ps -> In p' pairs) -> In pairName ps ->
               get (key_of x pairName)
                   (fold_left (fun acc p' =>
                      fold_left (record_ticker fetchTicker p') exchanges acc) ps prices0)
               = Some ticker).
    { induction ps as [|p rest IH]; intros prices0 Hsub Hin; [destruct Hin|].
      cbn [fold_left]. destruct Hin as [->|Hin].
      - apply K; [intros; apply Hsub; right; assumption|].
        apply exchanges_fresh with (x := x); auto;
          intros x' Hx' E; apply C; auto.
      - apply IH; auto. intros; apply Hsub; right; assumption. }
    apply G; auto.
Qed.

End Keys.

(** * The contract against the test doubles *)

Section Doubles.

Import FlashLoan Mocks.

Lemma set_allowance_Ok token holder spender amount e e' :
  set_allowance token holder spender amount e = Ok e' ->
  approvals e' = approvals e /\ routerAddress e' = routerAddress e /\
  forall t h s,
    allowances e' t h s
    = if (t =? token) && (h =? holder) && (s =? spender) then amount
      else allowances e t h s.
Proof.
  unfold set_allowance.
  destruct (holder =? 0); [discriminate|].
  destruct (spender =? 0); [discriminate|].
  intros H. inversion H. cbn. auto.
Qed.

Lemma move_Ok token sender recipient amount e e' :
  move token sender recipient amount e = Ok e' ->
  approvals e' = approvals e /\ routerAddress e' = routerAddress e /\
  allowances e' = allowances e.
Proof.
  unfold move.
  destruct (sender =? 0); [discriminate|].
  destruct (recipient =? 0); [discriminate|].
  destruct (balances e token sender <? amount); [discriminate|].
  intros H. inversion H. cbn. auto.
Qed.

(** What a settlement at the doubles found in place when it began. *)
Lemma settled_at_the_doubles c asset amount (w w' : World Chain) :
  settled Mocks.env c asset amount w w' ->
  approvals (ext w) asset (this (store w)) = true /\
  (lendingPool (store w) <> routerAddress (ext w) ->
   allowances (ext w) asset (this (store w)) (routerAddress (ext w)) = MAX_UINT256 \/
   amount <= allowances (ext w) asset (this (store w)) (routerAddress (ext w))).
Proof.
  unfold settled. cbv zeta.
  intros (e1 & e2 & premium & e3 & min1 & ia & e4 & min2 & fa & e5 & e6 &
          Ha1 & Ha2 & Hl & Hs & _).
  cbn [approve lend swapExactTokensForTokens Mocks.env] in Ha1, Ha2, Hl, Hs.
  unfold token_approve in Ha1, Ha2.
  apply set_allowance_Ok in Ha1. destruct Ha1 as (A1 & R1 & L1).
  apply set_allowance_Ok in Ha2. destruct Ha2 as (A2 & R2 & L2).
  unfold mock_lend in Hl.
  destruct (isApproved e2 asset (this (store w))) eqn:Happ; [|discriminate Hl].
  cbn [negb] in Hl.
  destruct (balances e2 asset (poolAddress e2) <? amount); [discriminate Hl|].
  unfold token_transfer in Hl.
  destruct (move asset (poolAddress e2) (this (store w)) amount e2) as [e3'|r] eqn:Hm;
    [|discriminate Hl].
  inversion Hl; subst e3' premium; clear Hl.
  apply move_Ok in Hm. destruct Hm as (A3 & R3 & L3).
  unfold isApproved in Happ. apply andb_prop in Happ. destruct Happ as [Hflag _].
  split; [rewrite A2, A1 in Hflag; exact Hflag|].
  intros Hne.
  unfold swap in Hs.
  destruct (block_timestamp c + 300 <? timestamp e3); [discriminate Hs|].
  destruct (quote e3 amount asset (intermediateToken (store w))) as [out|r];
    [|discriminate Hs].
  destruct (out <? min1); [discriminate Hs|].
  destruct (token_transferFrom e3 asset (routerAddress e3) (this (store w))
              (routerAddress e3) amount) as [e3'|r] eqn:Hpull; [|discriminate Hs].
  clear Hs. unfold token_transferFrom in Hpull. cbv zeta in Hpull.
  assert (E : allowances e3 asset (this (store w)) (routerAddress e3)
              = allowances (ext w) asset (this (store w)) (routerAddress (ext w))).
  { rewrite L3, L2, L1, R3, R2, R1.
    destruct (Z.eqb_spec (routerAddress (ext w)) (lendingPool (store w))) as [K|K];
      [congruence|].
    rewrite !andb_false_r. reflexivity. }
  rewrite E in Hpull.
  destruct (Z.eqb_spec (allowances (ext w) asset (this (store w)) (routerAddress (ext w)))
                       MAX_UINT256) as [K|K]; [left; exact K|].
  destruct (Z.ltb_spec (allowances (ext w) asset (this (store w)) (routerAddress (ext w)))
                       amount); [discriminate Hpull|].
  right. assumption.
Qed.

(** X19.  At the mock pool and the mock router, with tokens that
    enforce allowances, a settlement goes through only where the pool
    has flagged the contract as approved for the asset ([setApproval])
    and the router is allowed to pull the amount from the contract.
    The contract itself approves the pool and nobody else. *)
Theorem settlement_needs_approvals c asset amount (w w' : World Chain) :
  run_tx (initiateFlashLoan Mocks.env c asset amount) w = (w', Ok tt) ->
  approvals (ext w) asset (this (store w)) = true /\
  (lendingPool (store w) <> routerAddress (ext w) ->
   allowances (ext w) asset (this (store w)) (routerAddress (ext w)) = MAX_UINT256 \/
   amount <= allowances (ext w) asset (this (store w)) (routerAddress (ext w))).
Proof.
  intros H. unfold run_tx in H.
  destruct (initiateFlashLoan Mocks.env c asset amount w) as [[u w1]|e] eqn:E;
    [|discriminate H].
  inversion H; subst w1. apply initiateFlashLoan_Ok in E.
  destruct E as (_ & _ & _ & _ & _ & _ & _ & Hs & _).
  eapply settled_at_the_doubles; eassumption.
Qed.

(** X20.  On the fixture of the test-suite, where [setApproval] was
    never called, no [initiateFlashLoan] settles, whoever sends it, for
    whatever asset and amount and however the contract is configured:
    the call of the fixture's own test reverts at the pool, which has
    not approved the receiver.  Once the pool has approved it the call
    reverts in the first swap, for want of the router's allowance. *)
Theorem fixture_of_the_suite_settles_nothing :
  (forall c asset amount s w',
      run_tx (initiateFlashLoan Mocks.env c asset amount) (mkWorld s fixture_chain)
      <> (w', Ok tt)) /\
  (forall caller,
      initiateFlashLoan Mocks.env (at_block caller 10) TOKEN_A (ether 100) fixture
      = Revert (Error "MockAavePool: receiver not approved")) /\
  (forall caller,
      initiateFlashLoan Mocks.env (at_block caller 10) TOKEN_A (ether 100)
        (mkWorld fixture_storage approved_chain)
      = Revert (ErrorOfBytes (Error "ERC20: insufficient allowance"))).
Proof.
  split; [|split].
  - intros c asset amount s w' H. unfold run_tx in H.
    destruct (initiateFlashLoan Mocks.env c asset amount (mkWorld s fixture_chain))
      as [[u w1]|e] eqn:E; [|discriminate H].
    apply initiateFlashLoan_Ok in E.
    destruct E as (_ & _ & _ & _ & _ & _ & _ & Hs & _).
    apply settled_at_the_doubles in Hs. destruct Hs as [Hs _].
    cbn in Hs. discriminate Hs.
  - intros caller. vm_compute. reflexivity.
  - intros caller. vm_compute. reflexivity.
Qed.

End Doubles.

Lemma pair_of_snd (A B : Type) (p : A * B) (b : B) : snd p = b -> p = (fst p, b).
Proof. destruct p; cbn; intros ->; reflexivity. Qed.

(** A fixture in which the pool has approved the contract and the router
    may pull from it: the stranger's loan of 100 tokens settles. *)
Lemma settlement_needs_approvals_witness :
  let chain :=
    Mocks.with_allowances
      (fun token holder spender =>
         if (holder =? Mocks.ARBITRAGE) && (spender =? Mocks.ROUTER) then MAX_UINT256
         else Mocks.allowances Mocks.approved_chain token holder spender)
      Mocks.approved_chain in
  let w := FlashLoan.mkWorld Mocks.fixture_storage chain in
  let r := run_tx (FlashLoan.initiateFlashLoan Mocks.env (Mocks.at_block Mocks.USER1 10)
                     Mocks.TOKEN_A (Mocks.ether 100)) w in
  snd r = Ok tt /\
  Mocks.balances (FlashLoan.ext (fst r)) Mocks.TOKEN_A Mocks.ARBITRAGE = Mocks.ether 32 /\
  Mocks.approvals chain Mocks.TOKEN_A Mocks.ARBITRAGE = true.
Proof.
  cbv zeta.
  match goal with |- snd ?r = Ok tt /\ _ =>
    assert (E : snd r = Ok tt) by (vm_compute; reflexivity);
    pose proof (pair_of_snd r E) as P
  end.
  split; [exact E|]. split; [vm_compute; reflexivity|].
  exact (proj1 (@settlement_needs_approvals _ _ _ _ _ P)).
Defined.

(** * The properties above at concrete inputs *)


Lemma only_the_owner_configures_witness :
  Mocks.USER1 <> FlashLoan.owner (FlashLoan.store Mocks.fixture) /\
  FlashLoan.setMinProfitBps (Mocks.at_block Mocks.USER1 10) 5000 Mocks.fixture
  = Revert (Error "Ownable: caller is not the owner") /\
  FlashLoan.minProfitBps
    (FlashLoan.store (FlashLoan.step Mocks.env (Mocks.at_block Mocks.USER1 10)
                                     (FlashLoan.SetMinProfitBps 5000) Mocks.fixture))
  = 100.
Proof.
  assert (H : FlashLoan.msg_sender (Mocks.at_block Mocks.USER1 10)
              <> FlashLoan.owner (FlashLoan.store Mocks.fixture))
    by (vm_compute; discriminate).
  split; [exact H|].
  destruct (@only_the_owner_configures _ Mocks.env _ _ H) as (_ & B & _ & _ & _ & _ & S).
  split; [apply B|].
  destruct (S (FlashLoan.SetMinProfitBps 5000)) as (_ & _ & -> & _).
  reflexivity.
Defined.



Lemma configuration_stays_in_range_witness :
  let w := FlashLoan.replay Mocks.env
             [(Mocks.at_block Mocks.OWNER 1, FlashLoan.SetMinProfitBps 250);
              (Mocks.at_block Mocks.OWNER 2, FlashLoan.SetMaxSlippage 10000);
              (Mocks.at_block Mocks.OWNER 3, FlashLoan.SetMaxFlashLoanAmount 0)]
             (FlashLoan.mkWorld Mocks.deployed_storage Mocks.fixture_chain) in
  FlashLoan.reachable Mocks.env w /\
  FlashLoan.minProfitBps (FlashLoan.store w) = 250 /\
  0 < FlashLoan.maxSlippage (FlashLoan.store w) < FlashLoan.MAX_BPS /\
  0 < FlashLoan.maxFlashLoanAmount (FlashLoan.store w) <= MAX_UINT256.
Proof.
  cbv zeta.
  match goal with |- FlashLoan.reachable _ ?w /\ _ =>
    assert (R : FlashLoan.reachable Mocks.env w)
  end.
  { apply reachable_replay. apply FlashLoan.reach_deployed. exact deployed_fixture. }
  split; [exact R|]. split; [vm_compute; reflexivity|].
  destruct (@configuration_stays_in_range _ Mocks.env _ R) as (_ & S & _ & A). auto.
Defined.



Lemma lock_is_free_between_transactions_witness :
  let env := Scripted.env 110 in
  let w := FlashLoan.replay env
             [(Mocks.at_block Mocks.OWNER 1,
               FlashLoan.SetIntermediateToken Mocks.WETH_TOKEN);
              (Mocks.at_block Mocks.USER1 10,
               FlashLoan.InitiateFlashLoan Mocks.TOKEN_A 100);
              (Mocks.at_block Mocks.OWNER 11,
               FlashLoan.EmergencyWithdraw Mocks.TOKEN_A Mocks.OWNER)]
             Scripted.start in
  FlashLoan.reachable env w /\
  FlashLoan.successfulTrades (FlashLoan.store w) = 1 /\
  FlashLoan.entered (FlashLoan.store w) = false.
Proof.
  cbv zeta.
  match goal with |- FlashLoan.reachable _ ?w /\ _ =>
    assert (R : FlashLoan.reachable (Scripted.env 110) w)
  end.
  { apply reachable_replay. apply FlashLoan.reach_deployed. exact deployed_fixture. }
  split; [exact R|]. split; [vm_compute; reflexivity|].
  exact (@lock_is_free_between_transactions _ (Scripted.env 110) _ R).
Defined.



Lemma calculateSlippage_in_basis_points_witness :
  exists v,
    FlashLoan._calculateSlippage 1000 900 Mocks.fixture = Ok (v, Mocks.fixture) /\
    v * 1000 <= (1000 - 900) * FlashLoan.MAX_BPS < (v + 1) * 1000.
Proof.
  assert (A : 0 <= 900) by lia. assert (B : 0 <= 1000) by lia.
  pose proof (@calculateSlippage_in_basis_points _ 1000 900 Mocks.fixture A B)
    as (_ & H & _).
  destruct H as (v & E & _ & R); [lia | vm_compute; discriminate |].
  exists v. split; [exact E | exact R].
Defined.


Lemma getAmountsOut_follows_the_path_witness :
  Mocks.getAmountsOut Mocks.fixture_chain (Mocks.ether 100)
    [Mocks.TOKEN_A; Mocks.WETH_TOKEN; Mocks.TOKEN_A]
  = Ok [Mocks.ether 100; Mocks.ether 110; Mocks.ether 132] /\
  nth 2 [Mocks.ether 100; Mocks.ether 110; Mocks.ether 132] 0
  = nth 1 [Mocks.ether 100; Mocks.ether 110; Mocks.ether 132] 0
    * Mocks.exchangeRates Mocks.fixture_chain Mocks.WETH_TOKEN Mocks.TOKEN_A
    / FlashLoan.ONE_ETHER.
Proof.
  assert (E : Mocks.getAmountsOut Mocks.fixture_chain (Mocks.ether 100)
                [Mocks.TOKEN_A; Mocks.WETH_TOKEN; Mocks.TOKEN_A]
              = Ok [Mocks.ether 100; Mocks.ether 110; Mocks.ether 132])
    by (vm_compute; reflexivity).
  split; [exact E|].
  destruct (@getAmountsOut_follows_the_path _ _ _ _ E) as (_ & _ & _ & H).
  destruct (H 1%nat) as (_ & _ & H2); [cbn; lia|]. exact H2.
Defined.



Lemma estimated_profit_is_not_invented_witness :
  FlashLoan._calculateEstimatedProfit Mocks.env Mocks.TOKEN_A (Mocks.ether 100)
    Mocks.fixture = Ok (Mocks.ether 32, Mocks.fixture) /\
  (Mocks.ether 100 + Mocks.ether 32) * (FlashLoan.ONE_ETHER * FlashLoan.ONE_ETHER)
  <= Z.max (Mocks.ether 100 * (11 * 10 ^ 17 * (12 * 10 ^ 17)))
           (Mocks.ether 100 * (FlashLoan.ONE_ETHER * FlashLoan.ONE_ETHER)).
Proof.
  assert (E : FlashLoan._calculateEstimatedProfit Mocks.env Mocks.TOKEN_A
                (Mocks.ether 100) Mocks.fixture = Ok (Mocks.ether 32, Mocks.fixture))
    by (vm_compute; reflexivity).
  split; [exact E|].
  assert (A : 0 <= Mocks.ether 100) by (vm_compute; discriminate).
  destruct (@estimated_profit_is_not_invented _ _ _ _ _ A E) as (_ & _ & H & _).
  exact H.
Defined.



Lemma nothing_is_sent_past_the_limits_witness :
  let call io :=
    Orchestrator.executeArbitrage Detector.unitsAsDouble "WETH/DAI"
      Orchestrator.sample_opportunity io 1700000000000%float
      (Orchestrator.initialBot 0%float) in
  In Orchestrator.SendBundle (snd (call (Orchestrator.Resolved 1))) /\
  Js.gt (Orchestrator.optimalSize Orchestrator.sample_opportunity)
        (Orchestrator.maxPositionSize "WETH/DAI") = false /\
  ~ In Orchestrator.SendBundle (snd (call Orchestrator.SimulationReverts)).
Proof.
  cbv zeta.
  assert (S : In Orchestrator.SendBundle
                 (snd (Orchestrator.executeArbitrage Detector.unitsAsDouble "WETH/DAI"
                         Orchestrator.sample_opportunity (Orchestrator.Resolved 1)
                         1700000000000%float (Orchestrator.initialBot 0%float))))
    by (vm_compute; auto).
  split; [exact S|].
  destruct (@nothing_is_sent_past_the_limits _ _ _ _ _ _ S) as (_ & G & _).
  split; [exact G|].
  intros H.
  destruct (@nothing_is_sent_past_the_limits _ _ _ _ _ _ H) as (_ & _ & _ & [K|[i K]] & _);
    discriminate K.
Defined.



Lemma checkBotHealth_verdict_witness :
  exists report,
    Orchestrator.checkBotHealth 0%float 300000%float (Orchestrator.initialStats 0%float)
    = (Js.Normal false, report) /\
    In Orchestrator.suboptimal report.
Proof.
  destruct (@checkBotHealth_verdict 0%float 300000%float (Orchestrator.initialStats 0%float)
              0%float 0%float
              eq_refl eq_refl) as (report & E & W & T & _).
  { cbn. lia. }
  rewrite (T eq_refl) in E, W.
  exists report. split; [exact E|]. apply W. reflexivity.
Defined.
